(** * Meshtastic MQTT time service: a shallow embedding of
      [src/service/mqtt_time_service.py] and the properties of its
      message handler [on_message].

    The handler is a chain of guards with early returns.  It is modelled as
    a function from an inbound message to an [outcome]: the log calls made,
    the publish calls made, and whether the call returned or an exception
    escaped.  Library calls ([str.split], [bytes.decode], [json.loads],
    [str.lower], [int(s, 16)], [strftime], [json.dumps]) are modelled after
    CPython's behaviour; what depends on the interpreter and the machine
    (Unicode tables, recursion limit, the clock, the time-zone database) is
    gathered in the record [Host]. *)

From Stdlib Require Import String Ascii.
From Stdlib Require Import List NArith ZArith Bool Lia Wf_nat.
From Stdlib.Strings Require Import Byte.
Import ListNotations.

Set Implicit Arguments.

(* ===================================================================== *)
(** ** Python [str]: a sequence of Unicode code points *)
(* ===================================================================== *)

Definition codepoint := N.
Definition str := list codepoint.

(** A character and a [str] from ASCII literals. *)
Definition chr (a : ascii) : codepoint := N_of_ascii a.
Arguments chr a%_char.

Definition lit (s : string) : str :=
  map N_of_ascii (list_ascii_of_string s).
Arguments lit s%_string.

(** [bytes] literals.  A JSON text is written with apostrophes where the
    text has double quotes; [jbytes] puts the quotes back. *)
Definition requote (c : codepoint) : codepoint :=
  if N.eqb c 39 then 34%N else c.
Definition jstr (s : string) : str := map requote (lit s).
Arguments jstr s%_string.
Definition bytes := list byte.
Definition encode_ascii (s : str) : bytes :=
  map (fun c => match Byte.of_N c with Some b => b | None => x3f end) s.
Definition jbytes (s : string) : bytes := encode_ascii (jstr s).
Arguments jbytes s%_string.

(* ===================================================================== *)
(** ** The host: interpreter, Unicode tables, clock, time-zone database *)
(* ===================================================================== *)

(** An aware [datetime] as [strftime] reads it: the broken-down local time
    and the zone abbreviation that [%Z] prints. *)
Record datetime := {
  year : N; month : N; day : N;
  hour : N; minute : N; second : N;
  tzname : str
}.

(** A [pytz] time zone, known by its key. *)
Record tzinfo := { zone : str }.

(** What [on_message] reads from outside the program.
    - [recursion_limit]: how many nested JSON containers the scanner of
      [json.loads] may enter before [RecursionError];
    - [int_max_str_digits]: [sys.get_int_max_str_digits()], 0 for no limit;
    - [unicode_lower s i]: the lower-case mapping of the non-ASCII character
      at index [i] of [s] (the final-sigma rule reads the context);
    - [unicode_isspace], [unicode_todecimal]: [Py_UNICODE_ISSPACE] and
      [Py_UNICODE_TODECIMAL] (a digit value 0..9), read by [int()] for
      characters from 127 up;
    - [pytz_timezone]: [None] when [pytz.timezone] raises
      [UnknownTimeZoneError];
    - [datetime_now]: the reading of the clock by [datetime.now(tz)]. *)
Record Host := {
  recursion_limit : nat;
  int_max_str_digits : N;
  unicode_lower : str -> nat -> str;
  unicode_isspace : codepoint -> bool;
  unicode_todecimal : codepoint -> option N;
  pytz_timezone : str -> option tzinfo;
  datetime_now : tzinfo -> datetime
}.

(** Exceptions that can leave the handler or a library call in it. *)
Inductive exn :=
| AttributeError
| TypeError
| ValueError
| RecursionError
| UnknownTimeZoneError.

Module Str.

Local Open Scope N_scope.

Fixpoint eqb (a b : str) : bool :=
  match a, b with
  | [], [] => true
  | x :: a', y :: b' => N.eqb x y && eqb a' b'
  | _, _ => false
  end.

(** [s.split(sep)] for a separator of one character ([topic.split("/")]).
    [cur] holds the current segment, last character first. *)
Fixpoint split_from (sep : codepoint) (cur : str) (s : str) : list str :=
  match s with
  | [] => [rev cur]
  | c :: r =>
      if c =? sep then rev cur :: split_from sep [] r
      else split_from sep (c :: cur) r
  end.
Definition split (sep : codepoint) (s : str) : list str := split_from sep [] s.

(** [s.startswith(p)] *)
Fixpoint startswith (p s : str) : bool :=
  match p, s with
  | [], _ => true
  | x :: p', y :: s' => (x =? y) && startswith p' s'
  | _ :: _, [] => false
  end.

(** [needle in hay] *)
Fixpoint contains (needle hay : str) : bool :=
  startswith needle hay ||
  match hay with
  | [] => false
  | _ :: hay' => contains needle hay'
  end.

(** [s.lstrip(chars)] for a one-character set ([hex_id.lstrip("!")]):
    every leading occurrence goes. *)
Fixpoint lstrip (ch : codepoint) (s : str) : str :=
  match s with
  | c :: r => if c =? ch then lstrip ch r else s
  | [] => []
  end.

(** [str.lower()] on an ASCII character. *)
Definition ascii_lower (c : codepoint) : codepoint :=
  if (65 <=? c) && (c <=? 90) then c + 32 else c.

(** [s.lower()]: ASCII letters by [ascii_lower], every other character by
    the host's table. *)
Fixpoint lower_from (h : Host) (whole : str) (i : nat) (s : str) : str :=
  match s with
  | [] => []
  | c :: r =>
      (if c <? 128 then [ascii_lower c] else unicode_lower h whole i)
        ++ lower_from h whole (S i) r
  end.
Definition lower (h : Host) (s : str) : str := lower_from h s 0 s.

End Str.

(* ===================================================================== *)
(** ** [bytes.decode("utf-8")] *)
(* ===================================================================== *)

Module Utf8.

Local Open Scope N_scope.

Definition between (lo hi b : N) : bool := (lo <=? b) && (b <=? hi).
Definition cont (b : N) : bool := between 0x80 0xBF b.

(** The second byte of a three-byte sequence: no overlong form after E0, no
    surrogate after ED. *)
Definition second_of_3 (b0 b1 : N) : bool :=
  if b0 =? 0xE0 then between 0xA0 0xBF b1
  else if b0 =? 0xED then between 0x80 0x9F b1
  else cont b1.

(** The second byte of a four-byte sequence: no overlong form after F0,
    nothing above U+10FFFF after F4. *)
Definition second_of_4 (b0 b1 : N) : bool :=
  if b0 =? 0xF0 then between 0x90 0xBF b1
  else if b0 =? 0xF4 then between 0x80 0x8F b1
  else cont b1.

(** The strict decoder: [None] is [UnicodeDecodeError]. *)
Fixpoint decode (bs : bytes) : option str :=
  match bs with
  | [] => Some []
  | b0 :: r0 =>
      let n0 := Byte.to_N b0 in
      if n0 <? 0x80 then option_map (cons n0) (decode r0)
      else if between 0xC2 0xDF n0 then
        match r0 with
        | b1 :: r1 =>
            let n1 := Byte.to_N b1 in
            if cont n1
            then option_map (cons ((n0 - 0xC0) * 64 + (n1 - 0x80))) (decode r1)
            else None
        | [] => None
        end
      else if between 0xE0 0xEF n0 then
        match r0 with
        | b1 :: b2 :: r2 =>
            let n1 := Byte.to_N b1 in
            let n2 := Byte.to_N b2 in
            if second_of_3 n0 n1 && cont n2
            then option_map
                   (cons ((n0 - 0xE0) * 4096 + (n1 - 0x80) * 64 + (n2 - 0x80)))
                   (decode r2)
            else None
        | _ => None
        end
      else if between 0xF0 0xF4 n0 then
        match r0 with
        | b1 :: b2 :: b3 :: r3 =>
            let n1 := Byte.to_N b1 in
            let n2 := Byte.to_N b2 in
            let n3 := Byte.to_N b3 in
            if second_of_4 n0 n1 && cont n2 && cont n3
            then option_map
                   (cons ((n0 - 0xF0) * 262144 + (n1 - 0x80) * 4096
                          + (n2 - 0x80) * 64 + (n3 - 0x80)))
                   (decode r3)
            else None
        | _ => None
        end
      else None
  end.

End Utf8.

(* ===================================================================== *)
(** ** Python values and [json.loads] *)
(* ===================================================================== *)

(** The objects [json.loads] builds.  A [float] keeps the text it was read
    from: the handler never computes with one.  A [dict] keeps its items in
    insertion order, one item per key. *)
Unset Elimination Schemes.
Inductive value :=
| PyNone
| PyBool (b : bool)
| PyInt (z : Z)
| PyFloat (lexeme : str)
| PyStr (s : str)
| PyList (items : list value)
| PyDict (items : list (str * value)).
Set Elimination Schemes.

Definition dict := list (str * value).

(** [d[k]], when the key is there. *)
Fixpoint dict_lookup (d : dict) (k : str) : option value :=
  match d with
  | [] => None
  | (k', v) :: d' => if Str.eqb k' k then Some v else dict_lookup d' k
  end.

(** [d[k] = v]: a key already there keeps its place and takes the value. *)
Fixpoint dict_set (d : dict) (k : str) (v : value) : dict :=
  match d with
  | [] => [(k, v)]
  | (k', v') :: d' =>
      if Str.eqb k' k then (k', v) :: d' else (k', v') :: dict_set d' k v
  end.

(** [d.get(k, default)] *)
Definition dict_get (d : dict) (k : str) (default : value) : value :=
  match dict_lookup d k with
  | Some v => v
  | None => default
  end.

Module Json.

Local Open Scope N_scope.

(** The result of scanning a prefix of the text: a value and the rest,
    [json.JSONDecodeError], or another exception. *)
Inductive scan (A : Type) :=
| Scanned (a : A) (rest : str)
| Malformed
| Escapes (e : exn).
Arguments Malformed {A}.
Arguments Escapes {A} e.

Definition is_ws (c : codepoint) : bool :=
  (c =? 32) || (c =? 9) || (c =? 10) || (c =? 13).

Fixpoint skip_ws (s : str) : str :=
  match s with
  | c :: r => if is_ws c then skip_ws r else s
  | [] => []
  end.

Definition is_digit (c : codepoint) : bool := (48 <=? c) && (c <=? 57).

Definition hex_digit (c : codepoint) : option N :=
  if is_digit c then Some (c - 48)
  else if (97 <=? c) && (c <=? 102) then Some (c - 87)
  else if (65 <=? c) && (c <=? 70) then Some (c - 55)
  else None.

Definition hex4 (a b c d : codepoint) : option N :=
  match hex_digit a, hex_digit b, hex_digit c, hex_digit d with
  | Some x, Some y, Some z, Some t => Some (((x * 16 + y) * 16 + z) * 16 + t)
  | _, _, _, _ => None
  end.

(** The character after a backslash, [u] apart. *)
Definition unescape (c : codepoint) : option codepoint :=
  if c =? 34 then Some 34          (* quote *)
  else if c =? 92 then Some 92     (* backslash *)
  else if c =? 47 then Some 47     (* slash *)
  else if c =? 98 then Some 8      (* b *)
  else if c =? 102 then Some 12    (* f *)
  else if c =? 110 then Some 10    (* n *)
  else if c =? 114 then Some 13    (* r *)
  else if c =? 116 then Some 9     (* t *)
  else None.

Definition is_high_surrogate (c : N) : bool := (0xD800 <=? c) && (c <=? 0xDBFF).
Definition is_low_surrogate (c : N) : bool := (0xDC00 <=? c) && (c <=? 0xDFFF).
Definition join_surrogates (hi lo : N) : N :=
  0x10000 + ((hi - 0xD800) * 1024 + (lo - 0xDC00)).

(** [scanstring] in strict mode, from the character after the opening
    quote.  [acc] is the text read so far, last character first. *)
Fixpoint scanstring (acc : str) (s : str) {struct s} : scan str :=
  match s with
  | [] => Malformed
  | c :: r =>
      if c =? 34 then Scanned (rev acc) r
      else if c =? 92 then
        match r with
        | [] => Malformed
        | e :: r1 =>
            if e =? 117 then
              match r1 with
              | h1 :: h2 :: h3 :: h4 :: r2 =>
                  match hex4 h1 h2 h3 h4 with
                  | None => Malformed
                  | Some cp =>
                      if is_high_surrogate cp then
                        match r2 with
                        | b :: u :: g1 :: g2 :: g3 :: g4 :: r3 =>
                            if (b =? 92) && (u =? 117) then
                              match hex4 g1 g2 g3 g4 with
                              | None => Malformed
                              | Some cp2 =>
                                  if is_low_surrogate cp2
                                  then scanstring (join_surrogates cp cp2 :: acc) r3
                                  else scanstring (cp :: acc) r2
                              end
                            else scanstring (cp :: acc) r2
                        | _ => scanstring (cp :: acc) r2
                        end
                      else scanstring (cp :: acc) r2
                  end
              | _ => Malformed
              end
            else
              match unescape e with
              | Some ch => scanstring (ch :: acc) r1
              | None => Malformed
              end
        end
      else if c <? 32 then Malformed
      else scanstring (c :: acc) r
  end.

Fixpoint span_digits (s : str) : str * str :=
  match s with
  | c :: r =>
      if is_digit c then let (d, t) := span_digits r in (c :: d, t)
      else ([], s)
  | [] => ([], [])
  end.

(** The value of a run of decimal digits. *)
Definition decimal_value (ds : str) : Z :=
  fold_left (fun acc c => (10 * acc + Z.of_N (c - 48))%Z) ds 0%Z.

(** The digit-count guard of [int] conversions between decimal text and
    [int] (none up to 640 digits, none when the limit is 0). *)
Definition over_digit_limit (h : Host) (ndigits : nat) : bool :=
  let n := N.of_nat ndigits in
  (640 <? n) && (0 <? int_max_str_digits h) && (int_max_str_digits h <? n).

(** An integer literal: [int(text)], which raises [ValueError] past the
    digit limit. *)
Definition int_literal (h : Host) (neg : bool) (ds rest : str) : scan value :=
  if over_digit_limit h (length ds) then Escapes ValueError
  else Scanned (PyInt (if neg then - decimal_value ds else decimal_value ds)%Z) rest.

(** The parts of a number: an optional minus, an integer part with no
    leading zero, an optional fraction, an optional exponent.  Each gives
    the characters it read and the text left. *)
Definition sign_part (s : str) : bool * str :=
  match s with
  | c :: r => if c =? 45 then (true, r) else (false, s)
  | [] => (false, s)
  end.

Definition int_part (s : str) : option (str * str) :=
  match s with
  | [] => None
  | c :: r =>
      if (49 <=? c) && (c <=? 57)
      then let (d, t) := span_digits r in Some (c :: d, t)
      else if c =? 48 then Some ([c], r)
      else None
  end.

Definition frac_part (s : str) : str * str :=
  match s with
  | dot :: d1 :: r =>
      if (dot =? 46) && is_digit d1
      then let (d, t) := span_digits r in (dot :: d1 :: d, t)
      else ([], s)
  | _ => ([], s)
  end.

Definition exp_sign (s : str) : str * str :=
  match s with
  | sg :: r => if (sg =? 45) || (sg =? 43) then ([sg], r) else ([], s)
  | [] => ([], s)
  end.

Definition exp_part (s : str) : str * str :=
  match s with
  | e :: r =>
      if (e =? 101) || (e =? 69) then
        let '(sign, r') := exp_sign r in
        let (d, t) := span_digits r' in
        match d with
        | [] => ([], s)
        | _ :: _ => (e :: sign ++ d, t)
        end
      else ([], s)
  | [] => ([], s)
  end.

(** [_match_number]: an [int] when there is neither fraction nor exponent,
    a [float] otherwise. *)
Definition match_number (h : Host) (s : str) : scan value :=
  let '(neg, s1) := sign_part s in
  match int_part s1 with
  | None => Malformed
  | Some (ds, s2) =>
      let '(frac, s3) := frac_part s2 in
      let '(exp, s4) := exp_part s3 in
      match frac, exp with
      | [], [] => int_literal h neg ds s4
      | _, _ =>
          Scanned (PyFloat ((if neg then [45] else []) ++ ds ++ frac ++ exp)) s4
      end
  end.

Section Containers.

(** The scanner for one value, one nesting level further in. *)
Variable elem : str -> scan value.

(** The members of an object from the first key on.  Every round reads at
    least a key, so [fuel] above the length of the text is never used up. *)
Fixpoint object_members (fuel : nat) (acc : dict) (s : str) : scan value :=
  match fuel with
  | O => Malformed
  | S f =>
      match s with
      | [] => Malformed
      | c :: r =>
          if c =? 34 then
            match scanstring [] r with
            | Scanned key r1 =>
                match skip_ws r1 with
                | [] => Malformed
                | c2 :: r2 =>
                    if c2 =? 58 then
                      match elem (skip_ws r2) with
                      | Scanned v r3 =>
                          let acc' := dict_set acc key v in
                          match skip_ws r3 with
                          | [] => Malformed
                          | c3 :: r4 =>
                              if c3 =? 125 then Scanned (PyDict acc') r4
                              else if c3 =? 44
                              then object_members f acc' (skip_ws r4)
                              else Malformed
                          end
                      | Malformed => Malformed
                      | Escapes e => Escapes e
                      end
                    else Malformed
                end
            | Malformed => Malformed
            | Escapes e => Escapes e
            end
          else Malformed
      end
  end.

(** [_parse_object], from the character after the brace. *)
Definition parse_object (s : str) : scan value :=
  match skip_ws s with
  | [] => Malformed
  | c :: r =>
      if c =? 125 then Scanned (PyDict []) r
      else object_members (S (length s)) [] (c :: r)
  end.

(** The items of an array from the first item on. *)
Fixpoint array_items (fuel : nat) (acc : list value) (s : str) : scan value :=
  match fuel with
  | O => Malformed
  | S f =>
      match elem s with
      | Scanned v r1 =>
          match skip_ws r1 with
          | [] => Malformed
          | c :: r2 =>
              if c =? 93 then Scanned (PyList (rev (v :: acc))) r2
              else if c =? 44 then array_items f (v :: acc) (skip_ws r2)
              else Malformed
          end
      | Malformed => Malformed
      | Escapes e => Escapes e
      end
  end.

(** [_parse_array], from the character after the bracket. *)
Definition parse_array (s : str) : scan value :=
  match skip_ws s with
  | [] => Malformed
  | c :: r =>
      if c =? 93 then Scanned (PyList []) r
      else array_items (S (length s)) [] (c :: r)
  end.

End Containers.

(** [scan_once]: one JSON value at the head of [s].  [depth] is the number
    of containers that may still be entered. *)
Fixpoint scan_once (h : Host) (depth : nat) (s : str) {struct depth} : scan value :=
  match s with
  | [] => Malformed
  | c :: r =>
      if c =? 34 then
        match scanstring [] r with
        | Scanned t r' => Scanned (PyStr t) r'
        | Malformed => Malformed
        | Escapes e => Escapes e
        end
      else if c =? 123 then
        match depth with
        | O => Escapes RecursionError
        | S d => parse_object (scan_once h d) r
        end
      else if c =? 91 then
        match depth with
        | O => Escapes RecursionError
        | S d => parse_array (scan_once h d) r
        end
      else if Str.startswith (lit "null") s then Scanned PyNone (skipn 4 s)
      else if Str.startswith (lit "true") s then Scanned (PyBool true) (skipn 4 s)
      else if Str.startswith (lit "false") s then Scanned (PyBool false) (skipn 5 s)
      else if Str.startswith (lit "NaN") s then Scanned (PyFloat (lit "NaN")) (skipn 3 s)
      else if Str.startswith (lit "Infinity") s
      then Scanned (PyFloat (lit "Infinity")) (skipn 8 s)
      else if Str.startswith (lit "-Infinity") s
      then Scanned (PyFloat (lit "-Infinity")) (skipn 9 s)
      else match_number h s
  end.

(** What [json.loads] does with a [str]. *)
Inductive loaded :=
| Loaded (v : value)
| JSONDecodeError
| Raised (e : exn).

(** [json.loads(s)]: no byte-order mark, one value between optional white
    space, nothing after it. *)
Definition loads (h : Host) (s : str) : loaded :=
  if Str.startswith [0xFEFF] s then JSONDecodeError
  else
    match scan_once h (recursion_limit h) (skip_ws s) with
    | Scanned v rest =>
        match skip_ws rest with
        | [] => Loaded v
        | _ :: _ => JSONDecodeError
        end
    | Malformed => JSONDecodeError
    | Escapes e => Raised e
    end.

End Json.

(* ===================================================================== *)
(** ** [int(text, 16)] *)
(* ===================================================================== *)

Module PyInt.

Local Open Scope N_scope.

(** [Py_ISSPACE]: tab, line feed, vertical tab, form feed, carriage return,
    space. *)
Definition is_space (c : codepoint) : bool :=
  ((9 <=? c) && (c <=? 13)) || (c =? 32).

Fixpoint skip_space (s : str) : str :=
  match s with
  | c :: r => if is_space c then skip_space r else s
  | [] => []
  end.

(** [_PyLong_DigitValue]: the value of a character as a digit, for bases up
    to 36. *)
Definition digit_value (c : codepoint) : option N :=
  if (48 <=? c) && (c <=? 57) then Some (c - 48)
  else if (97 <=? c) && (c <=? 122) then Some (c - 87)
  else if (65 <=? c) && (c <=? 90) then Some (c - 55)
  else None.

Definition digit16 (c : codepoint) : option N :=
  match digit_value c with
  | Some d => if d <? 16 then Some d else None
  | None => None
  end.

(** [_PyUnicode_TransformDecimalAndSpaceToASCII]: an ASCII text is taken as
    it is; in any other text a character from 127 up becomes a space, an
    ASCII digit or a question mark. *)
Definition to_ascii (h : Host) (s : str) : str :=
  if forallb (fun c => c <? 128) s then s
  else
    map (fun c =>
           if c <? 127 then c
           else if unicode_isspace h c then 32
           else match unicode_todecimal h c with
                | Some d => 48 + d
                | None => 63
                end) s.

(** The digits and underscores of the literal: no two underscores in a row,
    none at the end.  Returns the value, the number of digits and the text
    left. *)
Fixpoint scan_digits (after_underscore : bool) (acc : Z) (n : nat) (s : str)
  : option (Z * nat * str) :=
  match s with
  | [] => if after_underscore then None else Some (acc, n, [])
  | c :: r =>
      if c =? 95 then
        if after_underscore then None else scan_digits true acc n r
      else
        match digit16 c with
        | Some d => scan_digits false (16 * acc + Z.of_N d)%Z (S n) r
        | None => if after_underscore then None else Some (acc, n, s)
        end
  end.

(** [PyLong_FromString(text, 16)]: white space, a sign, [0x] or [0X] with
    one underscore allowed after it, digits, white space.  [None] is
    [ValueError]. *)
Definition from_string16 (s : str) : option Z :=
  let s1 := skip_space s in
  let '(neg, s2) :=
    match s1 with
    | c :: r => if c =? 43 then (false, r)
                else if c =? 45 then (true, r)
                else (false, s1)
    | [] => (false, s1)
    end in
  let s3 :=
    match s2 with
    | z :: x :: r =>
        if (z =? 48) && ((x =? 120) || (x =? 88)) then
          match r with
          | u :: r' => if u =? 95 then r' else r
          | [] => r
          end
        else s2
    | _ => s2
    end in
  match s3 with
  | [] => None
  | c :: _ =>
      if c =? 95 then None
      else
        match scan_digits false 0%Z 0%nat s3 with
        | Some (v, n, rest) =>
            match n, skip_space rest with
            | S _, [] => Some (if neg then - v else v)%Z
            | _, _ => None
            end
        | None => None
        end
  end.

(** [int(text, 16)] for a [str]. *)
Definition int16 (h : Host) (s : str) : option Z :=
  from_string16 (to_ascii h s).

End PyInt.

(** Line 60: [hex_node_id_to_decimal], [int(hex_id.lstrip("!"), 16)].
    [None] is [ValueError]. *)
Definition hex_node_id_to_decimal (h : Host) (hex_id : str) : option Z :=
  PyInt.int16 h (Str.lstrip (chr "!") hex_id).

(* ===================================================================== *)
(** ** Configuration (lines 34-40) *)
(* ===================================================================== *)

(** The process environment after [load_dotenv()]: the variables the
    handler's constants are read from. *)
Record Environ := {
  env_TIMEZONE : option str;
  env_TIME_TRIGGER : option str;
  env_BOT_NODE_ID : option str
}.

(** [os.getenv(name, default)] *)
Definition getenv (var : option str) (default : str) : str :=
  match var with
  | Some v => v
  | None => default
  end.

Definition TIMEZONE (env : Environ) : str :=
  getenv (env_TIMEZONE env) (lit "UTC").
Definition TIME_TRIGGER (h : Host) (env : Environ) : str :=
  Str.lower h (getenv (env_TIME_TRIGGER env) (lit "!time")).
Definition BOT_NODE_ID (env : Environ) : str :=
  getenv (env_BOT_NODE_ID env) [].

(* ===================================================================== *)
(** ** Numbers as text *)
(* ===================================================================== *)

(** The digit values of [n] in a base, least significant first; [fuel]
    rounds write every number below [base ^ fuel]. *)
Fixpoint digits_le (base : N) (fuel : nat) (n : N) : list N :=
  match fuel with
  | O => []
  | S f =>
      if N.eqb n 0 then []
      else N.modulo n base :: digits_le base f (N.div n base)
  end.

(** The digit values most significant first; none for 0. *)
Definition digits (base : N) (n : N) : list N :=
  rev (digits_le base (S (N.to_nat (N.log2 n))) n).

(** The decimal digits of a natural number, as [str(n)] writes them. *)
Definition decimal (n : N) : str :=
  match digits 10 n with
  | [] => [48%N]
  | ds => map (N.add 48) ds
  end.

(* ===================================================================== *)
(** ** The clock (lines 53-57) *)
(* ===================================================================== *)

(** [%0wd] *)
Definition zero_padded (width : nat) (n : N) : str :=
  let d := decimal n in
  repeat 48%N (width - length d) ++ d.

(** [now.strftime("%Y-%m-%d %H:%M:%S %Z")].  The year is written as the C
    library writes it from 1000 on, in four digits; below 1000 the number
    of digits depends on the platform, and the theorems that spell the year
    out assume a clock at the year 1000 or later, as that of a running
    service is. *)
Definition strftime (t : datetime) : str :=
  zero_padded 4 (year t) ++ lit "-" ++ zero_padded 2 (month t) ++ lit "-"
    ++ zero_padded 2 (day t) ++ lit " " ++ zero_padded 2 (hour t) ++ lit ":"
    ++ zero_padded 2 (minute t) ++ lit ":" ++ zero_padded 2 (second t)
    ++ lit " " ++ tzname t.

(** [current_time_str()]; [None] is [UnknownTimeZoneError] out of
    [pytz.timezone]. *)
Definition current_time_str (h : Host) (env : Environ) : option str :=
  match pytz_timezone h (TIMEZONE env) with
  | Some tz => Some (strftime (datetime_now h tz))
  | None => None
  end.

(* ===================================================================== *)
(** ** [json.dumps] of the reply (lines 156-165) *)
(* ===================================================================== *)

(** What [hex()] accepts among the objects [json.loads] builds: an [int],
    or a [bool], its subclass. *)
Inductive integer :=
| Int (z : Z)
| Bool (b : bool).

Definition as_integer (v : value) : option integer :=
  match v with
  | PyInt z => Some (Int z)
  | PyBool b => Some (Bool b)
  | _ => None
  end.

(** The dict literal of lines 156-161, by its four keys. *)
Record Response := {
  from_ : Z;
  type_ : str;
  payload_ : str;
  to_ : integer
}.

Module Dumps.

Local Open Scope N_scope.

Definition hex_char (d : N) : codepoint :=
  if d <? 10 then 48 + d else 87 + d.

(** [\uXXXX], lower-case digits *)
Definition u_escape (c : N) : str :=
  [92; 117; hex_char ((c / 4096) mod 16); hex_char ((c / 256) mod 16);
   hex_char ((c / 16) mod 16); hex_char (c mod 16)].

(** [ensure_ascii]: the printable ASCII characters stand for themselves,
    quote and backslash apart; the rest is escaped, above the basic plane
    as a surrogate pair. *)
Definition escape_char (c : codepoint) : str :=
  if c =? 34 then [92; 34]
  else if c =? 92 then [92; 92]
  else if c =? 10 then [92; 110]
  else if c =? 13 then [92; 114]
  else if c =? 9 then [92; 116]
  else if c =? 12 then [92; 102]
  else if c =? 8 then [92; 98]
  else if (32 <=? c) && (c <=? 126) then [c]
  else if c <? 0x10000 then u_escape c
  else
    let v := c - 0x10000 in
    u_escape (0xD800 + v / 1024) ++ u_escape (0xDC00 + v mod 1024).

Definition encode_str (s : str) : str :=
  [34] ++ flat_map escape_char s ++ [34].

(** [repr] of an [int]; [None] is the [ValueError] of the digit limit. *)
Definition encode_int (h : Host) (z : Z) : option str :=
  let d := decimal (Z.abs_N z) in
  if Json.over_digit_limit h (length d) then None
  else Some ((if (z <? 0)%Z then [45] else []) ++ d).

Definition encode_integer (h : Host) (i : integer) : option str :=
  match i with
  | Int z => encode_int h z
  | Bool true => Some (lit "true")
  | Bool false => Some (lit "false")
  end.

(** [json.dumps(response)]: the keys in the order of the literal, [", "]
    between items and [": "] after a key.  [None] is [ValueError]. *)
Definition dumps (h : Host) (r : Response) : option str :=
  match encode_int h (from_ r), encode_integer h (to_ r) with
  | Some f, Some t =>
      Some (lit "{" ++ encode_str (lit "from") ++ lit ": " ++ f ++ lit ", "
            ++ encode_str (lit "type") ++ lit ": " ++ encode_str (type_ r)
            ++ lit ", "
            ++ encode_str (lit "payload") ++ lit ": " ++ encode_str (payload_ r)
            ++ lit ", "
            ++ encode_str (lit "to") ++ lit ": " ++ t ++ lit "}")
  | _, _ => None
  end.

End Dumps.

(* ===================================================================== *)
(** ** The handler (lines 83-168) *)
(* ===================================================================== *)

(** The message paho hands to the callback: the topic as text, the payload
    as the bytes received. *)
Record Message := {
  topic : str;
  payload : bytes
}.

Inductive level := DEBUG | INFO | WARNING | ERROR.

(** The six log calls of [on_message], by their format strings.  A call
    is recorded whatever the level the logger lets through; [logging] itself
    raises nothing. *)
Inductive event :=
| CannotParsePayload (topic : str)                          (* line 113 *)
| FromFieldMissing (data : dict)                            (* line 129 *)
| TimeRequest (sender : integer) (gateway_hex channel region : str) (* line 132 *)
| UnexpectedGatewayFormat (gateway_hex : str)               (* line 146 *)
| CannotConvertGateway (gateway_hex : str)                  (* line 152 *)
| PublishedReply (downlink_topic payload_json : str).       (* line 168 *)

(** One call of [client.publish], by its arguments.  What the transport
    does with the call is not part of the handler. *)
Record publication := {
  pub_topic : str;
  pub_payload : str;
  pub_qos : N
}.

Inductive completion :=
| Returns
| Raises (e : exn).

(** What one call of the handler did: the log calls and the publish calls
    in order, and how the call ended. *)
Record outcome := {
  logged : list (level * event);
  published : list publication;
  ended : completion
}.

Definition returns (logs : list (level * event)) : outcome :=
  {| logged := logs; published := []; ended := Returns |}.
Definition raises (logs : list (level * event)) (e : exn) : outcome :=
  {| logged := logs; published := []; ended := Raises e |}.

(** Lines 110-114: [json.loads(message.payload.decode("utf-8"))] under the
    [except (json.JSONDecodeError, UnicodeDecodeError)]. *)
Inductive decoded :=
| Decoded (data : value)
| Undecodable
| Uncaught (e : exn).

Definition decode_payload (h : Host) (raw : bytes) : decoded :=
  match Utf8.decode raw with
  | None => Undecodable
  | Some text =>
      match Json.loads h text with
      | Json.Loaded v => Decoded v
      | Json.JSONDecodeError => Undecodable
      | Json.Raised e => Uncaught e
      end
  end.

(** [msg_type != "text"] *)
Definition is_text (msg_type : value) : bool :=
  match msg_type with
  | PyStr s => Str.eqb s (lit "text")
  | _ => false
  end.

(** Line 124: [TIME_TRIGGER not in payload.lower()], negated. *)
Definition has_trigger (h : Host) (env : Environ) (text : str) : bool :=
  Str.contains (TIME_TRIGGER h env) (Str.lower h text).

(** Line 164 *)
Definition downlink_topic (region : str) : str :=
  lit "msh/" ++ region ++ lit "/2/json/mqtt/".

Definition on_message (h : Host) (env : Environ) (message : Message) : outcome :=
  let parts := Str.split (chr "/") (topic message) in
  if (length parts <? 6)%nat then returns []                        (* 96 *)
  else
    let region := nth 1 parts [] in
    let channel := nth 4 parts [] in
    let gateway_hex := nth 5 parts [] in
    if Str.eqb channel (lit "mqtt") then returns []                  (* 104 *)
    else
      match decode_payload h (payload message) with                 (* 110 *)
      | Undecodable => returns [(DEBUG, CannotParsePayload (topic message))]
      | Uncaught e => raises [] e
      | Decoded (PyDict data) =>
          let msg_type := dict_get data (lit "type") (PyStr []) in
          let payload := dict_get data (lit "payload") (PyStr []) in
          match payload with
          | PyStr text =>
              if negb (is_text msg_type) then returns []             (* 120 *)
              else if negb (has_trigger h env text) then returns []  (* 124 *)
              else
                match dict_get data (lit "from") PyNone with         (* 127 *)
                | PyNone => returns [(WARNING, FromFieldMissing data)]
                | sender_decimal =>
                    match as_integer sender_decimal with             (* 134 *)
                    | None => raises [] TypeError
                    | Some sender =>
                        let log1 :=
                          (INFO, TimeRequest sender gateway_hex channel region) in
                        if negb (Str.startswith (lit "!") gateway_hex) then
                          returns [log1;
                                   (WARNING, UnexpectedGatewayFormat gateway_hex)]
                        else
                          match hex_node_id_to_decimal h gateway_hex with
                          | None =>
                              returns [log1;
                                       (ERROR, CannotConvertGateway gateway_hex)]
                          | Some gateway_decimal =>
                              match current_time_str h env with      (* 155 *)
                              | None => raises [log1] UnknownTimeZoneError
                              | Some time_str =>
                                  let response :=
                                    {| from_ := gateway_decimal;
                                       type_ := lit "sendtext";
                                       payload_ := lit "Current time: " ++ time_str;
                                       to_ := sender |} in
                                  match Dumps.dumps h response with  (* 165 *)
                                  | None => raises [log1] ValueError
                                  | Some payload_json =>
                                      {| logged :=
                                           [log1;
                                            (INFO, PublishedReply
                                                     (downlink_topic region)
                                                     payload_json)];
                                         published :=
                                           [{| pub_topic := downlink_topic region;
                                               pub_payload := payload_json;
                                               pub_qos := 0 |}];
                                         ended := Returns |}
                                  end
                              end
                          end
                    end
                end
          | _ => returns []                                          (* 120 *)
          end
      | Decoded _ => raises [] AttributeError                        (* 116 *)
      end.

(* ===================================================================== *)
(** ** Sample inputs *)
(* ===================================================================== *)

(** A host with CPython's defaults, a time-zone database that knows UTC,
    and the clock read at 2024-05-17 09:03:07 UTC.  Its lower-case table
    leaves characters outside ASCII as they are. *)
Definition sample_host : Host :=
  {| recursion_limit := 1000;
     int_max_str_digits := 4300;
     unicode_lower := fun s i => [nth i s 0%N];
     unicode_isspace := fun _ => false;
     unicode_todecimal := fun _ => None;
     pytz_timezone :=
       fun z => if Str.eqb z (lit "UTC") then Some {| zone := z |} else None;
     datetime_now :=
       fun _ => {| year := 2024; month := 5; day := 17;
                   hour := 9; minute := 3; second := 7;
                   tzname := lit "UTC" |} |}.

(** No variable set: every constant takes its default. *)
Definition default_environ : Environ :=
  {| env_TIMEZONE := None; env_TIME_TRIGGER := None; env_BOT_NODE_ID := None |}.

(** The uplink topic of the scenarios. *)
Definition uplink_topic : str := lit "msh/EU_868/2/json/LongFast/!aabbccdd".

(** Scenario 1 of the specification. *)
Definition time_request : Message :=
  {| topic := uplink_topic;
     payload := jbytes "{'type':'text','payload':'hey !time please','from':123456}" |}.

(* ===================================================================== *)
(** ** Definitions for the statements and their proofs *)
(* ===================================================================== *)

(** [sep.join(segs)], the inverse of [split]. *)
Fixpoint join (sep : codepoint) (segs : list str) : str :=
  match segs with
  | [] => []
  | [seg] => seg
  | seg :: rest => seg ++ sep :: join sep rest
  end.

(** One case per guard of [on_message]. *)
Ltac handler_cases :=
  unfold on_message; cbv zeta;
  repeat match goal with
         | |- context [negb ?b] => destruct b eqn:?; cbn [negb]
         | |- context [if ?b then _ else _] => destruct b eqn:?
         | |- context [match ?x with _ => _ end] => destruct x eqn:?
         end.

(** Cases of a scan that is known to have succeeded. *)
Ltac scan_cases H :=
  repeat match type of H with
         | context [match ?x with _ => _ end] => destruct x eqn:?
         | context [if ?b then _ else _] => destruct b eqn:?
         end;
  try discriminate H.

(** What one round of a scanner loop has read: the length facts that the
    lemmas [on_string], [on_elem] and [on_ws] give about the hypotheses. *)
Ltac lengths on_string on_elem on_ws :=
  repeat match goal with
         | E : Json.scanstring _ _ = Json.Scanned _ _ |- _ =>
             apply on_string in E
         | E : _ _ = Json.Scanned _ _ |- _ => apply on_elem in E
         | E : Json.skip_ws ?x = _ :: _ |- _ =>
             let L := fresh "L" in
             pose proof (on_ws x) as L; rewrite E in L; clear E
         | |- context [Json.skip_ws ?x] =>
             lazymatch goal with
             | _ : (length (Json.skip_ws x) <= length x)%nat |- _ => fail
             | _ => pose proof (on_ws x)
             end
         | _ : context [length (Json.skip_ws ?x)] |- _ =>
             lazymatch goal with
             | _ : (length (Json.skip_ws x) <= length x)%nat |- _ => fail
             | _ => pose proof (on_ws x)
             end
         end;
  simpl in *.

(** The segments of the topic the handler reads. *)
Definition parts_of (message : Message) : list str :=
  Str.split (chr "/") (topic message).
Definition region_of (message : Message) : str := nth 1 (parts_of message) [].
Definition channel_of (message : Message) : str := nth 4 (parts_of message) [].
Definition gateway_of (message : Message) : str := nth 5 (parts_of message) [].

(* Hex identifiers (lines 60-62). *)

Local Open Scope N_scope.

Definition is_hex_digit (c : codepoint) : bool :=
  ((48 <=? c) && (c <=? 57)) || ((97 <=? c) && (c <=? 102))
  || ((65 <=? c) && (c <=? 70)).

Definition hex_digit_value (c : codepoint) : N :=
  if c <=? 57 then c - 48 else if 97 <=? c then c - 87 else c - 55.

(** The number a run of hex digits writes, most significant digit first. *)
Definition hex_value (ds : str) : N :=
  fold_left (fun acc c => 16 * acc + hex_digit_value c) ds 0.

(** A valid hex gateway identifier: "!" and one or more hex digits. *)
Definition valid_hex_id (hex_id : str) : Prop :=
  exists ds, hex_id = chr "!" :: ds /\ ds <> [] /\ forallb is_hex_digit ds = true.

(** Modelled from the spec: [hexOf], the rendering of a decimal node
    identifier as a hex identifier, is not in the repository.  The
    specification's section 6 and glossary give the form: "!" followed by
    the lower-case hex digits of the 32-bit identifier, eight of them.
    Larger numbers take the digits they need. *)
Definition hexOf (d : Z) : str :=
  let ds := digits 16 (Z.to_N d) in
  chr "!" :: repeat 48 (8 - length ds)%nat ++ map Dumps.hex_char ds.

(** The number a list of base-16 digit values writes, least significant
    first. *)
Definition value_le (base : N) (ds : list N) : N :=
  fold_right (fun d acc => d + base * acc) 0 ds.

Local Close Scope N_scope.

(* Characters and inputs for the further properties. *)

(** The ASCII characters [int(text, 16)] can read: hex digits, white space,
    the underscore, the signs, and the [x] of the prefix. *)
Definition int16_char (c : codepoint) : bool :=
  is_hex_digit c || PyInt.is_space c || N.eqb c 95 || N.eqb c 43
  || N.eqb c 45 || N.eqb c 120 || N.eqb c 88.

(** An environment that names a time zone the sample host does not know. *)
Definition mars_environ : Environ :=
  {| env_TIMEZONE := Some (lit "Mars/Olympus");
     env_TIME_TRIGGER := None;
     env_BOT_NODE_ID := None |}.

(** A character that [json.dumps] writes so that [json.loads] reads it back
    as itself: any code point but a high surrogate, which the scanner joins
    with a low surrogate that follows. *)
Definition reads_back (c : codepoint) : bool :=
  negb (Json.is_high_surrogate c) && N.leb c 1114111.

(* ===================================================================== *)
(** ** Facts about [str] *)
(* ===================================================================== *)

Lemma str_eqb_eq (a b : str) : Str.eqb a b = true <-> a = b.
Proof.
  revert b; induction a as [|x a IH]; intros [|y b]; simpl;
    try (split; [discriminate | discriminate]); try tauto.
  rewrite andb_true_iff, N.eqb_eq, IH.
  split; [intros [-> ->]; reflexivity | intros E; inversion E; auto].
Qed.

Lemma str_eqb_refl (a : str) : Str.eqb a a = true.
Proof. apply str_eqb_eq; reflexivity. Qed.

Lemma str_eqb_neq (a b : str) : Str.eqb a b = false <-> a <> b.
Proof.
  rewrite <- str_eqb_eq. destruct (Str.eqb a b); split; congruence.
Qed.

Lemma startswith_iff (p s : str) :
  Str.startswith p s = true <-> exists post, s = p ++ post.
Proof.
  revert s; induction p as [|x p IH]; intros s; simpl.
  - split; [intros _; exists s; reflexivity | reflexivity].
  - destruct s as [|y s].
    + split; [discriminate | intros [post E]; discriminate].
    + rewrite andb_true_iff, N.eqb_eq, IH. split.
      * intros [-> [post ->]]. exists post; reflexivity.
      * intros [post E]. inversion E; subst. split; [reflexivity | eauto].
Qed.

(** [needle in hay] holds exactly when [needle] occurs in [hay]. *)
Lemma contains_iff (needle hay : str) :
  Str.contains needle hay = true <->
  exists pre post, hay = pre ++ needle ++ post.
Proof.
  induction hay as [|c hay IH].
  - simpl. rewrite orb_false_r, startswith_iff. split.
    + intros [post E]. exists [], post. exact E.
    + intros [pre [post E]]. destruct pre; [eauto | discriminate].
  - cbn [Str.contains]. rewrite orb_true_iff, startswith_iff, IH. split.
    + intros [[post E] | [pre [post E]]].
      * exists [], post. exact E.
      * exists (c :: pre), post. rewrite E. reflexivity.
    + intros [pre [post E]]. destruct pre as [|c' pre].
      * left. exists post. exact E.
      * right. inversion E; subst. eauto.
Qed.

Lemma split_from_nonempty (sep : codepoint) (s cur : str) :
  Str.split_from sep cur s <> [].
Proof.
  revert cur; induction s as [|c s IH]; intros cur; simpl.
  - discriminate.
  - destruct (N.eqb c sep); [discriminate | apply IH].
Qed.

Lemma split_from_join (sep : codepoint) (s cur : str) :
  join sep (Str.split_from sep cur s) = rev cur ++ s.
Proof.
  revert cur; induction s as [|c s IH]; intros cur; simpl.
  - rewrite app_nil_r. reflexivity.
  - destruct (N.eqb_spec c sep) as [-> | _].
    + specialize (IH []). simpl in IH.
      destruct (Str.split_from sep [] s) eqn:E.
      * exfalso. exact (split_from_nonempty _ _ _ E).
      * change (join sep (rev cur :: s0 :: l))
          with (rev cur ++ sep :: join sep (s0 :: l)).
        rewrite IH. reflexivity.
    + rewrite IH. simpl. rewrite <- app_assoc. reflexivity.
Qed.

Lemma split_join (sep : codepoint) (s : str) :
  join sep (Str.split sep s) = s.
Proof. unfold Str.split. rewrite split_from_join. reflexivity. Qed.

Lemma split_from_no_sep (sep : codepoint) (s cur : str) :
  ~ In sep cur ->
  Forall (fun seg => ~ In sep seg) (Str.split_from sep cur s).
Proof.
  revert cur; induction s as [|c s IH]; intros cur Hcur; simpl.
  - constructor; [rewrite <- in_rev; exact Hcur | constructor].
  - destruct (N.eqb_spec c sep) as [-> | Hne].
    + constructor; [rewrite <- in_rev; exact Hcur | apply IH; intros []].
    + apply IH. intros [E | H]; [congruence | auto].
Qed.

Lemma split_no_sep (sep : codepoint) (s : str) :
  Forall (fun seg => ~ In sep seg) (Str.split sep s).
Proof. apply split_from_no_sep. intros []. Qed.

(* ===================================================================== *)
(** ** The scanner consumes its input: the loops never run out of fuel *)
(* ===================================================================== *)

Lemma skip_ws_length (s : str) : (length (Json.skip_ws s) <= length s)%nat.
Proof.
  induction s as [|c s IH]; simpl; [lia |].
  destruct (Json.is_ws c); simpl; lia.
Qed.

Lemma span_digits_length (s d t : str) :
  Json.span_digits s = (d, t) -> (length t <= length s)%nat.
Proof.
  revert d t; induction s as [|c s IH]; intros d t H; simpl in H.
  - injection H as <- <-. simpl. lia.
  - destruct (Json.is_digit c).
    + destruct (Json.span_digits s) as [d' t'] eqn:E.
      injection H as <- <-. specialize (IH _ _ eq_refl). simpl. lia.
    + injection H as <- <-. simpl. lia.
Qed.

Lemma scanstring_shrinks (s : str) :
  forall acc t r,
    Json.scanstring acc s = Json.Scanned t r -> (length r < length s)%nat.
Proof.
  induction s as [s IH] using (induction_ltof1 _ (@length codepoint)).
  unfold ltof in IH. intros acc t r H.
  destruct s as [|c s0]; [discriminate H |].
  cbn [Json.scanstring] in H.
  scan_cases H;
    try (injection H as _ <-; simpl; lia);
    try (apply IH in H; simpl in *; lia).
Qed.

Lemma startswith_skipn (p s : str) :
  Str.startswith p s = true ->
  (length (skipn (length p) s) + length p = length s)%nat.
Proof.
  intros H. apply startswith_iff in H as [post ->].
  rewrite skipn_app, Nat.sub_diag, skipn_all. simpl. rewrite length_app. lia.
Qed.

Lemma sign_part_length (s : str) (neg : bool) (r : str) :
  Json.sign_part s = (neg, r) -> (length r <= length s)%nat.
Proof.
  unfold Json.sign_part. intros H.
  destruct s as [|c s0]; [| destruct (c =? 45)%N];
    injection H as _ <-; simpl; lia.
Qed.

Lemma int_part_shrinks (s ds r : str) :
  Json.int_part s = Some (ds, r) -> (length r < length s)%nat.
Proof.
  unfold Json.int_part. intros H.
  destruct s as [|c s0]; [discriminate H |].
  destruct ((49 <=? c)%N && (c <=? 57)%N).
  - destruct (Json.span_digits s0) as [d t] eqn:E.
    apply span_digits_length in E. injection H as _ <-. simpl. lia.
  - destruct (c =? 48)%N; [| discriminate H].
    injection H as _ <-. simpl. lia.
Qed.

Lemma frac_part_length (s f r : str) :
  Json.frac_part s = (f, r) -> (length r <= length s)%nat.
Proof.
  unfold Json.frac_part. intros H.
  destruct s as [|dot [|d1 s0]]; try (injection H as _ <-; simpl; lia).
  destruct ((dot =? 46)%N && Json.is_digit d1).
  - destruct (Json.span_digits s0) as [d t] eqn:E.
    apply span_digits_length in E. injection H as _ <-. simpl. lia.
  - injection H as _ <-. simpl. lia.
Qed.

Lemma exp_part_length (s e r : str) :
  Json.exp_part s = (e, r) -> (length r <= length s)%nat.
Proof.
  unfold Json.exp_part. intros H.
  destruct s as [|c s0]; [injection H as _ <-; simpl; lia |].
  destruct ((c =? 101)%N || (c =? 69)%N); [| injection H as _ <-; simpl; lia].
  destruct (Json.exp_sign s0) as [sign r'] eqn:E.
  assert (length r' <= length s0)%nat.
  { unfold Json.exp_sign in E.
    destruct s0 as [|sg s1]; [| destruct ((sg =? 45) || (sg =? 43))%N];
      injection E as _ <-; simpl; lia. }
  destruct (Json.span_digits r') as [d t] eqn:Ed. apply span_digits_length in Ed.
  destruct d; injection H as _ <-; simpl; lia.
Qed.

(** A number that is read takes at least one character. *)
Lemma match_number_shrinks (h : Host) (s : str) (v : value) (r : str) :
  Json.match_number h s = Json.Scanned v r -> (length r < length s)%nat.
Proof.
  unfold Json.match_number, Json.int_literal. intros H.
  destruct (Json.sign_part s) as [neg s1] eqn:E1. apply sign_part_length in E1.
  destruct (Json.int_part s1) as [[ds s2]|] eqn:E2; [| discriminate H].
  apply int_part_shrinks in E2.
  destruct (Json.frac_part s2) as [frac s3] eqn:E3. apply frac_part_length in E3.
  destruct (Json.exp_part s3) as [exp s4] eqn:E4. apply exp_part_length in E4.
  destruct frac, exp; try destruct (Json.over_digit_limit h (length ds));
    try discriminate H; injection H as _ <-; lia.
Qed.

Section Loops.

Variable elem : str -> Json.scan value.
Hypothesis elem_shrinks :
  forall s v r, elem s = Json.Scanned v r -> (length r < length s)%nat.

Lemma object_members_shrinks (fuel : nat) :
  forall acc s v r,
    Json.object_members elem fuel acc s = Json.Scanned v r ->
    (length r < length s)%nat.
Proof.
  induction fuel as [|f IH]; intros acc s v r H; [discriminate H |].
  cbn [Json.object_members] in H. scan_cases H.
  - injection H as _ <-. lengths scanstring_shrinks elem_shrinks skip_ws_length. lia.
  - apply IH in H. lengths scanstring_shrinks elem_shrinks skip_ws_length. lia.
Qed.

Lemma array_items_shrinks (fuel : nat) :
  forall acc s v r,
    Json.array_items elem fuel acc s = Json.Scanned v r ->
    (length r < length s)%nat.
Proof.
  induction fuel as [|f IH]; intros acc s v r H; [discriminate H |].
  cbn [Json.array_items] in H. scan_cases H.
  - injection H as _ <-. lengths scanstring_shrinks elem_shrinks skip_ws_length. lia.
  - apply IH in H. lengths scanstring_shrinks elem_shrinks skip_ws_length. lia.
Qed.

(** With more fuel than characters, the amount of fuel does not matter: the
    loops never stop for lack of it. *)
Lemma object_members_fuel (f1 : nat) :
  forall f2 acc s,
    (length s < f1)%nat -> (length s < f2)%nat ->
    Json.object_members elem f1 acc s = Json.object_members elem f2 acc s.
Proof.
  induction f1 as [|f1 IH]; intros f2 acc s H1 H2; [lia |].
  destruct f2 as [|f2]; [lia |].
  cbn [Json.object_members].
  repeat match goal with
         | |- match ?x with _ => _ end = match ?x with _ => _ end =>
             destruct x eqn:?
         | |- (if ?b then _ else _) = (if ?b then _ else _) =>
             destruct b eqn:?
         end;
    try reflexivity.
  apply IH; lengths scanstring_shrinks elem_shrinks skip_ws_length; lia.
Qed.

Lemma array_items_fuel (f1 : nat) :
  forall f2 acc s,
    (length s < f1)%nat -> (length s < f2)%nat ->
    Json.array_items elem f1 acc s = Json.array_items elem f2 acc s.
Proof.
  induction f1 as [|f1 IH]; intros f2 acc s H1 H2; [lia |].
  destruct f2 as [|f2]; [lia |].
  cbn [Json.array_items].
  repeat match goal with
         | |- match ?x with _ => _ end = match ?x with _ => _ end =>
             destruct x eqn:?
         | |- (if ?b then _ else _) = (if ?b then _ else _) =>
             destruct b eqn:?
         end;
    try reflexivity.
  apply IH; lengths scanstring_shrinks elem_shrinks skip_ws_length; lia.
Qed.

Lemma parse_object_shrinks (s : str) (v : value) (r : str) :
  Json.parse_object elem s = Json.Scanned v r -> (length r <= length s)%nat.
Proof.
  unfold Json.parse_object. intros H.
  destruct (Json.skip_ws s) as [|c s0] eqn:E; [discriminate H |].
  pose proof (skip_ws_length s) as L. rewrite E in L. simpl in L.
  destruct (c =? 125)%N.
  - injection H as _ <-. lia.
  - apply object_members_shrinks in H. simpl in H. lia.
Qed.

Lemma parse_array_shrinks (s : str) (v : value) (r : str) :
  Json.parse_array elem s = Json.Scanned v r -> (length r <= length s)%nat.
Proof.
  unfold Json.parse_array. intros H.
  destruct (Json.skip_ws s) as [|c s0] eqn:E; [discriminate H |].
  pose proof (skip_ws_length s) as L. rewrite E in L. simpl in L.
  destruct (c =? 93)%N.
  - injection H as _ <-. lia.
  - apply array_items_shrinks in H. simpl in H. lia.
Qed.

End Loops.

(** Every value that is read takes at least one character. *)
Lemma scan_once_shrinks (h : Host) (depth : nat) :
  forall s v r,
    Json.scan_once h depth s = Json.Scanned v r -> (length r < length s)%nat.
Proof.
  induction depth as [|d IH]; intros s v r H;
    (destruct s as [|c s0]; [discriminate H |]);
    cbn [Json.scan_once] in H;
    repeat match type of H with
           | context [if ?b then _ else _] => destruct b eqn:?
           end;
    try discriminate H;
    try (apply match_number_shrinks in H; exact H);
    try (destruct (Json.scanstring [] s0) eqn:E; try discriminate H;
         injection H as _ <-; apply scanstring_shrinks in E; simpl; lia);
    try (apply (@parse_object_shrinks (Json.scan_once h d) IH) in H; simpl; lia);
    try (apply (@parse_array_shrinks (Json.scan_once h d) IH) in H; simpl; lia);
    try (injection H as _ <-;
         match goal with
         | E : Str.startswith _ _ = true |- _ =>
             apply startswith_skipn in E; simpl in E; simpl; lia
         end).
Qed.

(** [json.loads] enters its loops with more fuel than they can use: any
    larger amount gives the same result. *)
Theorem loops_never_out_of_fuel (h : Host) (depth : nat) (s : str) (extra : nat) :
  Json.object_members (Json.scan_once h depth) (S (length s) + extra) []
    (Json.skip_ws s)
  = Json.object_members (Json.scan_once h depth) (S (length s)) []
      (Json.skip_ws s) /\
  Json.array_items (Json.scan_once h depth) (S (length s) + extra) []
    (Json.skip_ws s)
  = Json.array_items (Json.scan_once h depth) (S (length s)) []
      (Json.skip_ws s).
Proof.
  pose proof (skip_ws_length s).
  split; [apply object_members_fuel | apply array_items_fuel];
    try apply scan_once_shrinks; lia.
Qed.

(* ===================================================================== *)
(** ** The paths through the handler *)
(* ===================================================================== *)

(** The only path that publishes: every guard passed, and the outcome is
    the two log calls and the one publish call of lines 132-168. *)
Lemma on_message_published (h : Host) (env : Environ) (m : Message) :
  published (on_message h env m) <> [] ->
  exists data text sender gateway_decimal time_str payload_json,
    (6 <= length (parts_of m))%nat /\
    channel_of m <> lit "mqtt" /\
    decode_payload h (payload m) = Decoded (PyDict data) /\
    is_text (dict_get data (lit "type") (PyStr [])) = true /\
    dict_get data (lit "payload") (PyStr []) = PyStr text /\
    has_trigger h env text = true /\
    as_integer (dict_get data (lit "from") PyNone) = Some sender /\
    Str.startswith (lit "!") (gateway_of m) = true /\
    hex_node_id_to_decimal h (gateway_of m) = Some gateway_decimal /\
    current_time_str h env = Some time_str /\
    Dumps.dumps h {| from_ := gateway_decimal;
                     type_ := lit "sendtext";
                     payload_ := lit "Current time: " ++ time_str;
                     to_ := sender |} = Some payload_json /\
    on_message h env m =
      {| logged :=
           [(INFO, TimeRequest sender (gateway_of m) (channel_of m) (region_of m));
            (INFO, PublishedReply (downlink_topic (region_of m)) payload_json)];
         published :=
           [{| pub_topic := downlink_topic (region_of m);
               pub_payload := payload_json;
               pub_qos := 0 |}];
         ended := Returns |}.
Proof.
  unfold parts_of, channel_of, gateway_of, region_of.
  handler_cases; cbn [published returns raises]; intros Hpub;
    try (exfalso; apply Hpub; reflexivity).
  all: match goal with
       | H : (_ <? _)%nat = false |- _ => apply Nat.ltb_ge in H
       end.
  all: match goal with
       | H : Str.eqb _ _ = false |- _ => apply str_eqb_neq in H
       end.
  all: do 6 eexists; repeat split; try eassumption; try reflexivity.
  all: match goal with
       | H : dict_get _ _ PyNone = _ |- _ => rewrite H; assumption
       end.
Qed.

(* ===================================================================== *)
(** ** Hex identifiers (lines 60-62) *)
(* ===================================================================== *)

Local Open Scope N_scope.

Lemma hex_digit_cases (c : codepoint) :
  is_hex_digit c = true ->
  In c [48; 49; 50; 51; 52; 53; 54; 55; 56; 57;
        65; 66; 67; 68; 69; 70; 97; 98; 99; 100; 101; 102].
Proof.
  unfold is_hex_digit.
  rewrite !orb_true_iff, !andb_true_iff, !N.leb_le. simpl. lia.
Qed.

(** What the parser of [int] sees in a hex digit: a digit of that value,
    and none of the characters it treats apart. *)
Lemma hex_digit_facts (c : codepoint) :
  is_hex_digit c = true ->
  PyInt.digit16 c = Some (hex_digit_value c) /\
  PyInt.is_space c = false /\
  (c <? 128) = true /\
  (c =? 33) = false /\ (c =? 43) = false /\ (c =? 45) = false /\
  (c =? 95) = false /\ (c =? 120) = false /\ (c =? 88) = false.
Proof.
  intros H. apply hex_digit_cases in H. simpl in H.
  repeat (destruct H as [<- | H]; [vm_compute; repeat split; reflexivity |]).
  contradiction.
Qed.

Lemma scan_hex_digits (ds : str) (acc : N) (n : nat) :
  forallb is_hex_digit ds = true ->
  PyInt.scan_digits false (Z.of_N acc) n ds
  = Some (Z.of_N (fold_left (fun a c => 16 * a + hex_digit_value c) ds acc),
          (n + length ds)%nat, []).
Proof.
  revert acc n; induction ds as [|c ds IH]; intros acc n Hds.
  - simpl. rewrite Nat.add_0_r. reflexivity.
  - simpl in Hds. apply andb_true_iff in Hds as [Hc Hds].
    destruct (hex_digit_facts c Hc) as (Hd & _ & _ & _ & _ & _ & Hu & _).
    cbn [PyInt.scan_digits fold_left]. rewrite Hu, Hd.
    replace (16 * Z.of_N acc + Z.of_N (hex_digit_value c))%Z
      with (Z.of_N (16 * acc + hex_digit_value c)) by lia.
    rewrite IH by exact Hds. cbn [length]. rewrite Nat.add_succ_r. reflexivity.
Qed.

Lemma from_string16_hex_digits (ds : str) :
  ds <> [] -> forallb is_hex_digit ds = true ->
  PyInt.from_string16 ds = Some (Z.of_N (hex_value ds)).
Proof.
  intros Hne Hds. destruct ds as [|c r]; [contradiction |].
  pose proof Hds as Hall. simpl in Hds. apply andb_true_iff in Hds as [Hc Hr].
  destruct (hex_digit_facts c Hc) as (_ & Hsp & _ & _ & Hplus & Hminus & Hu & _).
  unfold PyInt.from_string16. cbn [PyInt.skip_space]. rewrite Hsp, Hplus, Hminus.
  cbv beta iota zeta.
  destruct r as [|x r0].
  - rewrite Hu. change 0%Z with (Z.of_N 0).
    rewrite (scan_hex_digits [c] 0 0 Hall). reflexivity.
  - simpl in Hr. apply andb_true_iff in Hr as [Hx _].
    destruct (hex_digit_facts x Hx) as (_ & _ & _ & _ & _ & _ & _ & Hx1 & Hx2).
    rewrite Hx1, Hx2, andb_false_r. cbv beta iota. rewrite Hu.
    change 0%Z with (Z.of_N 0).
    rewrite (scan_hex_digits (c :: x :: r0) 0 0 Hall). reflexivity.
Qed.

Lemma to_ascii_hex_digits (h : Host) (ds : str) :
  forallb is_hex_digit ds = true -> PyInt.to_ascii h ds = ds.
Proof.
  intros Hds. unfold PyInt.to_ascii.
  replace (forallb (fun c => c <? 128) ds) with true; [reflexivity |].
  symmetry. apply forallb_forall. intros c Hin.
  rewrite forallb_forall in Hds.
  apply (hex_digit_facts c (Hds c Hin)).
Qed.

(** The decimal value of a valid hex identifier is the number its digits
    write in base 16. *)
Lemma decimal_of_hex_digits (h : Host) (ds : str) :
  ds <> [] -> forallb is_hex_digit ds = true ->
  hex_node_id_to_decimal h (chr "!" :: ds) = Some (Z.of_N (hex_value ds)).
Proof.
  intros Hne Hds. unfold hex_node_id_to_decimal, PyInt.int16.
  assert (Hstrip : Str.lstrip (chr "!") (chr "!" :: ds) = ds).
  { destruct ds as [|c r]; [contradiction |].
    simpl in Hds. apply andb_true_iff in Hds as [Hc _].
    destruct (hex_digit_facts c Hc) as (_ & _ & _ & Hbang & _).
    cbn [Str.lstrip]. change (chr "!") with 33. rewrite N.eqb_refl, Hbang.
    reflexivity. }
  rewrite Hstrip, (to_ascii_hex_digits h ds Hds).
  apply from_string16_hex_digits; assumption.
Qed.

Lemma digits_le_value (base : N) (fuel : nat) (n : N) :
  1 < base ->
  n < base ^ N.of_nat fuel -> value_le base (digits_le base fuel n) = n.
Proof.
  intros Hbase. revert n; induction fuel as [|f IH]; intros n Hn.
  - simpl in Hn. assert (n = 0) by lia. subst. reflexivity.
  - cbn [digits_le]. destruct (N.eqb_spec n 0) as [-> | Hnz]; [reflexivity |].
    cbn [value_le fold_right]. fold (value_le base (digits_le base f (n / base))).
    rewrite IH.
    + pose proof (N.div_mod n base ltac:(lia)). lia.
    + rewrite Nat2N.inj_succ, N.pow_succ_r' in Hn.
      apply N.Div0.div_lt_upper_bound. exact Hn.
Qed.

Lemma digits_le_small (base : N) (fuel : nat) (n : N) :
  0 < base -> Forall (fun d => d < base) (digits_le base fuel n).
Proof.
  intros Hbase. revert n; induction fuel as [|f IH]; intros n; cbn [digits_le].
  - constructor.
  - destruct (n =? 0); constructor; [apply N.mod_lt; lia | apply IH].
Qed.

Lemma log2_fuel (base n : N) :
  2 <= base -> n < base ^ N.of_nat (S (N.to_nat (N.log2 n))).
Proof.
  intros Hbase. rewrite Nat2N.inj_succ, N2Nat.id.
  destruct (N.eqb_spec n 0) as [-> | Hnz].
  - apply N.neq_0_lt_0, N.pow_nonzero. lia.
  - assert (Hlog : n < 2 ^ N.succ (N.log2 n)) by (apply N.log2_spec; lia).
    eapply N.lt_le_trans; [exact Hlog |].
    apply N.pow_le_mono_l. lia.
Qed.

(** The digits of [digits] are digits of the base and write the number. *)
Lemma digits_small (base n : N) :
  0 < base -> Forall (fun d => d < base) (digits base n).
Proof.
  intros Hbase. unfold digits. apply Forall_rev. apply digits_le_small. exact Hbase.
Qed.

Lemma digits_value (base n : N) :
  2 <= base -> value_le base (rev (digits base n)) = n.
Proof.
  intros Hbase. unfold digits. rewrite rev_involutive.
  apply digits_le_value; [lia | apply log2_fuel; exact Hbase].
Qed.

Lemma hex_char_digit (d : N) :
  d < 16 ->
  is_hex_digit (Dumps.hex_char d) = true /\
  hex_digit_value (Dumps.hex_char d) = d.
Proof.
  intros Hd.
  assert (Hcases : In d [0;1;2;3;4;5;6;7;8;9;10;11;12;13;14;15])
    by (simpl; lia).
  simpl in Hcases.
  repeat (destruct Hcases as [<- | Hcases]; [split; reflexivity |]).
  contradiction.
Qed.

Lemma hex_value_app (a b : str) (acc : N) :
  fold_left (fun x c => 16 * x + hex_digit_value c) (a ++ b) acc
  = fold_left (fun x c => 16 * x + hex_digit_value c) b
      (fold_left (fun x c => 16 * x + hex_digit_value c) a acc).
Proof. apply fold_left_app. Qed.

Lemma hex_value_zeros (k : nat) :
  fold_left (fun x c => 16 * x + hex_digit_value c) (repeat 48 k) 0 = 0.
Proof. induction k as [|k IH]; [reflexivity | simpl; exact IH]. Qed.

Lemma hex_value_rev_chars (ds : list N) :
  Forall (fun d => d < 16) ds ->
  hex_value (map Dumps.hex_char (rev ds)) = value_le 16 ds.
Proof.
  unfold hex_value. induction 1 as [|d ds Hd Hds IH]; [reflexivity |].
  cbn [rev]. rewrite map_app, hex_value_app, IH. cbn [map fold_left value_le fold_right].
  fold (value_le 16 ds). rewrite (proj2 (hex_char_digit Hd)). lia.
Qed.

(** [hexOf] writes "!" and hex digits whose value is the number. *)
Lemma hexOf_digits (d : Z) :
  (0 <= d)%Z ->
  exists ds, hexOf d = chr "!" :: ds /\ ds <> [] /\
             forallb is_hex_digit ds = true /\ Z.of_N (hex_value ds) = d.
Proof.
  intros Hd. unfold hexOf. cbv zeta.
  set (ms := digits 16 (Z.to_N d)).
  exists (repeat 48 (8 - length ms)%nat ++ map Dumps.hex_char ms).
  pose proof (digits_small (base := 16) (Z.to_N d) ltac:(lia)) as Hsmall.
  fold ms in Hsmall.
  split; [reflexivity | split; [| split]].
  - intros Happ. apply app_eq_nil in Happ as [Hzeros Hchars].
    destruct ms; [simpl in Hzeros; discriminate | discriminate].
  - rewrite forallb_app. apply andb_true_iff. split.
    + apply forallb_forall. intros c Hin. apply repeat_spec in Hin. subst.
      reflexivity.
    + apply forallb_forall. intros c Hin. apply in_map_iff in Hin as (x & <- & Hx).
      rewrite Forall_forall in Hsmall.
      apply (hex_char_digit (Hsmall x Hx)).
  - unfold hex_value. rewrite hex_value_app, hex_value_zeros.
    fold (hex_value (map Dumps.hex_char ms)).
    rewrite <- (rev_involutive ms).
    rewrite hex_value_rev_chars by (apply Forall_rev; exact Hsmall).
    unfold ms. rewrite digits_value by lia. lia.
Qed.

Local Close Scope N_scope.

(** C8: for every valid hex gateway identifier [hex_id] ("!" followed by
    one or more hex digits), [hex_node_id_to_decimal] gives a decimal
    value [d], and converting the hex rendering of [d] gives [d] again:
    decimalOf(hexOf(decimalOf(h))) = decimalOf(h). *)
Theorem C8_hex_decimal_round_trip (h : Host) (hex_id : str) :
  valid_hex_id hex_id ->
  exists d, hex_node_id_to_decimal h hex_id = Some d /\
            hex_node_id_to_decimal h (hexOf d) = Some d.
Proof.
  intros (ds & -> & Hne & Hds).
  exists (Z.of_N (hex_value ds)). split.
  - apply decimal_of_hex_digits; assumption.
  - destruct (@hexOf_digits (Z.of_N (hex_value ds)) ltac:(lia))
      as (ds' & -> & Hne' & Hds' & Hval).
    rewrite <- Hval. apply decimal_of_hex_digits; assumption.
Qed.

Lemma C8_hex_decimal_round_trip_witness :
  valid_hex_id (lit "!aabbccdd") /\
  exists d, hex_node_id_to_decimal sample_host (lit "!aabbccdd") = Some d /\
            hex_node_id_to_decimal sample_host (hexOf d) = Some d.
Proof.
  assert (Hvalid : valid_hex_id (lit "!aabbccdd")).
  { exists (lit "aabbccdd"). split; [reflexivity | split; [discriminate | reflexivity]]. }
  split; [exact Hvalid |].
  exact (C8_hex_decimal_round_trip sample_host Hvalid).
Defined.

(* ===================================================================== *)
(** ** Decimal digits and the format of the clock *)
(* ===================================================================== *)

Local Open Scope N_scope.

Lemma digits_le_length (base : N) (fuel : nat) :
  1 < base ->
  forall (w : nat) (n : N),
    n < base ^ N.of_nat w -> (length (digits_le base fuel n) <= w)%nat.
Proof.
  intros Hbase. induction fuel as [|f IH]; intros w n Hn; cbn [digits_le].
  - simpl. lia.
  - destruct (N.eqb_spec n 0) as [-> | Hnz]; [simpl; lia |].
    destruct w as [|w]; [simpl in Hn; lia |].
    cbn [length]. apply le_n_S. apply IH.
    rewrite Nat2N.inj_succ, N.pow_succ_r' in Hn.
    apply N.Div0.div_lt_upper_bound. exact Hn.
Qed.

(** [decimal] writes digits only, at most [w] of them for a number below
    [10 ^ w], and [int()] reads the number back from them. *)
Lemma decimal_chars (n : N) : forallb Json.is_digit (decimal n) = true.
Proof.
  unfold decimal.
  pose proof (digits_small (base := 10) n ltac:(lia)) as Hsmall.
  destruct (digits 10 n) as [|d ds]; [reflexivity |].
  apply forallb_forall. intros c Hin. apply in_map_iff in Hin as (x & <- & Hx).
  rewrite Forall_forall in Hsmall. specialize (Hsmall x Hx).
  unfold Json.is_digit. apply andb_true_iff. split; apply N.leb_le; lia.
Qed.

Lemma decimal_length (w : nat) (n : N) :
  (0 < w)%nat -> n < 10 ^ N.of_nat w -> (length (decimal n) <= w)%nat.
Proof.
  intros Hw Hn. unfold decimal.
  assert (Hlen : (length (digits 10 n) <= w)%nat).
  { unfold digits. rewrite length_rev. apply digits_le_length; [lia | exact Hn]. }
  destruct (digits 10 n); [simpl; lia |].
  rewrite length_map. exact Hlen.
Qed.

Lemma decimal_value_chars (ds : list N) (acc : Z) :
  Forall (fun d => d < 10) ds ->
  fold_left (fun a c => (10 * a + Z.of_N (c - 48))%Z) (map (N.add 48) (rev ds)) acc
  = (Z.of_N (value_le 10 ds) + acc * 10 ^ Z.of_nat (length ds))%Z.
Proof.
  intros Hds. revert acc. induction Hds as [|d ds Hd Hds IH]; intros acc.
  - simpl. lia.
  - cbn [rev]. rewrite map_app, fold_left_app, IH.
    cbn [map fold_left value_le fold_right length].
    fold (value_le 10 ds).
    replace (48 + d - 48) with d by lia.
    rewrite Nat2Z.inj_succ, Z.pow_succ_r by lia. lia.
Qed.

Lemma decimal_value_decimal (n : N) :
  Json.decimal_value (decimal n) = Z.of_N n.
Proof.
  unfold Json.decimal_value, decimal.
  pose proof (digits_small (base := 10) n ltac:(lia)) as Hsmall.
  pose proof (digits_value (base := 10) n ltac:(lia)) as Hvalue.
  destruct (digits 10 n) as [|d ds] eqn:E.
  - simpl in Hvalue. subst n. reflexivity.
  - rewrite <- (rev_involutive (d :: ds)).
    rewrite decimal_value_chars by (apply Forall_rev; exact Hsmall).
    rewrite Hvalue. lia.
Qed.

(** [%0wd] of a number below [10 ^ w] is exactly [w] digits. *)
Lemma zero_padded_shape (w : nat) (n : N) :
  (0 < w)%nat -> n < 10 ^ N.of_nat w ->
  length (zero_padded w n) = w /\
  forallb Json.is_digit (zero_padded w n) = true.
Proof.
  intros Hw Hn. unfold zero_padded. cbv zeta.
  pose proof (decimal_length Hw Hn) as Hlen. split.
  - rewrite length_app, repeat_length. apply Nat.sub_add. exact Hlen.
  - rewrite forallb_app, decimal_chars, andb_true_r.
    apply forallb_forall. intros c Hin. apply repeat_spec in Hin. subst.
    reflexivity.
Qed.

Local Close Scope N_scope.

(** The format of the clock: for a date within the four-digit years,
    [strftime] gives YYYY-MM-DD HH:MM:SS, a space and the zone
    abbreviation. *)
Lemma strftime_shape (t : datetime) :
  (year t < 10000)%N -> (month t < 100)%N -> (day t < 100)%N ->
  (hour t < 100)%N -> (minute t < 100)%N -> (second t < 100)%N ->
  exists YYYY MM DD hh mm ss,
    strftime t = YYYY ++ lit "-" ++ MM ++ lit "-" ++ DD ++ lit " "
                   ++ hh ++ lit ":" ++ mm ++ lit ":" ++ ss ++ lit " " ++ tzname t /\
    length YYYY = 4%nat /\ length MM = 2%nat /\ length DD = 2%nat /\
    length hh = 2%nat /\ length mm = 2%nat /\ length ss = 2%nat /\
    forallb Json.is_digit (YYYY ++ MM ++ DD ++ hh ++ mm ++ ss) = true.
Proof.
  intros Hy Hmo Hd Hh Hmi Hs.
  destruct (@zero_padded_shape 4 (year t) ltac:(lia) Hy) as [L1 D1].
  destruct (@zero_padded_shape 2 (month t) ltac:(lia) Hmo) as [L2 D2].
  destruct (@zero_padded_shape 2 (day t) ltac:(lia) Hd) as [L3 D3].
  destruct (@zero_padded_shape 2 (hour t) ltac:(lia) Hh) as [L4 D4].
  destruct (@zero_padded_shape 2 (minute t) ltac:(lia) Hmi) as [L5 D5].
  destruct (@zero_padded_shape 2 (second t) ltac:(lia) Hs) as [L6 D6].
  do 6 eexists. split; [reflexivity |].
  repeat split; try assumption.
  rewrite !forallb_app, D1, D2, D3, D4, D5, D6. reflexivity.
Qed.

(* ===================================================================== *)
(** ** Topic guards (lines 95-105) *)
(* ===================================================================== *)

(** Line 104: on the downlink channel the handler returns at once. *)
Lemma downlink_channel_returns
  (h : Host) (env : Environ) (t : str) (raw : bytes) :
  (6 <= length (Str.split (chr "/") t))%nat ->
  nth 4 (Str.split (chr "/") t) [] = lit "mqtt" ->
  on_message h env {| topic := t; payload := raw |} = returns [].
Proof.
  intros Hlen Hchan. apply Nat.ltb_ge in Hlen.
  unfold on_message; cbv zeta; cbn [topic].
  rewrite Hlen, Hchan, str_eqb_refl. reflexivity.
Qed.

(** C4: a topic that splits on "/" into fewer than six segments is rejected
    for every payload: nothing is published, nothing is logged, and the
    handler returns. *)
Theorem C4_short_topic_rejected
  (h : Host) (env : Environ) (t : str) (raw : bytes) :
  (length (Str.split (chr "/") t) < 6)%nat ->
  published (on_message h env {| topic := t; payload := raw |}) = [] /\
  on_message h env {| topic := t; payload := raw |} = returns [].
Proof.
  intros Hlen. apply Nat.ltb_lt in Hlen.
  unfold on_message; cbv zeta; cbn [topic].
  rewrite Hlen. split; reflexivity.
Qed.

Lemma C4_short_topic_rejected_witness :
  (length (Str.split (chr "/") (lit "msh/EU_868/2/json/!aabbccdd")) < 6)%nat /\
  published
    (on_message sample_host default_environ
       {| topic := lit "msh/EU_868/2/json/!aabbccdd";
          payload := jbytes "{'type':'text','payload':'!time','from':123456}" |})
  = [].
Proof.
  split.
  - vm_compute. lia.
  - apply (C4_short_topic_rejected sample_host default_environ
             (lit "msh/EU_868/2/json/!aabbccdd")
             (jbytes "{'type':'text','payload':'!time','from':123456}")).
    vm_compute. lia.
Defined.

(** C3: on a topic of at least six segments whose fifth segment is exactly
    "mqtt", no reply is published, whatever the payload bytes are; the
    handler returns without logging. *)
Theorem C3_downlink_channel_never_answered
  (h : Host) (env : Environ) (t : str) (raw : bytes) :
  (6 <= length (Str.split (chr "/") t))%nat ->
  nth 4 (Str.split (chr "/") t) [] = lit "mqtt" ->
  published (on_message h env {| topic := t; payload := raw |}) = [] /\
  on_message h env {| topic := t; payload := raw |} = returns [].
Proof.
  intros Hlen Hchan.
  rewrite (downlink_channel_returns h env t raw Hlen Hchan).
  split; reflexivity.
Qed.

Lemma C3_downlink_channel_never_answered_witness :
  (6 <= length (Str.split (chr "/") (lit "msh/US/2/json/mqtt/!aabbccdd")))%nat /\
  nth 4 (Str.split (chr "/") (lit "msh/US/2/json/mqtt/!aabbccdd")) [] = lit "mqtt" /\
  published
    (on_message sample_host default_environ
       {| topic := lit "msh/US/2/json/mqtt/!aabbccdd";
          payload := jbytes "{'type':'text','payload':'!time','from':123456}" |})
  = [].
Proof.
  split; [vm_compute; lia | split; [reflexivity |]].
  apply (C3_downlink_channel_never_answered sample_host default_environ
           (lit "msh/US/2/json/mqtt/!aabbccdd")
           (jbytes "{'type':'text','payload':'!time','from':123456}")).
  - vm_compute. lia.
  - reflexivity.
Defined.

(* ===================================================================== *)
(** ** At most one reply, on the region's downlink topic *)
(* ===================================================================== *)

(** C10: for every topic and every payload, one call of the handler makes
    at most one publish call, and a publish call goes to
    "msh/" + region + "/2/json/mqtt/", the region being the second segment
    of the inbound topic. *)
Theorem C10_at_most_one_publish_on_downlink
  (h : Host) (env : Environ) (t : str) (raw : bytes) :
  let m := {| topic := t; payload := raw |} in
  (length (published (on_message h env m)) <= 1)%nat /\
  forall p, In p (published (on_message h env m)) ->
            pub_topic p
            = lit "msh/" ++ nth 1 (Str.split (chr "/") t) [] ++ lit "/2/json/mqtt/".
Proof.
  intros m.
  destruct (published (on_message h env m)) as [|p0 ps] eqn:Hpub.
  - split; [simpl; lia | intros p []].
  - assert (Hne : published (on_message h env m) <> []) by (rewrite Hpub; discriminate).
    destruct (on_message_published h env m Hne)
      as (data & text & sender & g & ts & js & _ & _ & _ & _ & _ & _ & _ & _ & _ & _ & _ & Hout).
    rewrite Hout in Hpub. cbn [published] in Hpub.
    injection Hpub as <- <-. split; [simpl; lia |].
    intros p [<- | []]. reflexivity.
Qed.

Lemma C10_at_most_one_publish_on_downlink_witness :
  (length (published (on_message sample_host default_environ time_request)) <= 1)%nat /\
  In {| pub_topic := lit "msh/EU_868/2/json/mqtt/";
        pub_payload :=
          jstr "{'from': 2864434397, 'type': 'sendtext', 'payload': 'Current time: 2024-05-17 09:03:07 UTC', 'to': 123456}";
        pub_qos := 0 |}
     (published (on_message sample_host default_environ time_request)).
Proof.
  split.
  - apply (C10_at_most_one_publish_on_downlink sample_host default_environ
             uplink_topic (payload time_request)).
  - vm_compute. left. reflexivity.
Defined.

(* ===================================================================== *)
(** ** Scenario 1: a time request is answered *)
(* ===================================================================== *)

(** The payload of scenario 1 decodes to its three items on every host that
    can enter one JSON container. *)
Lemma decode_time_request (h : Host) :
  (0 < recursion_limit h)%nat ->
  decode_payload h (payload time_request) =
    Decoded (PyDict [(lit "type", PyStr (lit "text"));
                     (lit "payload", PyStr (lit "hey !time please"));
                     (lit "from", PyInt 123456)]).
Proof.
  intros Hdepth. unfold decode_payload, Json.loads.
  destruct (recursion_limit h) as [|[|depth]]; [lia | |];
    vm_compute; reflexivity.
Qed.

(** Integers of at most 640 digits are printed whatever the digit limit. *)
Lemma encode_int_short (h : Host) (z : Z) :
  (length (decimal (Z.abs_N z)) <= 640)%nat ->
  Dumps.encode_int h z
  = Some ((if (z <? 0)%Z then [45%N] else []) ++ decimal (Z.abs_N z)).
Proof.
  intros Hlen. unfold Dumps.encode_int, Json.over_digit_limit.
  replace (640 <? N.of_nat (length (decimal (Z.abs_N z))))%N with false;
    [reflexivity |].
  symmetry. apply N.ltb_ge. lia.
Qed.

(** C1: for the topic "msh/EU_868/2/json/LongFast/!aabbccdd" and the payload
    {"type":"text","payload":"hey !time please","from":123456}, with the
    trigger word "!time", a time zone the database knows and a clock that
    reads the year 1000 or a later one (from there on [%Y] is four digits
    on every platform), the handler publishes exactly one message, on
    "msh/EU_868/2/json/mqtt/"; its payload is the JSON object with "from"
    2864434397, "type" "sendtext", "payload" "Current time: " followed by the
    clock reading as YYYY-MM-DD HH:MM:SS and the zone abbreviation, and "to"
    123456. *)
Theorem C1_time_request_answered (h : Host) (env : Environ) (tz : tzinfo) :
  (0 < recursion_limit h)%nat ->
  TIME_TRIGGER h env = lit "!time" ->
  pytz_timezone h (TIMEZONE env) = Some tz ->
  (1000 <= year (datetime_now h tz))%N ->
  let now := datetime_now h tz in
  let t := zero_padded 4 (year now) ++ lit "-" ++ zero_padded 2 (month now)
             ++ lit "-" ++ zero_padded 2 (day now) ++ lit " "
             ++ zero_padded 2 (hour now) ++ lit ":" ++ zero_padded 2 (minute now)
             ++ lit ":" ++ zero_padded 2 (second now) ++ lit " " ++ tzname now in
  published (on_message h env time_request) =
    [{| pub_topic := lit "msh/EU_868/2/json/mqtt/";
        pub_payload :=
          jstr "{'from': 2864434397, 'type': 'sendtext', 'payload': "
            ++ Dumps.encode_str (lit "Current time: " ++ t)
            ++ jstr ", 'to': 123456}";
        pub_qos := 0 |}] /\
  ended (on_message h env time_request) = Returns.
Proof.
  intros Hdepth Htrigger Hzone Hyear now t.
  assert (Hparts : Str.split (chr "/") (topic time_request)
                   = [lit "msh"; lit "EU_868"; lit "2"; lit "json";
                      lit "LongFast"; lit "!aabbccdd"])
    by (vm_compute; reflexivity).
  assert (Hgateway : hex_node_id_to_decimal h (lit "!aabbccdd")
                     = Some 2864434397%Z)
    by (vm_compute; reflexivity).
  assert (Hlower : Str.lower h (lit "hey !time please") = lit "hey !time please")
    by (vm_compute; reflexivity).
  unfold on_message. cbv zeta. rewrite Hparts.
  cbn [length Nat.ltb Nat.leb nth].
  replace (Str.eqb (lit "LongFast") (lit "mqtt")) with false
    by (vm_compute; reflexivity).
  rewrite (decode_time_request h Hdepth).
  replace (dict_get _ (lit "type") (PyStr [])) with (PyStr (lit "text"))
    by (vm_compute; reflexivity).
  replace (dict_get _ (lit "payload") (PyStr []))
    with (PyStr (lit "hey !time please")) by (vm_compute; reflexivity).
  replace (dict_get _ (lit "from") PyNone) with (PyInt 123456)
    by (vm_compute; reflexivity).
  replace (is_text (PyStr (lit "text"))) with true by (vm_compute; reflexivity).
  unfold has_trigger. rewrite Htrigger, Hlower.
  replace (Str.contains (lit "!time") (lit "hey !time please")) with true
    by (vm_compute; reflexivity).
  cbn [negb as_integer].
  replace (Str.startswith (lit "!") (lit "!aabbccdd")) with true
    by (vm_compute; reflexivity).
  cbn [negb]. rewrite Hgateway.
  unfold current_time_str. rewrite Hzone. fold now.
  change (strftime now) with t.
  unfold Dumps.dumps, Dumps.encode_integer. cbn [from_ to_ type_ payload_].
  rewrite !encode_int_short by (vm_compute; lia).
  cbn [published ended]. split; reflexivity.
Qed.

Lemma C1_time_request_answered_witness :
  (0 < recursion_limit sample_host)%nat /\
  TIME_TRIGGER sample_host default_environ = lit "!time" /\
  published (on_message sample_host default_environ time_request) =
    [{| pub_topic := lit "msh/EU_868/2/json/mqtt/";
        pub_payload :=
          jstr "{'from': 2864434397, 'type': 'sendtext', 'payload': 'Current time: 2024-05-17 09:03:07 UTC', 'to': 123456}";
        pub_qos := 0 |}] /\
  Json.loads sample_host
    (jstr "{'from': 2864434397, 'type': 'sendtext', 'payload': 'Current time: 2024-05-17 09:03:07 UTC', 'to': 123456}")
  = Json.Loaded
      (PyDict [(lit "from", PyInt 2864434397);
               (lit "type", PyStr (lit "sendtext"));
               (lit "payload", PyStr (lit "Current time: 2024-05-17 09:03:07 UTC"));
               (lit "to", PyInt 123456)]).
Proof.
  split; [vm_compute; lia | split; [reflexivity | split]].
  - apply (@C1_time_request_answered sample_host default_environ
             {| zone := lit "UTC" |}).
    + vm_compute. lia.
    + reflexivity.
    + reflexivity.
    + vm_compute. discriminate.
  - vm_compute. reflexivity.
Defined.

(* ===================================================================== *)
(** ** Trigger detection (lines 39 and 124) *)
(* ===================================================================== *)

(** C5: for every payload text [p] and configured trigger word [w], the
    trigger check accepts exactly when the lower-casing of [w] occurs as a
    substring of the lower-casing of [p]; and "Please send !TIME now" is
    accepted under the trigger word "!time". *)
Theorem C5_trigger_is_case_insensitive_substring
  (h : Host) (tzv trig bot : option str) (p : str) :
  let env := {| env_TIMEZONE := tzv; env_TIME_TRIGGER := trig;
                env_BOT_NODE_ID := bot |} in
  let w := getenv trig (lit "!time") in
  (has_trigger h env p = true <->
   exists pre post, Str.lower h p = pre ++ Str.lower h w ++ post) /\
  has_trigger h {| env_TIMEZONE := tzv; env_TIME_TRIGGER := Some (lit "!time");
                   env_BOT_NODE_ID := bot |}
    (lit "Please send !TIME now") = true.
Proof.
  intros env w. split.
  - unfold has_trigger, TIME_TRIGGER. subst env w. cbn [env_TIME_TRIGGER].
    apply contains_iff.
  - vm_compute. reflexivity.
Qed.

(* ===================================================================== *)
(** ** The reply is addressed from the gateway of the topic *)
(* ===================================================================== *)

(** C6: the handler does the same for any two values of BOT_NODE_ID (same
    message, host and other settings), and the "from" field of a published
    reply is the base-16 value of the sixth segment of the inbound topic:
    the result of [hex_node_id_to_decimal] on it, which for "!" followed by
    hex digits is the number the digits write. *)
Theorem C6_reply_from_gateway_whatever_bot_node_id
  (h : Host) (tzv trig bot1 bot2 : option str) (m : Message) :
  let env1 := {| env_TIMEZONE := tzv; env_TIME_TRIGGER := trig;
                 env_BOT_NODE_ID := bot1 |} in
  let env2 := {| env_TIMEZONE := tzv; env_TIME_TRIGGER := trig;
                 env_BOT_NODE_ID := bot2 |} in
  let gateway_hex := nth 5 (Str.split (chr "/") (topic m)) [] in
  on_message h env1 m = on_message h env2 m /\
  forall p, In p (published (on_message h env1 m)) ->
    exists gateway_decimal time_str sender,
      hex_node_id_to_decimal h gateway_hex = Some gateway_decimal /\
      (forall ds, gateway_hex = chr "!" :: ds -> ds <> [] ->
                  forallb is_hex_digit ds = true ->
                  gateway_decimal = Z.of_N (hex_value ds)) /\
      Dumps.dumps h {| from_ := gateway_decimal;
                       type_ := lit "sendtext";
                       payload_ := lit "Current time: " ++ time_str;
                       to_ := sender |} = Some (pub_payload p).
Proof.
  intros env1 env2 gateway_hex. split; [reflexivity |].
  intros p Hin.
  assert (Hne : published (on_message h env1 m) <> [])
    by (intros E; rewrite E in Hin; destruct Hin).
  destruct (on_message_published h env1 m Hne)
    as (data & text & sender & g & ts & js & _ & _ & _ & _ & _ & _ & _ & _
        & Hgw & _ & Hdumps & Hout).
  rewrite Hout in Hin. destruct Hin as [<- | []].
  exists g, ts, sender. split; [exact Hgw | split; [| exact Hdumps]].
  intros ds Hform Hne' Hds. unfold gateway_of, parts_of in Hgw.
  fold gateway_hex in Hgw. rewrite Hform in Hgw.
  rewrite (decimal_of_hex_digits h Hne' Hds) in Hgw. congruence.
Qed.

Lemma C6_reply_from_gateway_whatever_bot_node_id_witness :
  on_message sample_host default_environ time_request
  = on_message sample_host
      {| env_TIMEZONE := None; env_TIME_TRIGGER := None;
         env_BOT_NODE_ID := Some (lit "!deadbeef") |} time_request /\
  published (on_message sample_host default_environ time_request) <> [].
Proof.
  split.
  - apply (C6_reply_from_gateway_whatever_bot_node_id sample_host None None
             None (Some (lit "!deadbeef")) time_request).
  - vm_compute. discriminate.
Defined.

(* ===================================================================== *)
(** ** The order of the rejections (lines 104-130) *)
(* ===================================================================== *)

Lemma is_text_iff (v : value) : is_text v = true <-> v = PyStr (lit "text").
Proof.
  destruct v; simpl; try (split; discriminate).
  rewrite str_eqb_eq. split; [intros ->; reflexivity | intros E; inversion E; reflexivity].
Qed.

(** [d.get(k)] is [None] when the key is missing or holds [None]. *)
Lemma dict_get_none (d : dict) (k : str) :
  dict_get d k PyNone = PyNone <->
  dict_lookup d k = None \/ dict_lookup d k = Some PyNone.
Proof.
  unfold dict_get. destruct (dict_lookup d k) as [v|].
  - split; [intros ->; right; reflexivity | intros [E | E]; congruence].
  - split; [left; reflexivity | reflexivity].
Qed.

(** The warning of line 129 is logged on one path only. *)
Lemma missing_sender_logged (h : Host) (env : Environ) (m : Message) (data : dict) :
  In (WARNING, FromFieldMissing data) (logged (on_message h env m)) ->
  (6 <= length (parts_of m))%nat /\
  channel_of m <> lit "mqtt" /\
  decode_payload h (payload m) = Decoded (PyDict data) /\
  is_text (dict_get data (lit "type") (PyStr [])) = true /\
  (exists text,
     dict_get data (lit "payload") (PyStr []) = PyStr text /\
     has_trigger h env text = true) /\
  dict_get data (lit "from") PyNone = PyNone.
Proof.
  unfold parts_of, channel_of.
  handler_cases; cbn [logged returns raises]; intros Hin;
    repeat (destruct Hin as [Hin | Hin]; [try discriminate Hin |]);
    try contradiction.
  all: inversion Hin; subst.
  all: match goal with
       | H : (_ <? _)%nat = false |- _ => apply Nat.ltb_ge in H
       end.
  all: match goal with
       | H : Str.eqb _ _ = false |- _ => apply str_eqb_neq in H
       end.
  all: repeat split; eauto.
Qed.

(** C9: the rejections come in the order: downlink channel, not a text
    message (type other than "text" or a payload that is no string),
    trigger absent, sender absent; the first that applies decides.  So a
    text message without the trigger is dropped silently whether or not it
    has a "from" field, and the warning about the missing sender is logged
    only for a text message that holds the trigger and whose "from" is
    absent (missing, or null). *)
Theorem C9_rejections_in_order
  (h : Host) (env : Environ) (t : str) (raw : bytes) :
  let m := {| topic := t; payload := raw |} in
  let parts := Str.split (chr "/") t in
  let channel := nth 4 parts [] in
  ((6 <= length parts)%nat -> channel = lit "mqtt" ->
   on_message h env m = returns []) /\
  (forall data,
     (6 <= length parts)%nat -> channel <> lit "mqtt" ->
     decode_payload h raw = Decoded (PyDict data) ->
     let msg_type := dict_get data (lit "type") (PyStr []) in
     let text_field := dict_get data (lit "payload") (PyStr []) in
     ((msg_type <> PyStr (lit "text") \/ (forall text, text_field <> PyStr text)) ->
      on_message h env m = returns []) /\
     (forall text,
        msg_type = PyStr (lit "text") -> text_field = PyStr text ->
        has_trigger h env text = false ->
        on_message h env m = returns []) /\
     (forall text,
        msg_type = PyStr (lit "text") -> text_field = PyStr text ->
        has_trigger h env text = true ->
        dict_get data (lit "from") PyNone = PyNone ->
        on_message h env m = returns [(WARNING, FromFieldMissing data)])) /\
  (forall data,
     In (WARNING, FromFieldMissing data) (logged (on_message h env m)) ->
     (6 <= length parts)%nat /\ channel <> lit "mqtt" /\
     decode_payload h raw = Decoded (PyDict data) /\
     dict_get data (lit "type") (PyStr []) = PyStr (lit "text") /\
     (exists text,
        dict_get data (lit "payload") (PyStr []) = PyStr text /\
        has_trigger h env text = true) /\
     (dict_lookup data (lit "from") = None \/
      dict_lookup data (lit "from") = Some PyNone)).
Proof.
  intros m parts channel. subst m parts channel.
  split; [| split].
  - intros Hlen Hchan.
    apply (downlink_channel_returns h env t raw Hlen Hchan).
  - intros data Hlen Hchan Hdec msg_type text_field. subst msg_type text_field.
    apply Nat.ltb_ge in Hlen. apply str_eqb_neq in Hchan.
    split; [| split].
    + intros Hnot.
      unfold on_message; cbv zeta; cbn [topic payload].
      rewrite Hlen, Hchan, Hdec.
      destruct (dict_get data (lit "payload") (PyStr [])) eqn:Hp; try reflexivity.
      destruct Hnot as [Hnot | Hnot]; [| exfalso; exact (Hnot _ eq_refl)].
      destruct (is_text (dict_get data (lit "type") (PyStr []))) eqn:Ht;
        [apply is_text_iff in Ht; contradiction | reflexivity].
    + intros text Htype Htext Htrig.
      unfold on_message; cbv zeta; cbn [topic payload].
      rewrite Hlen, Hchan, Hdec, Htext, Htype, Htrig. reflexivity.
    + intros text Htype Htext Htrig Hfrom.
      unfold on_message; cbv zeta; cbn [topic payload].
      rewrite Hlen, Hchan, Hdec, Htext, Htype, Htrig, Hfrom. reflexivity.
  - intros data Hin.
    destruct (missing_sender_logged h env _ data Hin)
      as (Hlen & Hchan & Hdec & Htype & Htext & Hfrom).
    repeat split; try assumption.
    + apply is_text_iff. exact Htype.
    + apply dict_get_none. exact Hfrom.
Qed.

Lemma C9_rejections_in_order_witness :
  on_message sample_host default_environ
    {| topic := uplink_topic;
       payload := jbytes "{'type':'text','payload':'hello there'}" |}
  = returns [] /\
  on_message sample_host default_environ
    {| topic := uplink_topic;
       payload := jbytes "{'type':'text','payload':'!time'}" |}
  = returns [(WARNING, FromFieldMissing
                         [(lit "type", PyStr (lit "text"));
                          (lit "payload", PyStr (lit "!time"))])].
Proof.
  pose proof (C9_rejections_in_order sample_host default_environ uplink_topic
                (jbytes "{'type':'text','payload':'hello there'}")) as Hquiet.
  pose proof (C9_rejections_in_order sample_host default_environ uplink_topic
                (jbytes "{'type':'text','payload':'!time'}")) as Hwarn.
  cbv zeta in Hquiet, Hwarn.
  destruct Hquiet as (_ & Hquiet & _). destruct Hwarn as (_ & Hwarn & _).
  split.
  - destruct (Hquiet [(lit "type", PyStr (lit "text"));
                      (lit "payload", PyStr (lit "hello there"))])
      as (_ & Hno_trigger & _).
    + vm_compute. lia.
    + vm_compute. discriminate.
    + vm_compute. reflexivity.
    + apply (Hno_trigger (lit "hello there")); vm_compute; reflexivity.
  - destruct (Hwarn [(lit "type", PyStr (lit "text"));
                     (lit "payload", PyStr (lit "!time"))])
      as (_ & _ & Hno_sender).
    + vm_compute. lia.
    + vm_compute. discriminate.
    + vm_compute. reflexivity.
    + apply (Hno_sender (lit "!time")); vm_compute; reflexivity.
Defined.

(* ===================================================================== *)
(** ** Payloads the decoder rejects, and payloads it does not *)
(* ===================================================================== *)

(** Bytes that are no UTF-8, or text that is no JSON, are dropped with the
    debug log of line 113: nothing is published and the handler returns. *)
Lemma undecodable_payload_dropped
  (h : Host) (env : Environ) (t : str) (raw : bytes) :
  (6 <= length (Str.split (chr "/") t))%nat ->
  nth 4 (Str.split (chr "/") t) [] <> lit "mqtt" ->
  (Utf8.decode raw = None \/
   exists text, Utf8.decode raw = Some text /\
                Json.loads h text = Json.JSONDecodeError) ->
  on_message h env {| topic := t; payload := raw |}
  = returns [(DEBUG, CannotParsePayload t)].
Proof.
  intros Hlen Hchan Hbad.
  apply Nat.ltb_ge in Hlen. apply str_eqb_neq in Hchan.
  unfold on_message; cbv zeta; cbn [topic payload]. rewrite Hlen, Hchan.
  assert (Hdec : decode_payload h raw = Undecodable).
  { unfold decode_payload. destruct Hbad as [-> | (text & -> & ->)]; reflexivity. }
  rewrite Hdec. reflexivity.
Qed.

(** A payload that decodes to a JSON value other than an object reaches
    [data.get] of line 116, which raises [AttributeError]. *)
Lemma non_object_payload_raises
  (h : Host) (env : Environ) (t : str) (raw : bytes) (data : value) :
  (6 <= length (Str.split (chr "/") t))%nat ->
  nth 4 (Str.split (chr "/") t) [] <> lit "mqtt" ->
  decode_payload h raw = Decoded data ->
  (forall items, data <> PyDict items) ->
  on_message h env {| topic := t; payload := raw |} = raises [] AttributeError.
Proof.
  intros Hlen Hchan Hdec Hnot.
  apply Nat.ltb_ge in Hlen. apply str_eqb_neq in Hchan.
  unfold on_message; cbv zeta; cbn [topic payload]. rewrite Hlen, Hchan, Hdec.
  destruct data; try reflexivity. exfalso. exact (Hnot _ eq_refl).
Qed.

Lemma uplink_topic_parts :
  Str.split (chr "/") uplink_topic
  = [lit "msh"; lit "EU_868"; lit "2"; lit "json"; lit "LongFast"; lit "!aabbccdd"].
Proof. vm_compute. reflexivity. Qed.

(** C2 (the code departs from the claim): on the uplink topic, the payloads
    null, 42, "text" and true, which are valid JSON but no object, make the
    handler raise [AttributeError]; the payload [] makes it raise too
    ([RecursionError] on a host that can enter no container,
    [AttributeError] on any other).  Nothing is published. *)
Theorem C2_non_object_json_raises (h : Host) (env : Environ) :
  let handle raw := on_message h env {| topic := uplink_topic; payload := raw |} in
  handle (jbytes "null") = raises [] AttributeError /\
  handle (jbytes "42") = raises [] AttributeError /\
  handle (jbytes "'text'") = raises [] AttributeError /\
  handle (jbytes "true") = raises [] AttributeError /\
  (handle (jbytes "[]") = raises [] AttributeError \/
   handle (jbytes "[]") = raises [] RecursionError).
Proof.
  intros handle. subst handle. cbv beta.
  assert (Hlen : (6 <= length (Str.split (chr "/") uplink_topic))%nat)
    by (rewrite uplink_topic_parts; simpl; lia).
  assert (Hchan : nth 4 (Str.split (chr "/") uplink_topic) [] <> lit "mqtt")
    by (rewrite uplink_topic_parts; vm_compute; discriminate).
  repeat split.
  - apply (non_object_payload_raises h env _ _ Hlen Hchan (data := PyNone));
      [| discriminate].
    unfold decode_payload, Json.loads.
    destruct (recursion_limit h); vm_compute; reflexivity.
  - apply (non_object_payload_raises h env _ _ Hlen Hchan (data := PyInt 42));
      [| discriminate].
    unfold decode_payload, Json.loads.
    destruct (recursion_limit h); vm_compute; reflexivity.
  - apply (non_object_payload_raises h env _ _ Hlen Hchan
             (data := PyStr (lit "text"))); [| discriminate].
    unfold decode_payload, Json.loads.
    destruct (recursion_limit h); vm_compute; reflexivity.
  - apply (non_object_payload_raises h env _ _ Hlen Hchan (data := PyBool true));
      [| discriminate].
    unfold decode_payload, Json.loads.
    destruct (recursion_limit h); vm_compute; reflexivity.
  - destruct (recursion_limit h) as [|depth] eqn:Hlimit.
    + right. apply Nat.ltb_ge in Hlen. apply str_eqb_neq in Hchan.
      unfold on_message; cbv zeta; cbn [topic payload]. rewrite Hlen, Hchan.
      replace (decode_payload h (jbytes "[]")) with (Uncaught RecursionError);
        [reflexivity |].
      unfold decode_payload, Json.loads. rewrite Hlimit. vm_compute. reflexivity.
    + left.
      apply (non_object_payload_raises h env _ _ Hlen Hchan (data := PyList []));
        [| discriminate].
      unfold decode_payload, Json.loads. rewrite Hlimit. vm_compute. reflexivity.
Qed.

(* ===================================================================== *)
(** ** The gateway identifier (lines 145-153) *)
(* ===================================================================== *)

(** With an integer sender the reply stage is reached, and a gateway
    segment that does not start with "!" is rejected with a warning, one
    that [int(.., 16)] refuses with an error log; nothing is published and
    the handler returns. *)
Lemma malformed_gateway_rejected
  (h : Host) (env : Environ) (t : str) (raw : bytes)
  (data : dict) (text : str) (sender : integer) :
  let parts := Str.split (chr "/") t in
  let gateway_hex := nth 5 parts [] in
  let request := (INFO, TimeRequest sender gateway_hex (nth 4 parts []) (nth 1 parts [])) in
  (6 <= length parts)%nat ->
  nth 4 parts [] <> lit "mqtt" ->
  decode_payload h raw = Decoded (PyDict data) ->
  dict_get data (lit "type") (PyStr []) = PyStr (lit "text") ->
  dict_get data (lit "payload") (PyStr []) = PyStr text ->
  has_trigger h env text = true ->
  as_integer (dict_get data (lit "from") PyNone) = Some sender ->
  (Str.startswith (lit "!") gateway_hex = false ->
   on_message h env {| topic := t; payload := raw |}
   = returns [request; (WARNING, UnexpectedGatewayFormat gateway_hex)]) /\
  (Str.startswith (lit "!") gateway_hex = true ->
   PyInt.int16 h (Str.lstrip (chr "!") gateway_hex) = None ->
   on_message h env {| topic := t; payload := raw |}
   = returns [request; (ERROR, CannotConvertGateway gateway_hex)]).
Proof.
  intros parts gateway_hex request Hlen Hchan Hdec Htype Htext Htrig Hsender.
  subst parts gateway_hex request.
  apply Nat.ltb_ge in Hlen. apply str_eqb_neq in Hchan.
  assert (Hfrom : dict_get data (lit "from") PyNone <> PyNone)
    by (intros E; rewrite E in Hsender; discriminate).
  split.
  - intros Hbang.
    unfold on_message; cbv zeta; cbn [topic payload].
    rewrite Hlen, Hchan, Hdec, Htext, Htype, Htrig.
    replace (is_text (PyStr (lit "text"))) with true by reflexivity.
    cbn [negb].
    destruct (dict_get data (lit "from") PyNone); try contradiction;
      rewrite Hsender, Hbang; reflexivity.
  - intros Hbang Hint.
    unfold on_message; cbv zeta; cbn [topic payload].
    rewrite Hlen, Hchan, Hdec, Htext, Htype, Htrig.
    replace (is_text (PyStr (lit "text"))) with true by reflexivity.
    cbn [negb]. unfold hex_node_id_to_decimal.
    destruct (dict_get data (lit "from") PyNone); try contradiction;
      rewrite Hsender, Hbang, Hint; reflexivity.
Qed.



(** A "from" that is present but no integer does not reach the gateway
    checks: [hex()] of line 134 raises [TypeError] before the gateway
    segment is looked at, whatever the segment holds. *)
Lemma non_integer_sender_examples :
  on_message sample_host default_environ
    {| topic := lit "msh/EU_868/2/json/LongFast/aabbccdd";
       payload := jbytes "{'type':'text','payload':'!time','from':'abc'}" |}
  = raises [] TypeError /\
  on_message sample_host default_environ
    {| topic := lit "msh/EU_868/2/json/LongFast/!zz";
       payload := jbytes "{'type':'text','payload':'!time','from':1.5}" |}
  = raises [] TypeError.
Proof. split; vm_compute; reflexivity. Qed.

(* ===================================================================== *)
(** ** Further properties of [hex_node_id_to_decimal] (lines 60-62) *)
(* ===================================================================== *)

Lemma hex_digit_value_small (c : codepoint) :
  is_hex_digit c = true -> (hex_digit_value c < 16)%N.
Proof.
  intros H. apply hex_digit_cases in H. simpl in H.
  repeat (destruct H as [<- | H]; [vm_compute; reflexivity |]).
  contradiction.
Qed.

Lemma hex_fold_bound (ds : str) (acc : N) (k : nat) :
  forallb is_hex_digit ds = true ->
  (acc < 16 ^ N.of_nat k)%N ->
  (fold_left (fun a c => 16 * a + hex_digit_value c) ds acc
   < 16 ^ N.of_nat (k + length ds))%N.
Proof.
  revert acc k; induction ds as [|c ds IH]; intros acc k Hds Hacc.
  - simpl. rewrite Nat.add_0_r. exact Hacc.
  - simpl in Hds. apply andb_true_iff in Hds as [Hc Hds].
    cbn [fold_left length]. rewrite Nat.add_succ_r.
    change (S (k + length ds)) with (S k + length ds)%nat.
    apply IH; [exact Hds |].
    pose proof (hex_digit_value_small c Hc).
    rewrite Nat2N.inj_succ, N.pow_succ_r'. lia.
Qed.

(** The decimal value of a hex identifier with [n] digits is a natural
    number below [16 ^ n]: an identifier of eight digits gives a 32-bit
    node number. *)
Theorem hex_id_value_in_range (h : Host) (ds : str) :
  ds <> [] -> forallb is_hex_digit ds = true ->
  exists d,
    hex_node_id_to_decimal h (chr "!" :: ds) = Some d /\
    (0 <= d < 16 ^ Z.of_nat (length ds))%Z /\
    (length ds = 8%nat -> (d < 4294967296)%Z).
Proof.
  intros Hne Hds. exists (Z.of_N (hex_value ds)).
  assert (Hbound : (hex_value ds < 16 ^ N.of_nat (length ds))%N).
  { unfold hex_value.
    apply (@hex_fold_bound ds 0%N 0%nat Hds). simpl. lia. }
  split; [apply decimal_of_hex_digits; assumption | split].
  - split; [lia |].
    rewrite <- nat_N_Z. change 16%Z with (Z.of_N 16).
    rewrite <- N2Z.inj_pow. lia.
  - intros Hlen. rewrite Hlen in Hbound. simpl in Hbound. lia.
Qed.

Lemma hex_id_value_in_range_witness :
  exists d,
    hex_node_id_to_decimal sample_host (lit "!aabbccdd") = Some d /\
    (0 <= d < 16 ^ 8)%Z.
Proof.
  destruct (@hex_id_value_in_range sample_host (lit "aabbccdd"))
    as (d & Hd & Hrange & _).
  - discriminate.
  - reflexivity.
  - exists d. split; [exact Hd | exact Hrange].
Defined.

Lemma ascii_lower_hex_digit (c : codepoint) :
  is_hex_digit c = true ->
  is_hex_digit (Str.ascii_lower c) = true /\
  hex_digit_value (Str.ascii_lower c) = hex_digit_value c.
Proof.
  intros H. apply hex_digit_cases in H. simpl in H.
  repeat (destruct H as [<- | H]; [split; reflexivity |]).
  contradiction.
Qed.

Lemma hex_fold_lower (ds : str) (acc : N) :
  forallb is_hex_digit ds = true ->
  forallb is_hex_digit (map Str.ascii_lower ds) = true /\
  fold_left (fun a c => 16 * a + hex_digit_value c)%N (map Str.ascii_lower ds) acc
  = fold_left (fun a c => 16 * a + hex_digit_value c)%N ds acc.
Proof.
  revert acc; induction ds as [|c ds IH]; intros acc Hds; [split; reflexivity |].
  simpl in Hds. apply andb_true_iff in Hds as [Hc Hds].
  destruct (ascii_lower_hex_digit c Hc) as [Hlow Hval].
  destruct (IH (16 * acc + hex_digit_value c)%N Hds) as [IH1 IH2].
  cbn [map forallb fold_left]. rewrite Hlow, IH1, Hval, IH2. split; reflexivity.
Qed.

(** The case of the hex digits does not matter: an identifier converts to
    the same number as its lower-case form. *)
Theorem hex_id_case_insensitive (h : Host) (ds : str) :
  ds <> [] -> forallb is_hex_digit ds = true ->
  hex_node_id_to_decimal h (chr "!" :: map Str.ascii_lower ds)
  = hex_node_id_to_decimal h (chr "!" :: ds).
Proof.
  intros Hne Hds.
  destruct (@hex_fold_lower ds 0%N Hds) as [Hlow Hval].
  rewrite (decimal_of_hex_digits h Hne Hds).
  rewrite decimal_of_hex_digits.
  - unfold hex_value. rewrite Hval. reflexivity.
  - destruct ds; [contradiction | discriminate].
  - exact Hlow.
Qed.

Lemma hex_id_case_insensitive_witness :
  hex_node_id_to_decimal sample_host (lit "!aabbccdd")
  = hex_node_id_to_decimal sample_host (lit "!AAbbCCdd").
Proof.
  apply (@hex_id_case_insensitive sample_host (lit "AAbbCCdd")).
  - discriminate.
  - reflexivity.
Defined.

Lemma lstrip_bangs (k : nat) (s : str) :
  Str.lstrip (chr "!") (repeat (chr "!") k ++ s) = Str.lstrip (chr "!") s.
Proof.
  induction k as [|k IH]; [reflexivity |].
  cbn [repeat app Str.lstrip]. rewrite N.eqb_refl. exact IH.
Qed.

(** [lstrip] takes every leading "!": any number of them, none included,
    gives the same value, and an identifier made of "!" alone, or empty,
    is refused. *)
Theorem hex_id_leading_bangs (h : Host) (k : nat) (s : str) :
  hex_node_id_to_decimal h (repeat (chr "!") k ++ s)
  = hex_node_id_to_decimal h s /\
  hex_node_id_to_decimal h (repeat (chr "!") k) = None.
Proof.
  unfold hex_node_id_to_decimal. split.
  - rewrite lstrip_bangs. reflexivity.
  - rewrite <- (app_nil_r (repeat (chr "!") k)), lstrip_bangs. reflexivity.
Qed.

Lemma skip_space_split (s : str) :
  exists sp, s = sp ++ PyInt.skip_space s /\ forallb PyInt.is_space sp = true.
Proof.
  induction s as [|c s (sp & Hs & Hsp)].
  - exists []. split; reflexivity.
  - cbn [PyInt.skip_space]. destruct (PyInt.is_space c) eqn:Hc.
    + exists (c :: sp). split; [simpl; congruence | simpl; rewrite Hc; exact Hsp].
    + exists []. split; reflexivity.
Qed.

Lemma digit16_is_hex (c : codepoint) (d : N) :
  PyInt.digit16 c = Some d -> is_hex_digit c = true.
Proof.
  unfold PyInt.digit16, PyInt.digit_value, is_hex_digit.
  destruct ((48 <=? c)%N && (c <=? 57)%N) eqn:E1; [reflexivity |].
  destruct ((97 <=? c)%N && (c <=? 122)%N) eqn:E2.
  - destruct (c - 87 <? 16)%N eqn:E; [| discriminate]. intros _.
    apply andb_true_iff in E2 as [Ha Hb].
    apply N.leb_le in Ha. apply N.ltb_lt in E.
    replace (c <=? 102)%N with true by (symmetry; apply N.leb_le; lia).
    replace (97 <=? c)%N with true by (symmetry; apply N.leb_le; lia).
    rewrite orb_true_r. reflexivity.
  - destruct ((65 <=? c)%N && (c <=? 90)%N) eqn:E3; [| discriminate].
    destruct (c - 55 <? 16)%N eqn:E; [| discriminate]. intros _.
    apply andb_true_iff in E3 as [Ha Hb].
    apply N.leb_le in Ha. apply N.ltb_lt in E.
    replace (c <=? 70)%N with true by (symmetry; apply N.leb_le; lia).
    replace (65 <=? c)%N with true by (symmetry; apply N.leb_le; lia).
    rewrite orb_true_r. reflexivity.
Qed.

Lemma scan_digits_chars (s : str) :
  forall b acc n v m rest,
    PyInt.scan_digits b acc n s = Some (v, m, rest) ->
    exists pre, s = pre ++ rest /\
                forallb (fun c => is_hex_digit c || N.eqb c 95) pre = true.
Proof.
  induction s as [|c s IH]; intros b acc n v m rest H; cbn [PyInt.scan_digits] in H.
  - destruct b; [discriminate |]. injection H as _ _ <-.
    exists []. split; reflexivity.
  - destruct (N.eqb c 95) eqn:Hu.
    + destruct b; [discriminate |].
      apply IH in H as (pre & -> & Hpre).
      exists (c :: pre). split; [reflexivity |].
      simpl. rewrite Hu, orb_true_r. exact Hpre.
    + destruct (PyInt.digit16 c) as [d|] eqn:Hd.
      * apply IH in H as (pre & -> & Hpre).
        exists (c :: pre). split; [reflexivity |].
        simpl. rewrite (digit16_is_hex c Hd). exact Hpre.
      * destruct b; [discriminate |]. injection H as _ _ <-.
        exists []. split; reflexivity.
Qed.

Lemma int16_char_of_space (s : str) :
  forallb PyInt.is_space s = true -> forallb int16_char s = true.
Proof.
  intros H. apply forallb_forall. intros c Hin.
  rewrite forallb_forall in H. unfold int16_char.
  rewrite (H c Hin). rewrite orb_true_r. reflexivity.
Qed.

Lemma int16_char_of_digits (s : str) :
  forallb (fun c => is_hex_digit c || N.eqb c 95) s = true ->
  forallb int16_char s = true.
Proof.
  intros H. apply forallb_forall. intros c Hin.
  rewrite forallb_forall in H. specialize (H c Hin). unfold int16_char.
  apply orb_true_iff in H as [-> | ->]; [reflexivity |].
  rewrite !orb_true_r. reflexivity.
Qed.

(** What [int(text, 16)] accepts is made of the characters of [int16_char]. *)
Lemma from_string16_chars (s : str) (v : Z) :
  PyInt.from_string16 s = Some v -> forallb int16_char s = true.
Proof.
  intros H. destruct (skip_space_split s) as (sp & Hs & Hsp).
  rewrite Hs, forallb_app, (int16_char_of_space _ Hsp). cbn [andb].
  unfold PyInt.from_string16 in H.
  destruct (PyInt.skip_space s) as [|c r]; [discriminate H |].
  clear Hs Hsp sp s.
  assert (Hbody :
    forall (neg : bool) (s3 pfx : str),
      c :: r = pfx ++ s3 -> forallb int16_char pfx = true ->
      match s3 return option Z with
      | [] => None
      | c0 :: _ =>
          if N.eqb c0 95 then None
          else match PyInt.scan_digits false 0%Z 0%nat s3 with
               | Some (v0, n, rest) =>
                   match n, PyInt.skip_space rest with
                   | S _, [] => Some (if neg then (- v0)%Z else v0)
                   | _, _ => None
                   end
               | None => None
               end
      end = Some v ->
      forallb int16_char (c :: r) = true).
  { intros neg s3 pfx Hsplit Hpfx Hscan.
    destruct s3 as [|c0 s3']; [discriminate |].
    destruct (N.eqb c0 95); [discriminate |].
    destruct (PyInt.scan_digits false 0%Z 0%nat (c0 :: s3')) as [[[v0 n] rest]|] eqn:E;
      [| discriminate].
    destruct n; [discriminate |].
    destruct (PyInt.skip_space rest) eqn:Erest; [| discriminate].
    apply scan_digits_chars in E as (pre & E & Hpre).
    destruct (skip_space_split rest) as (sp & Hr & Hsp).
    rewrite Erest, app_nil_r in Hr. subst rest.
    rewrite Hsplit, E, !forallb_app, Hpfx, (int16_char_of_digits _ Hpre),
      (int16_char_of_space _ Hsp). reflexivity. }
  assert (Hprefix :
    forall (neg : bool) (s2 sgn : str),
      c :: r = sgn ++ s2 -> forallb int16_char sgn = true ->
      (let s3 : str :=
         match s2 with
         | z :: x :: r0 =>
             if (N.eqb z 48 && (N.eqb x 120 || N.eqb x 88))%bool
             then match r0 with
                  | u :: r' => if N.eqb u 95 then r' else r0
                  | [] => r0
                  end
             else s2
         | _ => s2
         end in
       match s3 return option Z with
       | [] => None
       | c0 :: _ =>
           if N.eqb c0 95 then None
           else match PyInt.scan_digits false 0%Z 0%nat s3 with
                | Some (v0, n, rest) =>
                    match n, PyInt.skip_space rest with
                    | S _, [] => Some (if neg then (- v0)%Z else v0)
                    | _, _ => None
                    end
                | None => None
                end
       end) = Some v ->
      forallb int16_char (c :: r) = true).
  { intros neg s2 sgn Hsplit Hsgn Hrest. cbv zeta in Hrest.
    destruct s2 as [|z [|x r0]];
      try (apply (Hbody neg _ sgn Hsplit Hsgn Hrest)).
    destruct (N.eqb z 48 && (N.eqb x 120 || N.eqb x 88))%bool eqn:Hzx;
      [| apply (Hbody neg _ sgn Hsplit Hsgn Hrest)].
    assert (Hpfx2 : forallb int16_char (sgn ++ [z; x]) = true).
    { rewrite forallb_app, Hsgn. cbn [forallb andb].
      apply andb_true_iff in Hzx as [Hz Hx]. apply N.eqb_eq in Hz. subst z.
      unfold int16_char at 2.
      apply orb_true_iff in Hx as [-> | ->]; rewrite ?orb_true_r; reflexivity. }
    destruct r0 as [|u r'].
    - apply (Hbody neg [] (sgn ++ [z; x])); [| exact Hpfx2 | exact Hrest].
      rewrite Hsplit, <- app_assoc. reflexivity.
    - destruct (N.eqb u 95) eqn:Hu.
      + apply (Hbody neg r' (sgn ++ [z; x; u])); [| | exact Hrest].
        * rewrite Hsplit, <- app_assoc. reflexivity.
        * change [z; x; u] with ([z; x] ++ [u]). rewrite app_assoc, forallb_app, Hpfx2.
          cbn [forallb andb]. unfold int16_char. rewrite Hu, !orb_true_r. reflexivity.
      + apply (Hbody neg (u :: r') (sgn ++ [z; x])); [| exact Hpfx2 | exact Hrest].
        rewrite Hsplit, <- app_assoc. reflexivity. }
  destruct (N.eqb c 43) eqn:Hplus.
  - apply (Hprefix false r [c]); [reflexivity | | exact H].
    cbn [forallb]. unfold int16_char. rewrite Hplus, !orb_true_r. reflexivity.
  - destruct (N.eqb c 45) eqn:Hminus.
    + apply (Hprefix true r [c]); [reflexivity | | exact H].
      cbn [forallb]. unfold int16_char. rewrite Hminus, !orb_true_r. reflexivity.
    + apply (Hprefix false (c :: r) []); [reflexivity | reflexivity | exact H].
Qed.

Lemma to_ascii_keeps_ascii (h : Host) (s : str) (c : codepoint) :
  In c s -> (c < 127)%N -> In c (PyInt.to_ascii h s).
Proof.
  intros Hin Hc. unfold PyInt.to_ascii.
  destruct (forallb (fun c0 => (c0 <? 128)%N) s); [exact Hin |].
  apply in_map_iff. exists c. split; [| exact Hin].
  replace (c <? 127)%N with true by (symmetry; apply N.ltb_lt; exact Hc).
  reflexivity.
Qed.

(** An identifier is refused ([ValueError]) when, past the leading "!", it
    holds an ASCII character that is no hex digit, white space, underscore,
    sign or [x]: a letter from [g] to [z] other than [x], a dot, a
    colon. *)
Theorem hex_id_with_foreign_character_refused
  (h : Host) (hex_id : str) (c : codepoint) :
  In c (Str.lstrip (chr "!") hex_id) -> (c < 127)%N -> int16_char c = false ->
  hex_node_id_to_decimal h hex_id = None.
Proof.
  intros Hin Hc Hbad. unfold hex_node_id_to_decimal, PyInt.int16.
  destruct (PyInt.from_string16 (PyInt.to_ascii h (Str.lstrip (chr "!") hex_id)))
    as [v|] eqn:E; [| reflexivity].
  apply from_string16_chars in E. rewrite forallb_forall in E.
  rewrite (E c (@to_ascii_keeps_ascii h _ c Hin Hc)) in Hbad. discriminate.
Qed.

Lemma hex_id_with_foreign_character_refused_witness :
  hex_node_id_to_decimal sample_host (lit "!aabbccdg") = None.
Proof.
  apply (@hex_id_with_foreign_character_refused sample_host (lit "!aabbccdg")
           (chr "g")).
  - vm_compute. do 7 right. left. reflexivity.
  - reflexivity.
  - reflexivity.
Defined.

Lemma hex_digit_value_inj (c1 c2 : codepoint) :
  is_hex_digit c1 = true -> is_hex_digit c2 = true ->
  hex_digit_value c1 = hex_digit_value c2 ->
  Str.ascii_lower c1 = Str.ascii_lower c2.
Proof.
  intros H1 H2. apply hex_digit_cases in H1. apply hex_digit_cases in H2.
  simpl in H1, H2.
  repeat (destruct H1 as [<- | H1];
          [repeat (destruct H2 as [<- | H2];
                   [vm_compute; intros E; (reflexivity || discriminate E) |]);
           contradiction |]).
  contradiction.
Qed.

Lemma hex_fold_inj (ds1 : str) :
  forall (ds2 : str) (acc1 acc2 : N),
    length ds1 = length ds2 ->
    forallb is_hex_digit ds1 = true -> forallb is_hex_digit ds2 = true ->
    fold_left (fun a c => 16 * a + hex_digit_value c)%N ds1 acc1
    = fold_left (fun a c => 16 * a + hex_digit_value c)%N ds2 acc2 ->
    acc1 = acc2 /\ map Str.ascii_lower ds1 = map Str.ascii_lower ds2.
Proof.
  induction ds1 as [|c1 ds1 IH]; intros [|c2 ds2] acc1 acc2 Hlen H1 H2 Heq;
    try discriminate Hlen.
  - simpl in Heq. split; [exact Heq | reflexivity].
  - simpl in H1, H2.
    apply andb_true_iff in H1 as [Hc1 H1]. apply andb_true_iff in H2 as [Hc2 H2].
    injection Hlen as Hlen. cbn [fold_left] in Heq.
    destruct (IH ds2 _ _ Hlen H1 H2 Heq) as [Hacc Hmap].
    pose proof (hex_digit_value_small c1 Hc1).
    pose proof (hex_digit_value_small c2 Hc2).
    assert (Hv : hex_digit_value c1 = hex_digit_value c2) by lia.
    split; [lia |].
    cbn [map]. rewrite Hmap, (hex_digit_value_inj c1 c2 Hc1 Hc2 Hv). reflexivity.
Qed.

(** Two hex identifiers with the same number of digits convert to the same
    decimal number only when they are the same identifier up to the case of
    the letters: distinct gateways of the usual eight-digit form never
    collide. *)
Theorem hex_id_injective (h : Host) (ds1 ds2 : str) :
  ds1 <> [] -> length ds1 = length ds2 ->
  forallb is_hex_digit ds1 = true -> forallb is_hex_digit ds2 = true ->
  hex_node_id_to_decimal h (chr "!" :: ds1) = hex_node_id_to_decimal h (chr "!" :: ds2) ->
  map Str.ascii_lower ds1 = map Str.ascii_lower ds2.
Proof.
  intros Hne Hlen H1 H2 Heq.
  assert (Hne2 : ds2 <> []).
  { destruct ds2; [| discriminate]. destruct ds1; [contradiction | discriminate Hlen]. }
  rewrite (decimal_of_hex_digits h Hne H1), (decimal_of_hex_digits h Hne2 H2) in Heq.
  injection Heq as Heq. apply N2Z.inj in Heq.
  apply (@hex_fold_inj ds1 ds2 0%N 0%N Hlen H1 H2 Heq).
Qed.

Lemma hex_id_injective_witness :
  map Str.ascii_lower (lit "AABBccDD") = map Str.ascii_lower (lit "aabbCCdd").
Proof.
  apply (@hex_id_injective sample_host (lit "AABBccDD") (lit "aabbCCdd")).
  - discriminate.
  - reflexivity.
  - reflexivity.
  - reflexivity.
  - vm_compute. reflexivity.
Defined.

Lemma from_string16_signed (ds : str) :
  ds <> [] -> forallb is_hex_digit ds = true ->
  PyInt.from_string16 (45%N :: ds) = Some (- Z.of_N (hex_value ds))%Z /\
  PyInt.from_string16 (43%N :: ds) = Some (Z.of_N (hex_value ds)).
Proof.
  intros Hne Hds. destruct ds as [|c r]; [contradiction |].
  pose proof Hds as Hall. simpl in Hds. apply andb_true_iff in Hds as [Hc Hr].
  destruct (hex_digit_facts c Hc) as (_ & _ & _ & _ & _ & _ & Hu & _).
  unfold PyInt.from_string16. cbn [PyInt.skip_space].
  rewrite (eq_refl : PyInt.is_space 45%N = false),
    (eq_refl : PyInt.is_space 43%N = false),
    (eq_refl : N.eqb 45 43 = false), (eq_refl : N.eqb 45 45 = true),
    (eq_refl : N.eqb 43 43 = true).
  cbv beta iota zeta.
  destruct r as [|x r0].
  - rewrite Hu. change 0%Z with (Z.of_N 0%N).
    rewrite (scan_hex_digits [c] 0%N 0%nat Hall). split; reflexivity.
  - simpl in Hr. apply andb_true_iff in Hr as [Hx _].
    destruct (hex_digit_facts x Hx) as (_ & _ & _ & _ & _ & _ & _ & Hx1 & Hx2).
    rewrite Hx1, Hx2, andb_false_r. cbv beta iota. rewrite Hu.
    change 0%Z with (Z.of_N 0%N).
    rewrite (scan_hex_digits (c :: x :: r0) 0%N 0%nat Hall). split; reflexivity.
Qed.

Lemma from_string16_prefixed (x : codepoint) (ds : str) :
  x = 120%N \/ x = 88%N ->
  ds <> [] -> forallb is_hex_digit ds = true ->
  PyInt.from_string16 (48%N :: x :: ds) = Some (Z.of_N (hex_value ds)).
Proof.
  intros Hx Hne Hds. destruct ds as [|c r]; [contradiction |].
  pose proof Hds as Hall. simpl in Hds. apply andb_true_iff in Hds as [Hc Hr].
  destruct (hex_digit_facts c Hc) as (_ & _ & _ & _ & _ & _ & Hu & _).
  unfold PyInt.from_string16. cbn [PyInt.skip_space].
  rewrite (eq_refl : PyInt.is_space 48%N = false),
    (eq_refl : N.eqb 48 43 = false), (eq_refl : N.eqb 48 45 = false),
    (eq_refl : N.eqb 48 48 = true).
  cbv beta iota zeta.
  replace (N.eqb x 120%N || N.eqb x 88%N)%bool with true
    by (destruct Hx as [-> | ->]; reflexivity).
  cbn [andb]. rewrite Hu. cbv beta iota. change 0%Z with (Z.of_N 0%N).
  rewrite (scan_hex_digits (c :: r) 0%N 0%nat Hall), ?Hu. reflexivity.
Qed.

Lemma to_ascii_of_ascii (h : Host) (s : str) :
  forallb (fun c => c <? 128)%N s = true -> PyInt.to_ascii h s = s.
Proof. intros H. unfold PyInt.to_ascii. rewrite H. reflexivity. Qed.

Lemma hex_digits_ascii (ds : str) :
  forallb is_hex_digit ds = true -> forallb (fun c => c <? 128)%N ds = true.
Proof.
  intros Hds. apply forallb_forall. intros c Hin.
  rewrite forallb_forall in Hds. apply (hex_digit_facts c (Hds c Hin)).
Qed.

(** The converter takes more than the documented form: after the "!", a
    sign and the prefix [0x] or [0X] are read as [int(text, 16)] reads
    them, so "!-ff" is the negative number -255 and "!0xff" is 255. *)
Theorem hex_id_sign_and_prefix_read (h : Host) (ds : str) :
  ds <> [] -> forallb is_hex_digit ds = true ->
  let n := Z.of_N (hex_value ds) in
  hex_node_id_to_decimal h (lit "!-" ++ ds) = Some (- n)%Z /\
  hex_node_id_to_decimal h (lit "!+" ++ ds) = Some n /\
  hex_node_id_to_decimal h (lit "!0x" ++ ds) = Some n /\
  hex_node_id_to_decimal h (lit "!0X" ++ ds) = Some n.
Proof.
  intros Hne Hds n. pose proof (hex_digits_ascii ds Hds) as Hascii.
  destruct (from_string16_signed Hne Hds) as [Hminus Hplus].
  unfold hex_node_id_to_decimal, PyInt.int16.
  repeat split.
  - change (Str.lstrip (chr "!") (lit "!-" ++ ds)) with (45%N :: ds).
    rewrite to_ascii_of_ascii by (simpl; exact Hascii). exact Hminus.
  - change (Str.lstrip (chr "!") (lit "!+" ++ ds)) with (43%N :: ds).
    rewrite to_ascii_of_ascii by (simpl; exact Hascii). exact Hplus.
  - change (Str.lstrip (chr "!") (lit "!0x" ++ ds)) with (48%N :: 120%N :: ds).
    rewrite to_ascii_of_ascii by (simpl; exact Hascii).
    apply from_string16_prefixed; auto.
  - change (Str.lstrip (chr "!") (lit "!0X" ++ ds)) with (48%N :: 88%N :: ds).
    rewrite to_ascii_of_ascii by (simpl; exact Hascii).
    apply from_string16_prefixed; auto.
Qed.

Lemma hex_id_sign_and_prefix_read_witness :
  hex_node_id_to_decimal sample_host (lit "!-ff") = Some (- 255)%Z /\
  hex_node_id_to_decimal sample_host (lit "!+ff") = Some 255%Z /\
  hex_node_id_to_decimal sample_host (lit "!0xff") = Some 255%Z /\
  hex_node_id_to_decimal sample_host (lit "!0Xff") = Some 255%Z.
Proof.
  apply (@hex_id_sign_and_prefix_read sample_host (lit "ff")).
  - discriminate.
  - reflexivity.
Defined.

(* ===================================================================== *)
(** ** Further properties of [current_time_str] (lines 53-57) *)
(* ===================================================================== *)

(** For a known time zone and a clock within the four-digit years, the
    time string is YYYY-MM-DD HH:MM:SS, a space and the abbreviation of the
    zone: nineteen characters of date and time, digits at every place but
    the separators. *)
Theorem current_time_str_format (h : Host) (env : Environ) (tz : tzinfo) :
  pytz_timezone h (TIMEZONE env) = Some tz ->
  let now := datetime_now h tz in
  (1000 <= year now < 10000)%N -> (month now < 100)%N -> (day now < 100)%N ->
  (hour now < 100)%N -> (minute now < 100)%N -> (second now < 100)%N ->
  exists YYYY MM DD hh mm ss,
    current_time_str h env
    = Some (YYYY ++ lit "-" ++ MM ++ lit "-" ++ DD ++ lit " "
              ++ hh ++ lit ":" ++ mm ++ lit ":" ++ ss ++ lit " " ++ tzname now) /\
    length YYYY = 4%nat /\ length MM = 2%nat /\ length DD = 2%nat /\
    length hh = 2%nat /\ length mm = 2%nat /\ length ss = 2%nat /\
    forallb Json.is_digit (YYYY ++ MM ++ DD ++ hh ++ mm ++ ss) = true.
Proof.
  intros Htz now [_ Hy] Hmo Hd Hh Hmi Hs.
  destruct (@strftime_shape now Hy Hmo Hd Hh Hmi Hs)
    as (YYYY & MM & DD & hh & mm & ss & Heq & Hrest).
  exists YYYY, MM, DD, hh, mm, ss. split; [| exact Hrest].
  unfold current_time_str. rewrite Htz. fold now. rewrite Heq. reflexivity.
Qed.

Lemma current_time_str_format_witness :
  exists YYYY MM DD hh mm ss,
    current_time_str sample_host default_environ
    = Some (YYYY ++ lit "-" ++ MM ++ lit "-" ++ DD ++ lit " "
              ++ hh ++ lit ":" ++ mm ++ lit ":" ++ ss ++ lit " " ++ lit "UTC") /\
    length YYYY = 4%nat /\ length MM = 2%nat /\ length DD = 2%nat /\
    length hh = 2%nat /\ length mm = 2%nat /\ length ss = 2%nat /\
    forallb Json.is_digit (YYYY ++ MM ++ DD ++ hh ++ mm ++ ss) = true.
Proof.
  apply (@current_time_str_format sample_host default_environ
           {| zone := lit "UTC" |}); try reflexivity.
  split; [discriminate | reflexivity].
Defined.

(* ===================================================================== *)
(** ** Further properties of [on_message] (lines 83-168) *)
(* ===================================================================== *)

Lemma undecodable_payload_dropped_witness :
  on_message sample_host default_environ
    {| topic := uplink_topic; payload := jbytes "{'type':" |}
  = returns [(DEBUG, CannotParsePayload uplink_topic)].
Proof.
  apply undecodable_payload_dropped.
  - rewrite uplink_topic_parts. simpl. lia.
  - rewrite uplink_topic_parts. vm_compute. discriminate.
  - right. exists (jstr "{'type':"). split; vm_compute; reflexivity.
Defined.

Lemma malformed_gateway_rejected_witness :
  on_message sample_host default_environ
    {| topic := lit "msh/EU_868/2/json/LongFast/aabbccdd";
       payload := payload time_request |}
  = returns [(INFO, TimeRequest (Int 123456) (lit "aabbccdd") (lit "LongFast")
                      (lit "EU_868"));
             (WARNING, UnexpectedGatewayFormat (lit "aabbccdd"))].
Proof.
  apply (proj1 (@malformed_gateway_rejected sample_host default_environ
                  (lit "msh/EU_868/2/json/LongFast/aabbccdd")
                  (payload time_request)
                  [(lit "type", PyStr (lit "text"));
                   (lit "payload", PyStr (lit "hey !time please"));
                   (lit "from", PyInt 123456)]
                  (lit "hey !time please") (Int 123456)
                  ltac:(vm_compute; lia)
                  ltac:(vm_compute; discriminate)
                  ltac:(vm_compute; reflexivity)
                  ltac:(vm_compute; reflexivity)
                  ltac:(vm_compute; reflexivity)
                  ltac:(vm_compute; reflexivity)
                  ltac:(vm_compute; reflexivity))).
  vm_compute. reflexivity.
Defined.

(** *** The exceptions of [json.loads] *)

Lemma scanstring_never_escapes (s : str) :
  forall acc e, Json.scanstring acc s <> Json.Escapes e.
Proof.
  induction s as [s IH] using (induction_ltof1 _ (@length codepoint)).
  unfold ltof in IH. intros acc e H.
  destruct s as [|c s0]; [discriminate H |].
  cbn [Json.scanstring] in H.
  scan_cases H; apply IH in H; try exact H; simpl; lia.
Qed.

Lemma match_number_escapes (h : Host) (s : str) (e : exn) :
  Json.match_number h s = Json.Escapes e -> e = ValueError.
Proof.
  unfold Json.match_number, Json.int_literal. intros H.
  scan_cases H. injection H as <-. reflexivity.
Qed.

Section Escapes.

Variable elem : str -> Json.scan value.
Variable P : exn -> Prop.
Hypothesis elem_escapes : forall s e, elem s = Json.Escapes e -> P e.

Lemma object_members_escapes (fuel : nat) :
  forall acc s e, Json.object_members elem fuel acc s = Json.Escapes e -> P e.
Proof.
  induction fuel as [|f IH]; intros acc s e H; [discriminate H |].
  cbn [Json.object_members] in H. scan_cases H.
  - apply IH in H. exact H.
  - injection H as <-. eapply elem_escapes. eassumption.
  - exfalso. eapply scanstring_never_escapes. eassumption.
Qed.

Lemma array_items_escapes (fuel : nat) :
  forall acc s e, Json.array_items elem fuel acc s = Json.Escapes e -> P e.
Proof.
  induction fuel as [|f IH]; intros acc s e H; [discriminate H |].
  cbn [Json.array_items] in H. scan_cases H.
  - apply IH in H. exact H.
  - injection H as <-. eapply elem_escapes. eassumption.
Qed.

End Escapes.

Lemma scan_once_escapes (h : Host) (depth : nat) :
  forall s e,
    Json.scan_once h depth s = Json.Escapes e ->
    e = RecursionError \/ e = ValueError.
Proof.
  induction depth as [|d IH]; intros s e H;
    (destruct s as [|c s0]; [discriminate H |]);
    cbn [Json.scan_once] in H;
    repeat match type of H with
           | context [if ?b then _ else _] => destruct b eqn:?
           end;
    try discriminate H;
    try (right; apply match_number_escapes in H; exact H);
    try (left; injection H as <-; reflexivity);
    try (destruct (Json.scanstring [] s0) eqn:E; try discriminate H;
         exfalso; eapply scanstring_never_escapes; eassumption).
  - unfold Json.parse_object in H. scan_cases H.
    apply (@object_members_escapes (Json.scan_once h d)
             (fun x => x = RecursionError \/ x = ValueError) IH _ _ _ _ H).
  - unfold Json.parse_array in H. scan_cases H.
    apply (@array_items_escapes (Json.scan_once h d)
             (fun x => x = RecursionError \/ x = ValueError) IH _ _ _ _ H).
Qed.

(** Out of the [try] of lines 110-114 come [RecursionError] and
    [ValueError] only: neither is caught by the [except] clause. *)
Lemma decode_payload_uncaught (h : Host) (raw : bytes) (e : exn) :
  decode_payload h raw = Uncaught e -> e = RecursionError \/ e = ValueError.
Proof.
  unfold decode_payload, Json.loads. intros H. scan_cases H.
  injection H as <-.
  match goal with
  | E : _ = Json.Raised _ |- _ => scan_cases E; injection E as <-
  end.
  match goal with
  | E : Json.scan_once _ _ _ = Json.Escapes _ |- _ =>
      apply scan_once_escapes in E; exact E
  end.
Qed.

(** *** The exceptions that leave the handler *)

(** [AttributeError] leaves the handler exactly when the payload decodes
    to a JSON value that is not an object, on a topic that passed the two
    topic checks; nothing has been logged by then. *)
Theorem attribute_error_exactly_when (h : Host) (env : Environ) (m : Message) :
  (ended (on_message h env m) = Raises AttributeError <->
   (6 <= length (parts_of m))%nat /\ channel_of m <> lit "mqtt" /\
   exists data, decode_payload h (payload m) = Decoded data /\
                forall items, data <> PyDict items) /\
  (ended (on_message h env m) = Raises AttributeError <->
   on_message h env m = raises [] AttributeError).
Proof.
  assert (Hback :
    (6 <= length (parts_of m))%nat /\ channel_of m <> lit "mqtt" /\
    (exists data, decode_payload h (payload m) = Decoded data /\
                  forall items, data <> PyDict items) ->
    on_message h env m = raises [] AttributeError).
  { intros (Hlen & Hchan & data & Hdec & Hdata). destruct m as [t raw].
    apply (non_object_payload_raises h env t raw Hlen Hchan Hdec Hdata). }
  assert (Hforth :
    ended (on_message h env m) = Raises AttributeError ->
    (6 <= length (parts_of m))%nat /\ channel_of m <> lit "mqtt" /\
    (exists data, decode_payload h (payload m) = Decoded data /\
                  forall items, data <> PyDict items)).
  { unfold parts_of, channel_of.
    handler_cases; cbn [ended returns raises]; intros H; try discriminate H.
    all: match goal with
         | E : decode_payload _ _ = Uncaught _ |- _ =>
             injection H as ->; apply decode_payload_uncaught in E;
             destruct E; discriminate
         | _ => idtac
         end.
    all: match goal with
         | E : (_ <? _)%nat = false |- _ => apply Nat.ltb_ge in E
         end.
    all: match goal with
         | E : Str.eqb _ _ = false |- _ => apply str_eqb_neq in E
         end.
    all: split; [assumption | split; [assumption |]].
    all: eexists; split; [reflexivity | intros ?; discriminate]. }
  split; split.
  - exact Hforth.
  - intros H. rewrite (Hback H). reflexivity.
  - intros H. apply Hback, Hforth, H.
  - intros H. rewrite H. reflexivity.
Qed.

(** [TypeError] leaves the handler exactly when a text message with the
    trigger carries a "from" that is neither absent, [null], an integer nor
    a boolean: [hex()] of line 134 refuses it, before anything is logged and
    before the gateway segment is looked at. *)
Theorem type_error_exactly_when (h : Host) (env : Environ) (m : Message) :
  (ended (on_message h env m) = Raises TypeError <->
   (6 <= length (parts_of m))%nat /\ channel_of m <> lit "mqtt" /\
   exists data text,
     decode_payload h (payload m) = Decoded (PyDict data) /\
     dict_get data (lit "type") (PyStr []) = PyStr (lit "text") /\
     dict_get data (lit "payload") (PyStr []) = PyStr text /\
     has_trigger h env text = true /\
     dict_get data (lit "from") PyNone <> PyNone /\
     as_integer (dict_get data (lit "from") PyNone) = None) /\
  (ended (on_message h env m) = Raises TypeError <->
   on_message h env m = raises [] TypeError).
Proof.
  assert (Hback :
    (6 <= length (parts_of m))%nat /\ channel_of m <> lit "mqtt" /\
    (exists data text,
       decode_payload h (payload m) = Decoded (PyDict data) /\
       dict_get data (lit "type") (PyStr []) = PyStr (lit "text") /\
       dict_get data (lit "payload") (PyStr []) = PyStr text /\
       has_trigger h env text = true /\
       dict_get data (lit "from") PyNone <> PyNone /\
       as_integer (dict_get data (lit "from") PyNone) = None) ->
    on_message h env m = raises [] TypeError).
  { unfold channel_of, parts_of.
    intros (Hlen & Hchan & data & text & Hdec & Htype & Htext & Htrig & Hfrom & Hint).
    apply Nat.ltb_ge in Hlen. apply str_eqb_neq in Hchan.
    unfold on_message; cbv zeta.
    rewrite Hlen, Hchan, Hdec, Htext, Htype, Htrig.
    replace (is_text (PyStr (lit "text"))) with true by reflexivity.
    cbn [negb].
    destruct (dict_get data (lit "from") PyNone); try contradiction;
      try discriminate Hint; reflexivity. }
  assert (Hforth :
    ended (on_message h env m) = Raises TypeError ->
    (6 <= length (parts_of m))%nat /\ channel_of m <> lit "mqtt" /\
    (exists data text,
       decode_payload h (payload m) = Decoded (PyDict data) /\
       dict_get data (lit "type") (PyStr []) = PyStr (lit "text") /\
       dict_get data (lit "payload") (PyStr []) = PyStr text /\
       has_trigger h env text = true /\
       dict_get data (lit "from") PyNone <> PyNone /\
       as_integer (dict_get data (lit "from") PyNone) = None)).
  { unfold parts_of, channel_of.
    handler_cases; cbn [ended returns raises]; intros H; try discriminate H.
    all: match goal with
         | E : decode_payload _ _ = Uncaught _ |- _ =>
             injection H as ->; apply decode_payload_uncaught in E;
             destruct E; discriminate
         | _ => idtac
         end.
    all: match goal with
         | E : (_ <? _)%nat = false |- _ => apply Nat.ltb_ge in E
         end.
    all: match goal with
         | E : Str.eqb _ _ = false |- _ => apply str_eqb_neq in E
         end.
    all: match goal with
         | E : is_text _ = true |- _ => apply is_text_iff in E
         end.
    all: split; [assumption | split; [assumption |]].
    all: do 2 eexists; repeat split; try eassumption; try reflexivity.
    all: match goal with
         | E : dict_get _ _ PyNone = _ |- _ => rewrite E
         end; try discriminate; try assumption; try reflexivity. }
  split; split.
  - exact Hforth.
  - intros H. rewrite (Hback H). reflexivity.
  - intros H. apply Hback, Hforth, H.
  - intros H. rewrite H. reflexivity.
Qed.

(** *** A time request that passed the checks of the payload *)

(** What is left of the handler once a text message with the trigger and
    an integer sender is at hand: lines 132-168. *)
Lemma on_message_time_request
  (h : Host) (env : Environ) (m : Message)
  (data : dict) (text : str) (sender : integer) :
  (6 <= length (parts_of m))%nat ->
  channel_of m <> lit "mqtt" ->
  decode_payload h (payload m) = Decoded (PyDict data) ->
  dict_get data (lit "type") (PyStr []) = PyStr (lit "text") ->
  dict_get data (lit "payload") (PyStr []) = PyStr text ->
  has_trigger h env text = true ->
  as_integer (dict_get data (lit "from") PyNone) = Some sender ->
  on_message h env m =
    let request :=
      (INFO, TimeRequest sender (gateway_of m) (channel_of m) (region_of m)) in
    if Str.startswith (lit "!") (gateway_of m) then
      match hex_node_id_to_decimal h (gateway_of m) with
      | None => returns [request; (ERROR, CannotConvertGateway (gateway_of m))]
      | Some gateway_decimal =>
          match current_time_str h env with
          | None => raises [request] UnknownTimeZoneError
          | Some time_str =>
              match Dumps.dumps h {| from_ := gateway_decimal;
                                     type_ := lit "sendtext";
                                     payload_ := lit "Current time: " ++ time_str;
                                     to_ := sender |} with
              | None => raises [request] ValueError
              | Some payload_json =>
                  {| logged :=
                       [request;
                        (INFO, PublishedReply (downlink_topic (region_of m))
                                 payload_json)];
                     published :=
                       [{| pub_topic := downlink_topic (region_of m);
                           pub_payload := payload_json;
                           pub_qos := 0 |}];
                     ended := Returns |}
              end
          end
      end
    else returns [request; (WARNING, UnexpectedGatewayFormat (gateway_of m))].
Proof.
  unfold gateway_of, region_of, channel_of, parts_of.
  intros Hlen Hchan Hdec Htype Htext Htrig Hsender.
  apply Nat.ltb_ge in Hlen. apply str_eqb_neq in Hchan.
  assert (Hfrom : dict_get data (lit "from") PyNone <> PyNone)
    by (intros E; rewrite E in Hsender; discriminate).
  unfold on_message; cbv zeta.
  rewrite Hlen, Hchan, Hdec, Htext, Htype, Htrig.
  replace (is_text (PyStr (lit "text"))) with true by reflexivity.
  cbn [negb].
  destruct (dict_get data (lit "from") PyNone); try contradiction;
    rewrite Hsender;
    destruct (Str.startswith (lit "!") (nth 5 (Str.split (chr "/") (topic m)) []));
    reflexivity.
Qed.

(** A reply is published exactly when every check passes: a topic of six
    segments or more off the channel "mqtt", a JSON object of type "text"
    whose payload is a string with the trigger and whose sender is an
    integer, a gateway segment that starts with "!" and converts, a known
    time zone, and numbers that [json.dumps] can write. *)
Theorem reply_published_exactly_when (h : Host) (env : Environ) (m : Message) :
  published (on_message h env m) <> [] <->
  (6 <= length (parts_of m))%nat /\
  channel_of m <> lit "mqtt" /\
  exists data text sender gateway_decimal time_str payload_json,
    decode_payload h (payload m) = Decoded (PyDict data) /\
    dict_get data (lit "type") (PyStr []) = PyStr (lit "text") /\
    dict_get data (lit "payload") (PyStr []) = PyStr text /\
    has_trigger h env text = true /\
    as_integer (dict_get data (lit "from") PyNone) = Some sender /\
    Str.startswith (lit "!") (gateway_of m) = true /\
    hex_node_id_to_decimal h (gateway_of m) = Some gateway_decimal /\
    current_time_str h env = Some time_str /\
    Dumps.dumps h {| from_ := gateway_decimal;
                     type_ := lit "sendtext";
                     payload_ := lit "Current time: " ++ time_str;
                     to_ := sender |} = Some payload_json.
Proof.
  split.
  - intros Hpub.
    destruct (on_message_published h env m Hpub)
      as (data & text & sender & gd & ts & pj & Hlen & Hchan & Hdec & Htype
          & Htext & Htrig & Hsender & Hbang & Hgd & Hts & Hpj & _).
    split; [exact Hlen | split; [exact Hchan |]].
    exists data, text, sender, gd, ts, pj.
    apply is_text_iff in Htype. repeat (split; [assumption |]). assumption.
  - intros (Hlen & Hchan & data & text & sender & gd & ts & pj & Hdec & Htype
            & Htext & Htrig & Hsender & Hbang & Hgd & Hts & Hpj).
    rewrite (on_message_time_request h env m Hlen Hchan Hdec Htype Htext Htrig
               Hsender).
    cbv zeta. rewrite Hbang, Hgd, Hts, Hpj. discriminate.
Qed.

(** With a time zone that [pytz] does not know, the service starts and
    runs, publishes nothing, whatever the message, and raises
    [UnknownTimeZoneError] out of the handler at every time request that
    passed the checks, the request logged; the exception leaves the handler
    on no other message. *)
Theorem unknown_time_zone (h : Host) (env : Environ) (m : Message) :
  pytz_timezone h (TIMEZONE env) = None ->
  published (on_message h env m) = [] /\
  (forall data text sender gateway_decimal,
     (6 <= length (parts_of m))%nat ->
     channel_of m <> lit "mqtt" ->
     decode_payload h (payload m) = Decoded (PyDict data) ->
     dict_get data (lit "type") (PyStr []) = PyStr (lit "text") ->
     dict_get data (lit "payload") (PyStr []) = PyStr text ->
     has_trigger h env text = true ->
     as_integer (dict_get data (lit "from") PyNone) = Some sender ->
     Str.startswith (lit "!") (gateway_of m) = true ->
     hex_node_id_to_decimal h (gateway_of m) = Some gateway_decimal ->
     on_message h env m
     = raises [(INFO, TimeRequest sender (gateway_of m) (channel_of m)
                        (region_of m))] UnknownTimeZoneError) /\
  (ended (on_message h env m) = Raises UnknownTimeZoneError ->
   (6 <= length (parts_of m))%nat /\
   channel_of m <> lit "mqtt" /\
   exists data text sender gateway_decimal,
     decode_payload h (payload m) = Decoded (PyDict data) /\
     dict_get data (lit "type") (PyStr []) = PyStr (lit "text") /\
     dict_get data (lit "payload") (PyStr []) = PyStr text /\
     has_trigger h env text = true /\
     as_integer (dict_get data (lit "from") PyNone) = Some sender /\
     Str.startswith (lit "!") (gateway_of m) = true /\
     hex_node_id_to_decimal h (gateway_of m) = Some gateway_decimal).
Proof.
  intros Htz.
  assert (Hnone : current_time_str h env = None)
    by (unfold current_time_str; rewrite Htz; reflexivity).
  split; [| split].
  - destruct (published (on_message h env m)) eqn:E; [reflexivity |].
    assert (Hpub : published (on_message h env m) <> [])
      by (rewrite E; discriminate).
    destruct (on_message_published h env m Hpub)
      as (_ & _ & _ & _ & ts & _ & _ & _ & _ & _ & _ & _ & _ & _ & _ & Hts & _).
    rewrite Hnone in Hts. discriminate Hts.
  - intros data text sender gd Hlen Hchan Hdec Htype Htext Htrig Hsender Hbang Hgd.
    rewrite (on_message_time_request h env m Hlen Hchan Hdec Htype Htext Htrig
               Hsender).
    cbv zeta. rewrite Hbang, Hgd, Hnone. reflexivity.
  - unfold parts_of, channel_of, gateway_of, region_of.
    handler_cases; cbn [ended returns raises]; intros H; try discriminate H.
    all: match goal with
         | E : decode_payload _ _ = Uncaught _ |- _ =>
             injection H as He; apply decode_payload_uncaught in E;
             destruct E as [E | E]; rewrite E in He; discriminate He
         | _ => idtac
         end.
    all: match goal with
         | E : (_ <? _)%nat = false |- _ => apply Nat.ltb_ge in E
         end.
    all: match goal with
         | E : Str.eqb _ _ = false |- _ => apply str_eqb_neq in E
         end.
    all: match goal with
         | E : is_text _ = true |- _ => apply is_text_iff in E
         end.
    all: split; [assumption | split; [assumption |]].
    all: do 4 eexists; repeat split; try eassumption; try reflexivity.
    all: match goal with
         | E : dict_get _ _ PyNone = _ |- _ => rewrite E; eassumption
         end.
Qed.

Lemma unknown_time_zone_witness :
  published (on_message sample_host mars_environ time_request) = [] /\
  on_message sample_host mars_environ time_request
  = raises [(INFO, TimeRequest (Int 123456) (lit "!aabbccdd") (lit "LongFast")
                     (lit "EU_868"))] UnknownTimeZoneError.
Proof.
  destruct (@unknown_time_zone sample_host mars_environ time_request)
    as [Hpub [Hraise _]].
  - reflexivity.
  - split; [exact Hpub |].
    apply (Hraise [(lit "type", PyStr (lit "text"));
                   (lit "payload", PyStr (lit "hey !time please"));
                   (lit "from", PyInt 123456)]
             (lit "hey !time please") (Int 123456) 2864434397%Z);
      try (vm_compute; reflexivity).
    vm_compute. discriminate.
Defined.

(** *** The topic of the reply *)

Lemma split_from_segment (sep : codepoint) (a b : str) :
  ~ In sep a ->
  forall cur,
    Str.split_from sep cur (a ++ sep :: b)
    = (rev cur ++ a) :: Str.split_from sep [] b.
Proof.
  induction a as [|c a IH]; intros Hsep cur.
  - cbn [app Str.split_from]. rewrite N.eqb_refl, app_nil_r. reflexivity.
  - cbn [app Str.split_from].
    destruct (N.eqb_spec c sep) as [-> | Hc]; [exfalso; apply Hsep; left; reflexivity |].
    rewrite IH by (intros Hin; apply Hsep; right; exact Hin).
    cbn [rev]. rewrite <- app_assoc. reflexivity.
Qed.

Lemma downlink_topic_parts (region : str) :
  ~ In (chr "/") region ->
  Str.split (chr "/") (downlink_topic region)
  = [lit "msh"; region; lit "2"; lit "json"; lit "mqtt"; []].
Proof.
  intros Hsep. unfold Str.split, downlink_topic.
  change (lit "msh/" ++ region ++ lit "/2/json/mqtt/")
    with (lit "msh" ++ chr "/" :: region ++ chr "/" :: lit "2/json/mqtt/").
  rewrite split_from_segment by (vm_compute; intuition discriminate).
  rewrite split_from_segment by exact Hsep.
  reflexivity.
Qed.

Lemma region_without_separator (m : Message) : ~ In (chr "/") (region_of m).
Proof.
  unfold region_of, parts_of.
  pose proof (split_no_sep (chr "/") (topic m)) as Hall.
  rewrite Forall_forall in Hall.
  destruct (nth_in_or_default 1 (Str.split (chr "/") (topic m)) []) as [Hin | ->].
  - apply Hall, Hin.
  - intros [].
Qed.

(** No echo: the topic the service publishes a reply on is one it never
    answers, whatever the payload and the configuration.  The subscription
    of line 73 takes in the downlink topics, so the service receives its own
    replies; the channel check of line 104 drops each of them without a log
    call. *)
Theorem reply_topic_never_answered
  (h : Host) (env : Environ) (m : Message) (p : publication) :
  In p (published (on_message h env m)) ->
  forall (h' : Host) (env' : Environ) (raw : bytes),
    on_message h' env' {| topic := pub_topic p; payload := raw |} = returns [].
Proof.
  intros Hin h' env' raw.
  assert (Hpub : published (on_message h env m) <> [])
    by (intros E; rewrite E in Hin; destruct Hin).
  destruct (on_message_published h env m Hpub)
    as (data & text & sender & gd & ts & pj & _ & _ & _ & _ & _ & _ & _ & _ & _
        & _ & _ & Heq).
  rewrite Heq in Hin. cbn [published] in Hin.
  destruct Hin as [<- | []]. cbn [pub_topic].
  pose proof (@downlink_topic_parts _ (region_without_separator m)) as Hparts.
  apply downlink_channel_returns; rewrite Hparts.
  - simpl. lia.
  - reflexivity.
Qed.

Lemma reply_topic_never_answered_witness :
  on_message sample_host default_environ
    {| topic := lit "msh/EU_868/2/json/mqtt/"; payload := payload time_request |}
  = returns [].
Proof.
  apply (@reply_topic_never_answered sample_host default_environ time_request
           (hd {| pub_topic := []; pub_payload := []; pub_qos := 0 |}
               (published (on_message sample_host default_environ time_request)))).
  vm_compute. left. reflexivity.
Defined.

(** *** The segments of the topic that are read *)

(** Of the topic the handler reads the second, fifth and sixth segments and
    whether there are six: two topics that agree there get the same
    publication and the same end, whatever stands in the first, third and
    fourth segments ("msh", "2" and "json" are not checked) and after the
    sixth.  When the payload decodes, the log calls agree too. *)
Theorem only_three_segments_read
  (h : Host) (env : Environ) (t1 t2 : str) (raw : bytes) :
  let parts1 := Str.split (chr "/") t1 in
  let parts2 := Str.split (chr "/") t2 in
  let m1 := {| topic := t1; payload := raw |} in
  let m2 := {| topic := t2; payload := raw |} in
  (6 <= length parts1)%nat -> (6 <= length parts2)%nat ->
  nth 1 parts1 [] = nth 1 parts2 [] ->
  nth 4 parts1 [] = nth 4 parts2 [] ->
  nth 5 parts1 [] = nth 5 parts2 [] ->
  published (on_message h env m1) = published (on_message h env m2) /\
  ended (on_message h env m1) = ended (on_message h env m2) /\
  (decode_payload h raw <> Undecodable ->
   on_message h env m1 = on_message h env m2).
Proof.
  intros parts1 parts2 m1 m2 Hlen1 Hlen2 H1 H4 H5.
  subst parts1 parts2 m1 m2.
  apply Nat.ltb_ge in Hlen1. apply Nat.ltb_ge in Hlen2.
  unfold on_message; cbv zeta; cbn [topic payload].
  rewrite Hlen1, Hlen2, H1, H4, H5.
  destruct (Str.eqb (nth 4 (Str.split (chr "/") t2) []) (lit "mqtt"));
    [repeat split; reflexivity |].
  destruct (decode_payload h raw) as [data | | e];
    [| repeat split; try reflexivity; intros Hd; exfalso; apply Hd; reflexivity
     | repeat split; reflexivity].
  repeat split; reflexivity.
Qed.

Lemma only_three_segments_read_witness :
  published (on_message sample_host default_environ time_request)
  = published (on_message sample_host default_environ
                 {| topic := lit "any/EU_868/thing/here/LongFast/!aabbccdd/and/more";
                    payload := payload time_request |}) /\
  ended (on_message sample_host default_environ time_request)
  = ended (on_message sample_host default_environ
             {| topic := lit "any/EU_868/thing/here/LongFast/!aabbccdd/and/more";
                payload := payload time_request |}).
Proof.
  destruct (@only_three_segments_read sample_host default_environ
              uplink_topic
              (lit "any/EU_868/thing/here/LongFast/!aabbccdd/and/more")
              (payload time_request)) as (Hpub & Hend & _).
  - vm_compute. lia.
  - vm_compute. lia.
  - vm_compute. reflexivity.
  - vm_compute. reflexivity.
  - vm_compute. reflexivity.
  - split; [exact Hpub | exact Hend].
Defined.

(** *** The trigger test (lines 39 and 124) *)

Lemma lower_from_ascii (h : Host) (whole : str) (s : str) :
  forallb (fun c => c <? 128)%N s = true ->
  forall i, Str.lower_from h whole i s = map Str.ascii_lower s.
Proof.
  induction s as [|c s IH]; intros Hs i; [reflexivity |].
  simpl in Hs. apply andb_true_iff in Hs as [Hc Hs].
  cbn [Str.lower_from map]. rewrite Hc, IH by exact Hs. reflexivity.
Qed.

Lemma lower_ascii (h : Host) (s : str) :
  forallb (fun c => c <? 128)%N s = true -> Str.lower h s = map Str.ascii_lower s.
Proof. intros Hs. apply lower_from_ascii. exact Hs. Qed.

(** For a trigger word and a text in ASCII the test is the search of the
    lower-cased word in the lower-cased text: the Unicode tables of the
    interpreter have no say, and two texts that differ in the case of
    their letters only get the same answer. *)
Theorem has_trigger_ascii (h : Host) (env : Environ) (text : str) :
  let word := getenv (env_TIME_TRIGGER env) (lit "!time") in
  forallb (fun c => c <? 128)%N word = true ->
  forallb (fun c => c <? 128)%N text = true ->
  has_trigger h env text
  = Str.contains (map Str.ascii_lower word) (map Str.ascii_lower text) /\
  forall text',
    forallb (fun c => c <? 128)%N text' = true ->
    map Str.ascii_lower text' = map Str.ascii_lower text ->
    has_trigger h env text' = has_trigger h env text.
Proof.
  intros word Hword Htext.
  assert (Hone : forall t, forallb (fun c => c <? 128)%N t = true ->
            has_trigger h env t
            = Str.contains (map Str.ascii_lower word) (map Str.ascii_lower t)).
  { intros t Ht. unfold has_trigger, TIME_TRIGGER. fold word.
    rewrite (lower_ascii h word Hword), (lower_ascii h t Ht).
    reflexivity. }
  split; [apply Hone; exact Htext |].
  intros text' Htext' Hsame.
  rewrite (Hone text' Htext'), (Hone text Htext), Hsame. reflexivity.
Qed.

Lemma has_trigger_ascii_witness :
  has_trigger sample_host default_environ (lit "What !TiMe is it")
  = Str.contains (map Str.ascii_lower (lit "!time"))
      (map Str.ascii_lower (lit "What !TiMe is it")).
Proof.
  apply (@has_trigger_ascii sample_host default_environ (lit "What !TiMe is it"));
    reflexivity.
Defined.

(** A trigger word set to the empty string is found in every text: the
    service then answers every text message. *)
Theorem empty_trigger_matches_every_text
  (h : Host) (tzv bot : option str) (text : str) :
  has_trigger h {| env_TIMEZONE := tzv; env_TIME_TRIGGER := Some [];
                   env_BOT_NODE_ID := bot |} text = true.
Proof.
  unfold has_trigger, TIME_TRIGGER. cbn [env_TIME_TRIGGER getenv].
  change (Str.lower h []) with (@nil codepoint).
  destruct (Str.lower h text); reflexivity.
Qed.

(** *** Payloads that [json.loads] gives up on (lines 110-114) *)

Lemma decode_brackets (n : nat) (rest : bytes) (text : str) :
  Utf8.decode rest = Some text ->
  Utf8.decode (repeat x5b n ++ rest) = Some (repeat 91%N n ++ text).
Proof.
  intros Hrest. induction n as [|n IH]; [exact Hrest |].
  cbn [repeat app Utf8.decode]. rewrite IH. reflexivity.
Qed.

Lemma scan_once_brackets (h : Host) (text : str) (depth : nat) :
  forall n, (depth < n)%nat ->
    Json.scan_once h depth (repeat 91%N n ++ text) = Json.Escapes RecursionError.
Proof.
  induction depth as [|d IH]; intros n Hn.
  - destruct n as [|n]; [lia |]. reflexivity.
  - destruct n as [|[|n]]; [lia | lia |].
    cbn [repeat app Json.scan_once].
    rewrite (eq_refl : N.eqb 91 34 = false), (eq_refl : N.eqb 91 123 = false),
      (eq_refl : N.eqb 91 91 = true).
    unfold Json.parse_array. cbn [Json.skip_ws].
    rewrite (eq_refl : Json.is_ws 91%N = false), (eq_refl : N.eqb 91 93 = false).
    cbn [Json.array_items].
    change (91%N :: repeat 91%N n ++ text) with (repeat 91%N (S n) ++ text).
    rewrite IH by lia. reflexivity.
Qed.

(** A payload that opens more arrays than the interpreter lets the scanner
    enter makes [json.loads] raise [RecursionError], which the [except]
    clause of line 112 does not name: the exception leaves the handler,
    with nothing logged, whatever follows the brackets. *)
Theorem deeply_nested_payload_raises
  (h : Host) (env : Environ) (t : str) (n : nat) (rest : bytes) (text : str) :
  (6 <= length (Str.split (chr "/") t))%nat ->
  nth 4 (Str.split (chr "/") t) [] <> lit "mqtt" ->
  (recursion_limit h < n)%nat ->
  Utf8.decode rest = Some text ->
  on_message h env {| topic := t; payload := repeat x5b n ++ rest |}
  = raises [] RecursionError.
Proof.
  intros Hlen Hchan Hn Hrest.
  apply Nat.ltb_ge in Hlen. apply str_eqb_neq in Hchan.
  unfold on_message; cbv zeta; cbn [topic payload].
  rewrite Hlen, Hchan.
  unfold decode_payload. rewrite (decode_brackets n rest Hrest).
  unfold Json.loads.
  destruct n as [|n]; [lia |].
  cbn [repeat app Str.startswith Json.skip_ws].
  rewrite (eq_refl : N.eqb 65279 91 = false), (eq_refl : Json.is_ws 91%N = false).
  cbn [andb].
  change (91%N :: repeat 91%N n ++ text) with (repeat 91%N (S n) ++ text).
  rewrite (scan_once_brackets h text Hn). reflexivity.
Qed.

Lemma deeply_nested_payload_raises_witness :
  on_message sample_host default_environ
    {| topic := uplink_topic; payload := repeat x5b 1001 ++ [] |}
  = raises [] RecursionError.
Proof.
  apply (@deeply_nested_payload_raises sample_host default_environ uplink_topic
           1001 [] []).
  - rewrite uplink_topic_parts. simpl. lia.
  - rewrite uplink_topic_parts. vm_compute. discriminate.
  - simpl. lia.
  - reflexivity.
Defined.

(** *** The reply on the wire (lines 155-167) *)

Lemma hex_char_printable (d : N) :
  (d < 16)%N ->
  ((32 <=? Dumps.hex_char d) && (Dumps.hex_char d <=? 126))%N = true.
Proof.
  intros Hd. unfold Dumps.hex_char.
  destruct (N.ltb_spec d 10); apply andb_true_iff; split; apply N.leb_le; lia.
Qed.

Lemma u_escape_printable (c : N) :
  forallb (fun x => (32 <=? x) && (x <=? 126))%N (Dumps.u_escape c) = true.
Proof.
  unfold Dumps.u_escape. cbn [forallb].
  rewrite !hex_char_printable by (apply N.mod_lt; discriminate).
  reflexivity.
Qed.

Lemma escape_char_printable (c : codepoint) :
  forallb (fun x => (32 <=? x) && (x <=? 126))%N (Dumps.escape_char c) = true.
Proof.
  unfold Dumps.escape_char.
  repeat match goal with
         | |- context [if ?b then _ else _] => destruct b eqn:?
         end;
    try reflexivity;
    try apply u_escape_printable.
  - cbn [forallb]. rewrite andb_true_r. assumption.
  - cbv zeta. rewrite forallb_app, !u_escape_printable. reflexivity.
Qed.

Lemma encode_str_printable (s : str) :
  forallb (fun x => (32 <=? x) && (x <=? 126))%N (Dumps.encode_str s) = true.
Proof.
  unfold Dumps.encode_str. rewrite !forallb_app.
  apply andb_true_iff; split; [reflexivity |].
  apply andb_true_iff; split; [| reflexivity].
  induction s as [|c s IH]; [reflexivity |].
  change (flat_map Dumps.escape_char (c :: s))
    with (Dumps.escape_char c ++ flat_map Dumps.escape_char s).
  rewrite forallb_app, escape_char_printable. exact IH.
Qed.

Lemma digits_printable (s : str) :
  forallb Json.is_digit s = true ->
  forallb (fun x => (32 <=? x) && (x <=? 126))%N s = true.
Proof.
  intros H. apply forallb_forall. intros c Hin.
  rewrite forallb_forall in H. specialize (H c Hin).
  unfold Json.is_digit in H. apply andb_true_iff in H as [Ha Hb].
  apply N.leb_le in Ha. apply N.leb_le in Hb.
  apply andb_true_iff. split; apply N.leb_le; lia.
Qed.

Lemma encode_int_printable (h : Host) (z : Z) (t : str) :
  Dumps.encode_int h z = Some t ->
  forallb (fun x => (32 <=? x) && (x <=? 126))%N t = true.
Proof.
  unfold Dumps.encode_int. cbv zeta.
  destruct (Json.over_digit_limit h (length (decimal (Z.abs_N z))));
    [discriminate |].
  intros H. injection H as <-.
  rewrite forallb_app, (digits_printable _ (decimal_chars (Z.abs_N z))).
  destruct (z <? 0)%Z; reflexivity.
Qed.

Lemma encode_integer_printable (h : Host) (i : integer) (t : str) :
  Dumps.encode_integer h i = Some t ->
  forallb (fun x => (32 <=? x) && (x <=? 126))%N t = true.
Proof.
  destruct i as [z | [|]]; cbn [Dumps.encode_integer].
  - apply encode_int_printable.
  - intros H. injection H as <-. reflexivity.
  - intros H. injection H as <-. reflexivity.
Qed.

Lemma dumps_shape (h : Host) (r : Response) (payload_json : str) :
  Dumps.dumps h r = Some payload_json ->
  exists from_text to_text,
    Dumps.encode_int h (from_ r) = Some from_text /\
    Dumps.encode_integer h (to_ r) = Some to_text /\
    payload_json
    = jstr "{'from': " ++ from_text
        ++ jstr ", 'type': " ++ Dumps.encode_str (type_ r)
        ++ jstr ", 'payload': " ++ Dumps.encode_str (payload_ r)
        ++ jstr ", 'to': " ++ to_text ++ lit "}" /\
    forallb (fun c => (32 <=? c) && (c <=? 126))%N payload_json = true.
Proof.
  unfold Dumps.dumps. intros H.
  destruct (Dumps.encode_int h (from_ r)) as [f|] eqn:Hf; [| discriminate H].
  destruct (Dumps.encode_integer h (to_ r)) as [t|] eqn:Ht; [| discriminate H].
  apply (f_equal (fun o => match o with Some x => x | None => [] end)) in H.
  cbv beta iota in H. subst payload_json.
  exists f, t. split; [reflexivity | split; [reflexivity | split; [reflexivity |]]].
  rewrite !forallb_app.
  repeat (apply andb_true_iff; split);
    first [ reflexivity
          | apply encode_str_printable
          | apply (encode_int_printable h _ Hf)
          | apply (encode_integer_printable h _ Ht) ].
Qed.

(** The text of a reply: the four fields in the order of the literal with
    the separators [", "] and [": "], "from" the number of the gateway
    segment, "to" the "from" of the request as it was received, an integer
    or a boolean; printable ASCII from the first character to the last, the
    abbreviation of the time zone escaped where it is not; published with
    quality of service 0. *)
Theorem reply_wire_format
  (h : Host) (env : Environ) (m : Message) (p : publication) :
  In p (published (on_message h env m)) ->
  exists data sender gateway_decimal time_str from_text to_text,
    decode_payload h (payload m) = Decoded (PyDict data) /\
    as_integer (dict_get data (lit "from") PyNone) = Some sender /\
    hex_node_id_to_decimal h (gateway_of m) = Some gateway_decimal /\
    current_time_str h env = Some time_str /\
    Dumps.encode_int h gateway_decimal = Some from_text /\
    Dumps.encode_integer h sender = Some to_text /\
    pub_payload p
    = jstr "{'from': " ++ from_text
        ++ jstr ", 'type': 'sendtext', 'payload': "
        ++ Dumps.encode_str (lit "Current time: " ++ time_str)
        ++ jstr ", 'to': " ++ to_text ++ lit "}" /\
    forallb (fun c => (32 <=? c) && (c <=? 126))%N (pub_payload p) = true /\
    pub_qos p = 0%N.
Proof.
  intros Hin.
  assert (Hpub : published (on_message h env m) <> [])
    by (intros E; rewrite E in Hin; destruct Hin).
  destruct (on_message_published h env m Hpub)
    as (data & text & sender & gd & ts & pj & _ & _ & Hdec & _ & _ & _ & Hsender
        & _ & Hgd & Hts & Hpj & Heq).
  rewrite Heq in Hin. cbn [published] in Hin.
  destruct Hin as [<- | []]. cbn [pub_payload pub_qos].
  destruct (dumps_shape h _ Hpj) as (f & t & Hf & Ht & Htext & Hascii).
  cbn [from_ to_ type_ payload_] in Hf, Ht, Htext.
  exists data, sender, gd, ts, f, t.
  repeat (split; [assumption |]). reflexivity.
Qed.

Lemma reply_wire_format_witness :
  exists data sender gateway_decimal time_str from_text to_text,
    decode_payload sample_host (payload time_request) = Decoded (PyDict data) /\
    as_integer (dict_get data (lit "from") PyNone) = Some sender /\
    hex_node_id_to_decimal sample_host (gateway_of time_request)
    = Some gateway_decimal /\
    current_time_str sample_host default_environ = Some time_str /\
    Dumps.encode_int sample_host gateway_decimal = Some from_text /\
    Dumps.encode_integer sample_host sender = Some to_text /\
    pub_payload (hd {| pub_topic := []; pub_payload := []; pub_qos := 0 |}
                    (published (on_message sample_host default_environ
                                  time_request)))
    = jstr "{'from': " ++ from_text
        ++ jstr ", 'type': 'sendtext', 'payload': "
        ++ Dumps.encode_str (lit "Current time: " ++ time_str)
        ++ jstr ", 'to': " ++ to_text ++ lit "}".
Proof.
  destruct (@reply_wire_format sample_host default_environ time_request
              (hd {| pub_topic := []; pub_payload := []; pub_qos := 0 |}
                  (published (on_message sample_host default_environ
                                time_request))))
    as (data & sender & gd & ts & f & t & H1 & H2 & H3 & H4 & H5 & H6 & H7 & _).
  - vm_compute. left. reflexivity.
  - exists data, sender, gd, ts, f, t. repeat (split; [assumption |]). assumption.
Defined.

(** The log of a reply tells what was published: the handler logs a reply,
    at level INFO, exactly when it made the publish call with that topic
    and that payload. *)
Theorem published_reply_logged
  (h : Host) (env : Environ) (m : Message) (lv : level) (t pj : str) :
  In (lv, PublishedReply t pj) (logged (on_message h env m)) <->
  lv = INFO /\
  In {| pub_topic := t; pub_payload := pj; pub_qos := 0 |}
     (published (on_message h env m)).
Proof.
  handler_cases; cbn [logged published returns raises In];
    (split;
     [ intros H;
       repeat match type of H with
              | _ \/ _ => destruct H as [H | H]
              | False => destruct H
              end;
       try discriminate H;
       injection H as H1 H2 H3; subst;
       split; try reflexivity; left; reflexivity
     | intros [Hl H];
       repeat match type of H with
              | _ \/ _ => destruct H as [H | H]
              | False => destruct H
              end;
       injection H as H1 H2; subst;
       right; left; reflexivity ]).
Qed.

Lemma decode_encode_ascii (s : str) :
  forallb (fun c => c <? 128)%N s = true ->
  Utf8.decode (encode_ascii s) = Some s.
Proof.
  induction s as [|c s IH]; intros Hs; [reflexivity |].
  simpl in Hs. apply andb_true_iff in Hs as [Hc Hs].
  unfold encode_ascii in *. cbn [map].
  destruct (Byte.of_N c) as [b|] eqn:E.
  - apply Byte.to_of_N in E. cbn [Utf8.decode]. cbv zeta.
    rewrite E, Hc, (IH Hs). reflexivity.
  - apply Byte.of_N_None_iff in E. apply N.ltb_lt in Hc. lia.
Qed.

Lemma span_digits_all (s : str) :
  forallb Json.is_digit s = true -> Json.span_digits s = (s, []).
Proof.
  induction s as [|c s IH]; intros Hs; [reflexivity |].
  simpl in Hs. apply andb_true_iff in Hs as [Hc Hs].
  cbn [Json.span_digits]. rewrite Hc, (IH Hs). reflexivity.
Qed.

Lemma scan_once_long_integer (h : Host) (depth : nat) (c : codepoint) (r : str) :
  (49 <= c)%N -> forallb Json.is_digit (c :: r) = true ->
  Json.over_digit_limit h (length (c :: r)) = true ->
  Json.scan_once h depth (c :: r) = Json.Escapes ValueError.
Proof.
  intros Hc Hds Hover. pose proof Hds as Hall.
  simpl in Hds. apply andb_true_iff in Hds as [Hd Hr].
  unfold Json.is_digit in Hd. apply andb_true_iff in Hd as [_ Hhi].
  apply N.leb_le in Hhi.
  assert (Hne : forall k, (57 < k)%N -> N.eqb c k = false)
    by (intros k Hk; apply N.eqb_neq; lia).
  assert (Hminus : N.eqb c 45 = false) by (apply N.eqb_neq; lia).
  assert (Hquote : N.eqb c 34 = false) by (apply N.eqb_neq; lia).
  assert (Hsw : forall k p, (57 < k)%N -> Str.startswith (k :: p) (c :: r) = false).
  { intros k p Hk. cbn [Str.startswith].
    replace (N.eqb k c) with false; [reflexivity |].
    symmetry. apply N.eqb_neq. lia. }
  assert (Hinf : Str.startswith (lit "-Infinity") (c :: r) = false).
  { change (lit "-Infinity") with (45%N :: lit "Infinity"). cbn [Str.startswith].
    replace (N.eqb 45 c) with false; [reflexivity |].
    symmetry. apply N.eqb_neq. lia. }
  destruct depth; cbn [Json.scan_once];
    rewrite Hquote, !Hne by lia;
    change (lit "null") with (110%N :: lit "ull");
    change (lit "true") with (116%N :: lit "rue");
    change (lit "false") with (102%N :: lit "alse");
    change (lit "NaN") with (78%N :: lit "aN");
    change (lit "Infinity") with (73%N :: lit "nfinity");
    rewrite !Hsw by lia;
    change (73%N :: lit "nfinity") with (lit "Infinity") in Hinf;
    rewrite Hinf;
    unfold Json.match_number, Json.sign_part, Json.int_part;
    rewrite Hminus;
    (replace ((49 <=? c)%N && (c <=? 57)%N) with true
      by (symmetry; apply andb_true_iff; split; apply N.leb_le; lia));
    rewrite (span_digits_all r Hr);
    cbn [Json.frac_part Json.exp_part];
    unfold Json.int_literal; rewrite Hover; reflexivity.
Qed.

(** A payload that is one integer literal longer than the digit limit of
    the interpreter makes [json.loads] raise [ValueError], which is not
    the [JSONDecodeError] that line 112 catches: the exception leaves the
    handler, with nothing logged. *)
Theorem oversized_integer_payload_raises
  (h : Host) (env : Environ) (t : str) (c : codepoint) (r : str) :
  (6 <= length (Str.split (chr "/") t))%nat ->
  nth 4 (Str.split (chr "/") t) [] <> lit "mqtt" ->
  (49 <= c)%N -> forallb Json.is_digit (c :: r) = true ->
  Json.over_digit_limit h (length (c :: r)) = true ->
  on_message h env {| topic := t; payload := encode_ascii (c :: r) |}
  = raises [] ValueError.
Proof.
  intros Hlen Hchan Hc Hds Hover.
  apply Nat.ltb_ge in Hlen. apply str_eqb_neq in Hchan.
  assert (Hascii : forallb (fun x => x <? 128)%N (c :: r) = true).
  { apply forallb_forall. intros x Hin. rewrite forallb_forall in Hds.
    specialize (Hds x Hin). unfold Json.is_digit in Hds.
    apply andb_true_iff in Hds as [_ Hhi]. apply N.leb_le in Hhi.
    apply N.ltb_lt. lia. }
  pose proof Hds as Hall. simpl in Hds. apply andb_true_iff in Hds as [Hd _].
  unfold Json.is_digit in Hd. apply andb_true_iff in Hd as [_ Hhi].
  apply N.leb_le in Hhi.
  unfold on_message; cbv zeta; cbn [topic payload].
  rewrite Hlen, Hchan.
  unfold decode_payload. rewrite (decode_encode_ascii _ Hascii).
  unfold Json.loads. cbn [Str.startswith Json.skip_ws].
  replace (N.eqb 65279 c) with false by (symmetry; apply N.eqb_neq; lia).
  replace (Json.is_ws c) with false.
  - cbn [andb]. rewrite (@scan_once_long_integer h _ c r Hc Hall Hover). reflexivity.
  - symmetry. unfold Json.is_ws.
    repeat (apply orb_false_iff; split); apply N.eqb_neq; lia.
Qed.

Lemma oversized_integer_payload_raises_witness :
  on_message sample_host default_environ
    {| topic := uplink_topic;
       payload := encode_ascii (49%N :: repeat 48%N 4300) |}
  = raises [] ValueError.
Proof.
  apply (@oversized_integer_payload_raises sample_host default_environ
           uplink_topic 49%N (repeat 48%N 4300)).
  - rewrite uplink_topic_parts. simpl. lia.
  - rewrite uplink_topic_parts. vm_compute. discriminate.
  - vm_compute. discriminate.
  - vm_compute. reflexivity.
  - vm_compute. reflexivity.
Defined.

(** *** The reply read back by [json.loads] *)

Lemma hex_digit_hex_char (d : N) :
  (d < 16)%N -> Json.hex_digit (Dumps.hex_char d) = Some d.
Proof.
  intros Hd. unfold Dumps.hex_char, Json.hex_digit, Json.is_digit.
  destruct (N.ltb_spec d 10).
  - replace ((48 <=? 48 + d)%N && (48 + d <=? 57)%N) with true
      by (symmetry; apply andb_true_iff; split; apply N.leb_le; lia).
    f_equal. lia.
  - replace ((48 <=? 87 + d)%N && (87 + d <=? 57)%N) with false
      by (symmetry; apply andb_false_iff; right; apply N.leb_gt; lia).
    replace ((97 <=? 87 + d)%N && (87 + d <=? 102)%N) with true
      by (symmetry; apply andb_true_iff; split; apply N.leb_le; lia).
    f_equal. lia.
Qed.

Lemma hex4_u_escape (c : N) :
  (c < 65536)%N ->
  Json.hex4 (Dumps.hex_char ((c / 4096) mod 16)) (Dumps.hex_char ((c / 256) mod 16))
    (Dumps.hex_char ((c / 16) mod 16)) (Dumps.hex_char (c mod 16))
  = Some c.
Proof.
  intros Hc. unfold Json.hex4.
  rewrite !hex_digit_hex_char by (apply N.mod_lt; discriminate).
  f_equal.
  pose proof (N.div_mod c 16 ltac:(discriminate)) as E0.
  pose proof (N.div_mod (c / 16) 16 ltac:(discriminate)) as E1.
  pose proof (N.div_mod (c / 16 / 16) 16 ltac:(discriminate)) as E2.
  rewrite N.Div0.div_div in E1, E2. rewrite N.Div0.div_div in E2.
  change (16 * 16)%N with 256%N in *. change (256 * 16)%N with 4096%N in *.
  assert (H3 : (c / 4096 < 16)%N)
    by (apply N.Div0.div_lt_upper_bound; exact Hc).
  rewrite (N.mod_small (c / 4096) 16 H3) in *.
  lia.
Qed.

Lemma scanstring_end (acc rest : str) :
  Json.scanstring acc (34%N :: rest) = Json.Scanned (rev acc) rest.
Proof. reflexivity. Qed.

Lemma scanstring_plain (acc : str) (c : codepoint) (r : str) :
  N.eqb c 34 = false -> N.eqb c 92 = false -> N.ltb c 32 = false ->
  Json.scanstring acc (c :: r) = Json.scanstring (c :: acc) r.
Proof. intros H1 H2 H3. cbn [Json.scanstring]. rewrite H1, H2, H3. reflexivity. Qed.

Lemma scanstring_short (acc : str) (e ch : codepoint) (r : str) :
  N.eqb e 117 = false -> Json.unescape e = Some ch ->
  Json.scanstring acc (92%N :: e :: r) = Json.scanstring (ch :: acc) r.
Proof.
  intros H1 H2.
  change (Json.scanstring acc (92%N :: e :: r))
    with (if N.eqb e 117
          then match r with
               | h1 :: h2 :: h3 :: h4 :: r2 =>
                   match Json.hex4 h1 h2 h3 h4 with
                   | None => Json.Malformed
                   | Some cp =>
                       if Json.is_high_surrogate cp then
                         match r2 with
                         | b :: u :: g1 :: g2 :: g3 :: g4 :: r3 =>
                             if (N.eqb b 92 && N.eqb u 117)%bool then
                               match Json.hex4 g1 g2 g3 g4 with
                               | None => Json.Malformed
                               | Some cp2 =>
                                   if Json.is_low_surrogate cp2
                                   then Json.scanstring
                                          (Json.join_surrogates cp cp2 :: acc) r3
                                   else Json.scanstring (cp :: acc) r2
                               end
                             else Json.scanstring (cp :: acc) r2
                         | _ => Json.scanstring (cp :: acc) r2
                         end
                       else Json.scanstring (cp :: acc) r2
                   end
               | _ => Json.Malformed
               end
          else match Json.unescape e with
               | Some ch0 => Json.scanstring (ch0 :: acc) r
               | None => Json.Malformed
               end).
  rewrite H1, H2. reflexivity.
Qed.

Lemma scanstring_single (acc : str) (h1 h2 h3 h4 : codepoint) (cp : N) (r : str) :
  Json.hex4 h1 h2 h3 h4 = Some cp -> Json.is_high_surrogate cp = false ->
  Json.scanstring acc (92%N :: 117%N :: h1 :: h2 :: h3 :: h4 :: r)
  = Json.scanstring (cp :: acc) r.
Proof.
  intros H1 H2.
  change (Json.scanstring acc (92%N :: 117%N :: h1 :: h2 :: h3 :: h4 :: r))
    with (match Json.hex4 h1 h2 h3 h4 with
          | None => Json.Malformed
          | Some cp =>
              if Json.is_high_surrogate cp then
                match r with
                | b :: u :: g1 :: g2 :: g3 :: g4 :: r3 =>
                    if (N.eqb b 92 && N.eqb u 117)%bool then
                      match Json.hex4 g1 g2 g3 g4 with
                      | None => Json.Malformed
                      | Some cp2 =>
                          if Json.is_low_surrogate cp2
                          then Json.scanstring
                                 (Json.join_surrogates cp cp2 :: acc) r3
                          else Json.scanstring (cp :: acc) r
                      end
                    else Json.scanstring (cp :: acc) r
                | _ => Json.scanstring (cp :: acc) r
                end
              else Json.scanstring (cp :: acc) r
          end).
  rewrite H1, H2. reflexivity.
Qed.

Lemma scanstring_pair
  (acc : str) (h1 h2 h3 h4 g1 g2 g3 g4 : codepoint) (hi lo : N) (r : str) :
  Json.hex4 h1 h2 h3 h4 = Some hi -> Json.is_high_surrogate hi = true ->
  Json.hex4 g1 g2 g3 g4 = Some lo -> Json.is_low_surrogate lo = true ->
  Json.scanstring acc
    (92%N :: 117%N :: h1 :: h2 :: h3 :: h4
       :: 92%N :: 117%N :: g1 :: g2 :: g3 :: g4 :: r)
  = Json.scanstring (Json.join_surrogates hi lo :: acc) r.
Proof.
  intros H1 H2 H3 H4.
  change (Json.scanstring acc
            (92%N :: 117%N :: h1 :: h2 :: h3 :: h4
               :: 92%N :: 117%N :: g1 :: g2 :: g3 :: g4 :: r))
    with (match Json.hex4 h1 h2 h3 h4 with
          | None => Json.Malformed
          | Some cp =>
              if Json.is_high_surrogate cp then
                match Json.hex4 g1 g2 g3 g4 with
                | None => Json.Malformed
                | Some cp2 =>
                    if Json.is_low_surrogate cp2
                    then Json.scanstring (Json.join_surrogates cp cp2 :: acc) r
                    else Json.scanstring (cp :: acc)
                           (92%N :: 117%N :: g1 :: g2 :: g3 :: g4 :: r)
                end
              else Json.scanstring (cp :: acc)
                     (92%N :: 117%N :: g1 :: g2 :: g3 :: g4 :: r)
          end).
  rewrite H1, H2, H3, H4. reflexivity.
Qed.

Lemma scanstring_escape_char (c : codepoint) (acc rest : str) :
  reads_back c = true ->
  Json.scanstring acc (Dumps.escape_char c ++ rest)
  = Json.scanstring (c :: acc) rest.
Proof.
  unfold reads_back. intros Hc. apply andb_true_iff in Hc as [Hhigh Hmax].
  apply negb_true_iff in Hhigh. apply N.leb_le in Hmax.
  unfold Dumps.escape_char.
  destruct (N.eqb_spec c 34) as [-> | H34];
    [apply (@scanstring_short acc 34%N 34%N rest); reflexivity |].
  destruct (N.eqb_spec c 92) as [-> | H92];
    [apply (@scanstring_short acc 92%N 92%N rest); reflexivity |].
  destruct (N.eqb_spec c 10) as [-> | H10];
    [apply (@scanstring_short acc 110%N 10%N rest); reflexivity |].
  destruct (N.eqb_spec c 13) as [-> | H13];
    [apply (@scanstring_short acc 114%N 13%N rest); reflexivity |].
  destruct (N.eqb_spec c 9) as [-> | H9];
    [apply (@scanstring_short acc 116%N 9%N rest); reflexivity |].
  destruct (N.eqb_spec c 12) as [-> | H12];
    [apply (@scanstring_short acc 102%N 12%N rest); reflexivity |].
  destruct (N.eqb_spec c 8) as [-> | H8];
    [apply (@scanstring_short acc 98%N 8%N rest); reflexivity |].
  destruct ((32 <=? c)%N && (c <=? 126)%N) eqn:Hprint.
  - apply andb_true_iff in Hprint as [Hlo _]. apply N.leb_le in Hlo.
    apply scanstring_plain.
    + apply N.eqb_neq. exact H34.
    + apply N.eqb_neq. exact H92.
    + apply N.ltb_ge. exact Hlo.
  - destruct (N.ltb_spec c 65536) as [Hbmp | Hastral].
    + apply scanstring_single; [apply hex4_u_escape; exact Hbmp | exact Hhigh].
    + cbv zeta.
      assert (Hsplit : exists q r : N,
                         (c - 65536 = 1024 * q + r)%N /\
                         ((c - 65536) / 1024)%N = q /\
                         ((c - 65536) mod 1024)%N = r /\
                         (q < 1024)%N /\ (r < 1024)%N).
      { exists (N.div (c - 65536) 1024), (N.modulo (c - 65536) 1024).
        split; [apply N.div_mod; discriminate |].
        split; [reflexivity | split; [reflexivity |]].
        split; [apply N.Div0.div_lt_upper_bound; lia |].
        apply N.mod_lt. discriminate. }
      destruct Hsplit as (q & r & Hc & -> & -> & Hq & Hr).
      unfold Dumps.u_escape. cbn [app].
      rewrite (@scanstring_pair acc _ _ _ _ _ _ _ _
                 (55296 + q)%N (56320 + r)%N rest).
      * f_equal. f_equal. unfold Json.join_surrogates. lia.
      * apply hex4_u_escape. lia.
      * unfold Json.is_high_surrogate.
        apply andb_true_iff; split; apply N.leb_le; lia.
      * apply hex4_u_escape. lia.
      * unfold Json.is_low_surrogate.
        apply andb_true_iff; split; apply N.leb_le; lia.
Qed.

Lemma scanstring_encoded (s : str) :
  forallb reads_back s = true ->
  forall acc rest,
    Json.scanstring acc (flat_map Dumps.escape_char s ++ 34%N :: rest)
    = Json.Scanned (rev acc ++ s) rest.
Proof.
  induction s as [|c s IH]; intros Hs acc rest.
  - cbn [flat_map app]. rewrite scanstring_end, app_nil_r. reflexivity.
  - simpl in Hs. apply andb_true_iff in Hs as [Hc Hs].
    change (flat_map Dumps.escape_char (c :: s))
      with (Dumps.escape_char c ++ flat_map Dumps.escape_char s).
    rewrite <- app_assoc, (scanstring_escape_char c _ _ Hc), (IH Hs).
    cbn [rev]. rewrite <- app_assoc. reflexivity.
Qed.

Lemma scan_once_encoded_str (h : Host) (depth : nat) (s rest : str) :
  forallb reads_back s = true ->
  Json.scan_once h depth (Dumps.encode_str s ++ rest) = Json.Scanned (PyStr s) rest.
Proof.
  intros Hs. unfold Dumps.encode_str.
  change (([34%N] ++ flat_map Dumps.escape_char s ++ [34%N]) ++ rest)
    with (34%N :: ((flat_map Dumps.escape_char s ++ [34%N]) ++ rest)).
  rewrite <- app_assoc. cbn [app].
  destruct depth; cbn [Json.scan_once];
    rewrite (eq_refl : N.eqb 34 34 = true), (scanstring_encoded s Hs);
    reflexivity.
Qed.

Lemma digits_le_zero (base : N) (fuel : nat) : digits_le base fuel 0 = [].
Proof. destruct fuel; reflexivity. Qed.

Lemma digits_le_last (base : N) (fuel : nat) :
  (1 < base)%N ->
  forall n, (n < base ^ N.of_nat fuel)%N -> n <> 0%N ->
    exists ds d, digits_le base fuel n = ds ++ [d] /\ d <> 0%N /\ (d < base)%N.
Proof.
  intros Hbase. induction fuel as [|f IH]; intros n Hn Hnz.
  - simpl in Hn. lia.
  - cbn [digits_le]. destruct (N.eqb_spec n 0) as [-> | _]; [contradiction |].
    destruct (N.eqb_spec (n / base) 0) as [Hq | Hq].
    + rewrite Hq, digits_le_zero. exists [], (n mod base)%N.
      split; [reflexivity |].
      pose proof (N.div_mod n base ltac:(lia)) as Hdm. rewrite Hq in Hdm.
      split; [lia | apply N.mod_lt; lia].
    + destruct (IH (n / base)%N) as (ds & d & Hds & Hd).
      * rewrite Nat2N.inj_succ, N.pow_succ_r' in Hn.
        apply N.Div0.div_lt_upper_bound. exact Hn.
      * exact Hq.
      * exists ((n mod base)%N :: ds), d. rewrite Hds. split; [reflexivity | exact Hd].
Qed.

(** [str(n)] is "0" or starts with a digit from 1 to 9. *)
Lemma decimal_head (n : N) :
  decimal n = [48%N] \/
  exists c r, decimal n = c :: r /\ (49 <= c)%N /\ (c <= 57)%N.
Proof.
  unfold decimal, digits.
  destruct (N.eqb_spec n 0) as [-> | Hnz]; [left; reflexivity |].
  destruct (@digits_le_last 10 (S (N.to_nat (N.log2 n))) ltac:(lia) n
              (@log2_fuel 10 n ltac:(lia)) Hnz) as (ds & d & -> & Hd & Hlt).
  right. rewrite rev_app_distr. cbn [rev app map].
  exists (48 + d)%N, (map (N.add 48) (rev ds)). split; [reflexivity | lia].
Qed.

Lemma span_digits_app (ds rest : str) :
  forallb Json.is_digit ds = true ->
  match rest with
  | [] => True
  | x :: _ => Json.is_digit x = false
  end ->
  Json.span_digits (ds ++ rest) = (ds, rest).
Proof.
  intros Hds Hrest. induction ds as [|c ds IH].
  - destruct rest as [|x rest]; [reflexivity |].
    cbn [app Json.span_digits]. rewrite Hrest. reflexivity.
  - simpl in Hds. apply andb_true_iff in Hds as [Hc Hds].
    cbn [app Json.span_digits]. rewrite Hc, (IH Hds). reflexivity.
Qed.

Lemma scan_once_number (h : Host) (depth : nat) (c : codepoint) (r : str) :
  (48 <= c /\ c <= 57)%N \/
  (c = 45%N /\ exists c1 r1, r = c1 :: r1 /\ (48 <= c1 /\ c1 <= 57)%N) ->
  Json.scan_once h depth (c :: r) = Json.match_number h (c :: r).
Proof.
  intros Hc.
  assert (Hle : (c <= 57)%N) by (destruct Hc as [? | [-> _]]; lia).
  assert (Hge : (45 <= c)%N) by (destruct Hc as [? | [-> _]]; lia).
  assert (Hne : forall k, (57 < k)%N -> N.eqb c k = false)
    by (intros k Hk; apply N.eqb_neq; lia).
  assert (Hquote : N.eqb c 34 = false) by (apply N.eqb_neq; lia).
  assert (Hsw : forall k p, (57 < k)%N -> Str.startswith (k :: p) (c :: r) = false).
  { intros k p Hk. cbn [Str.startswith].
    replace (N.eqb k c) with false; [reflexivity |].
    symmetry. apply N.eqb_neq. lia. }
  assert (Hinf : Str.startswith (lit "-Infinity") (c :: r) = false).
  { change (lit "-Infinity") with (45%N :: 73%N :: lit "nfinity").
    destruct Hc as [Hd | [-> (c1 & r1 & -> & Hc1)]].
    - cbn [Str.startswith].
      replace (N.eqb 45 c) with false; [reflexivity |].
      symmetry. apply N.eqb_neq. lia.
    - cbn [Str.startswith].
      replace (N.eqb 73 c1) with false; [apply andb_false_r |].
      symmetry. apply N.eqb_neq. lia. }
  destruct depth; cbn [Json.scan_once];
    rewrite Hquote, !Hne by lia;
    change (lit "null") with (110%N :: lit "ull");
    change (lit "true") with (116%N :: lit "rue");
    change (lit "false") with (102%N :: lit "alse");
    change (lit "NaN") with (78%N :: lit "aN");
    change (lit "Infinity") with (73%N :: lit "nfinity");
    rewrite !Hsw by lia;
    change (45%N :: 73%N :: lit "nfinity") with (lit "-Infinity") in Hinf;
    rewrite Hinf; reflexivity.
Qed.

Lemma match_number_encoded
  (h : Host) (z : Z) (text : str) (x : codepoint) (rest : str) :
  Dumps.encode_int h z = Some text -> x = 44%N \/ x = 125%N ->
  Json.match_number h (text ++ x :: rest) = Json.Scanned (PyInt z) (x :: rest).
Proof.
  unfold Dumps.encode_int. cbv zeta.
  destruct (Json.over_digit_limit h (length (decimal (Z.abs_N z)))) eqn:Hover;
    [discriminate |].
  intros Htext Hx.
  apply (f_equal (fun o => match o with Some t => t | None => [] end)) in Htext.
  cbv beta iota in Htext. subst text.
  pose proof (decimal_chars (Z.abs_N z)) as Hdigits.
  pose proof (decimal_value_decimal (Z.abs_N z)) as Hvalue.
  assert (Hxd : Json.is_digit x = false) by (destruct Hx as [-> | ->]; reflexivity).
  assert (Hfrac : Json.frac_part (x :: rest) = ([], x :: rest)).
  { unfold Json.frac_part. destruct rest as [|d1 rest]; [reflexivity |].
    replace (N.eqb x 46) with false by (destruct Hx as [-> | ->]; reflexivity).
    reflexivity. }
  assert (Hexp : Json.exp_part (x :: rest) = ([], x :: rest)).
  { unfold Json.exp_part.
    replace (N.eqb x 101 || N.eqb x 69)%bool with false
      by (destruct Hx as [-> | ->]; reflexivity).
    reflexivity. }
  assert (Hint : Json.int_part (decimal (Z.abs_N z) ++ x :: rest)
                 = Some (decimal (Z.abs_N z), x :: rest)).
  { destruct (decimal_head (Z.abs_N z)) as [E | (c & r & E & Hlo & Hhi)];
      rewrite E in *.
    - reflexivity.
    - simpl in Hdigits. apply andb_true_iff in Hdigits as [_ Hr].
      cbn [app Json.int_part].
      replace ((49 <=? c)%N && (c <=? 57)%N) with true
        by (symmetry; apply andb_true_iff; split; apply N.leb_le; lia).
      rewrite (span_digits_app r (x :: rest) Hr Hxd). reflexivity. }
  assert (Hsign : forall s, Json.sign_part (decimal (Z.abs_N z) ++ s)
                            = (false, decimal (Z.abs_N z) ++ s)).
  { intros s.
    destruct (decimal_head (Z.abs_N z)) as [E | (c & r & E & Hlo & Hhi)];
      rewrite E.
    - reflexivity.
    - cbn [app Json.sign_part].
      replace (N.eqb c 45) with false by (symmetry; apply N.eqb_neq; lia).
      reflexivity. }
  unfold Json.match_number.
  destruct (Z.ltb_spec z 0) as [Hneg | Hpos].
  - change (([45%N] ++ decimal (Z.abs_N z)) ++ x :: rest)
      with (45%N :: (decimal (Z.abs_N z) ++ x :: rest)).
    cbn [Json.sign_part]. rewrite (eq_refl : N.eqb 45 45 = true).
    rewrite Hint, Hfrac, Hexp. unfold Json.int_literal.
    rewrite Hover, Hvalue. do 2 f_equal. lia.
  - cbn [app]. rewrite Hsign, Hint, Hfrac, Hexp. unfold Json.int_literal.
    rewrite Hover, Hvalue. do 2 f_equal. lia.
Qed.

Lemma encode_int_head (h : Host) (z : Z) (text : str) :
  Dumps.encode_int h z = Some text ->
  exists c r, text = c :: r /\
    ((48 <= c /\ c <= 57)%N \/
     (c = 45%N /\ exists c1 r1, r = c1 :: r1 /\ (48 <= c1 /\ c1 <= 57)%N)).
Proof.
  unfold Dumps.encode_int. cbv zeta.
  destruct (Json.over_digit_limit h (length (decimal (Z.abs_N z))));
    [discriminate |].
  intros Htext.
  apply (f_equal (fun o => match o with Some t => t | None => [] end)) in Htext.
  cbv beta iota in Htext. subst text.
  assert (Hd : exists c r, decimal (Z.abs_N z) = c :: r /\ (48 <= c /\ c <= 57)%N).
  { destruct (decimal_head (Z.abs_N z)) as [E | (c & r & E & Hlo & Hhi)].
    - exists 48%N, []. split; [exact E | lia].
    - exists c, r. split; [exact E | lia]. }
  destruct Hd as (c & r & E & Hc). rewrite E.
  destruct (z <? 0)%Z.
  - exists 45%N, (c :: r). split; [reflexivity |].
    right. split; [reflexivity |]. exists c, r. split; [reflexivity | exact Hc].
  - exists c, r. split; [reflexivity | left; exact Hc].
Qed.

Lemma scan_once_encoded_integer
  (h : Host) (depth : nat) (v : value) (i : integer) (text : str)
  (x : codepoint) (rest : str) :
  as_integer v = Some i -> Dumps.encode_integer h i = Some text ->
  x = 44%N \/ x = 125%N ->
  Json.scan_once h depth (text ++ x :: rest) = Json.Scanned v (x :: rest).
Proof.
  intros Hv Htext Hx.
  destruct v as [| b | z | | | |]; try discriminate Hv;
    cbn [as_integer] in Hv; injection Hv as <-; cbn [Dumps.encode_integer] in Htext.
  - destruct b; injection Htext as <-; destruct depth; reflexivity.
  - destruct (@encode_int_head h z _ Htext) as (c & r & E & Hc).
    pose proof (@match_number_encoded h z text x rest Htext Hx) as Hnum.
    rewrite E in *. cbn [app] in *.
    rewrite scan_once_number; [exact Hnum |].
    destruct Hc as [Hc | [-> (c1 & r1 & -> & Hc1)]]; [left; exact Hc |].
    right. split; [reflexivity |]. exists c1, (r1 ++ x :: rest).
    split; [reflexivity | exact Hc1].
Qed.

Lemma skip_ws_encoded_integer (h : Host) (i : integer) (text rest : str) :
  Dumps.encode_integer h i = Some text ->
  Json.skip_ws (text ++ rest) = text ++ rest.
Proof.
  intros Htext. destruct i as [z | [|]]; cbn [Dumps.encode_integer] in Htext.
  - destruct (@encode_int_head h z _ Htext) as (c & r & -> & Hc).
    cbn [app Json.skip_ws].
    replace (Json.is_ws c) with false; [reflexivity |].
    symmetry. unfold Json.is_ws.
    repeat (apply orb_false_iff; split); apply N.eqb_neq;
      destruct Hc as [? | [-> _]]; lia.
  - injection Htext as <-. reflexivity.
  - injection Htext as <-. reflexivity.
Qed.

Lemma skip_ws_encoded_str (s rest : str) :
  Json.skip_ws (Dumps.encode_str s ++ rest) = Dumps.encode_str s ++ rest.
Proof. reflexivity. Qed.

Section Members.

Variable elem : str -> Json.scan value.

Lemma object_members_item
  (fuel : nat) (acc : dict) (key vtext : str) (v : value) (rest : str) :
  forallb reads_back key = true ->
  Json.skip_ws (vtext ++ lit ", " ++ rest) = vtext ++ lit ", " ++ rest ->
  elem (vtext ++ lit ", " ++ rest) = Json.Scanned v (lit ", " ++ rest) ->
  Json.skip_ws rest = rest ->
  Json.object_members elem (S fuel) acc
    (Dumps.encode_str key ++ lit ": " ++ vtext ++ lit ", " ++ rest)
  = Json.object_members elem fuel (dict_set acc key v) rest.
Proof.
  intros Hkey Hskip Helem Hrest.
  unfold Dumps.encode_str. rewrite <- !app_assoc.
  change (lit ": ") with [58%N; 32%N].
  change (lit ", ") with [44%N; 32%N] in *.
  cbn [app] in *.
  cbn [Json.object_members N.eqb Pos.eqb].
  rewrite (scanstring_encoded key Hkey).
  cbn [rev app Json.skip_ws Json.is_ws N.eqb Pos.eqb orb].
  rewrite Hskip, Helem.
  cbn [Json.skip_ws Json.is_ws N.eqb Pos.eqb orb].
  rewrite Hrest. reflexivity.
Qed.

Lemma object_members_last
  (fuel : nat) (acc : dict) (key vtext : str) (v : value) :
  forallb reads_back key = true ->
  Json.skip_ws (vtext ++ lit "}") = vtext ++ lit "}" ->
  elem (vtext ++ lit "}") = Json.Scanned v (lit "}") ->
  Json.object_members elem (S fuel) acc
    (Dumps.encode_str key ++ lit ": " ++ vtext ++ lit "}")
  = Json.Scanned (PyDict (dict_set acc key v)) [].
Proof.
  intros Hkey Hskip Helem.
  unfold Dumps.encode_str. rewrite <- !app_assoc.
  change (lit ": ") with [58%N; 32%N].
  change (lit "}") with [125%N] in *.
  cbn [app] in *.
  cbn [Json.object_members N.eqb Pos.eqb].
  rewrite (scanstring_encoded key Hkey).
  cbn [rev app Json.skip_ws Json.is_ws N.eqb Pos.eqb orb].
  rewrite Hskip, Helem.
  cbn [Json.skip_ws Json.is_ws N.eqb Pos.eqb orb].
  reflexivity.
Qed.

Lemma parse_object_encoded (key rest : str) :
  Json.parse_object elem (Dumps.encode_str key ++ rest)
  = Json.object_members elem (S (length (Dumps.encode_str key ++ rest))) []
      (Dumps.encode_str key ++ rest).
Proof. reflexivity. Qed.

End Members.

(** [json.loads] reads back what [json.dumps] wrote of a response. *)
Lemma loads_dumps (h : Host) (r : Response) (payload_json : str) (v_to : value) :
  Dumps.dumps h r = Some payload_json ->
  (0 < recursion_limit h)%nat ->
  forallb reads_back (type_ r) = true ->
  forallb reads_back (payload_ r) = true ->
  as_integer v_to = Some (to_ r) ->
  Json.loads h payload_json
  = Json.Loaded (PyDict [(lit "from", PyInt (from_ r));
                         (lit "type", PyStr (type_ r));
                         (lit "payload", PyStr (payload_ r));
                         (lit "to", v_to)]).
Proof.
  unfold Dumps.dumps. intros H Hlimit Htype Hpayload Hto.
  destruct (Dumps.encode_int h (from_ r)) as [f|] eqn:Hf; [| discriminate H].
  destruct (Dumps.encode_integer h (to_ r)) as [t|] eqn:Ht; [| discriminate H].
  apply (f_equal (fun o => match o with Some x => x | None => [] end)) in H.
  cbv beta iota in H. subst payload_json.
  destruct (recursion_limit h) as [|d] eqn:Hd; [lia |].
  unfold Json.loads. rewrite Hd.
  change (lit "{" ++ ?x) with (123%N :: x).
  cbn [Str.startswith Json.skip_ws Json.is_ws N.eqb Pos.eqb orb andb Json.scan_once].
  rewrite parse_object_encoded.
  match goal with
  | |- context [Json.object_members ?e (S (length ?s)) [] ?s] =>
      rewrite (@object_members_fuel e (@scan_once_shrinks h d)
                 (S (length s)) (S (S (S (S (length s))))) [] s
                 ltac:(lia) ltac:(lia))
  end.
  rewrite (@object_members_item (Json.scan_once h d) _ [] (lit "from") f
             (PyInt (from_ r)));
    [ | reflexivity
      | apply (@skip_ws_encoded_integer h (Int (from_ r))); exact Hf
      | apply (@scan_once_encoded_integer h d (PyInt (from_ r)) (Int (from_ r)));
        [reflexivity | exact Hf | left; reflexivity]
      | apply skip_ws_encoded_str ].
  rewrite (@object_members_item (Json.scan_once h d) _ _ (lit "type")
             (Dumps.encode_str (type_ r)) (PyStr (type_ r)));
    [ | reflexivity
      | apply skip_ws_encoded_str
      | apply scan_once_encoded_str; exact Htype
      | apply skip_ws_encoded_str ].
  rewrite (@object_members_item (Json.scan_once h d) _ _ (lit "payload")
             (Dumps.encode_str (payload_ r)) (PyStr (payload_ r)));
    [ | reflexivity
      | apply skip_ws_encoded_str
      | apply scan_once_encoded_str; exact Hpayload
      | apply skip_ws_encoded_str ].
  rewrite (@object_members_last (Json.scan_once h d) _ _ (lit "to") t v_to);
    [ reflexivity
    | reflexivity
    | apply (@skip_ws_encoded_integer h (to_ r)); exact Ht
    | apply (@scan_once_encoded_integer h d v_to (to_ r));
      [exact Hto | exact Ht | right; reflexivity] ].
Qed.

Lemma match_number_no_dict (h : Host) (s : str) (v : value) (r : str) :
  Json.match_number h s = Json.Scanned v r -> forall items, v <> PyDict items.
Proof.
  unfold Json.match_number, Json.int_literal. intros H items.
  scan_cases H; injection H as <- _; discriminate.
Qed.

Lemma scan_once_zero_no_dict (h : Host) (s : str) (v : value) (r : str) :
  Json.scan_once h 0 s = Json.Scanned v r -> forall items, v <> PyDict items.
Proof.
  intros H items. destruct s as [|c s0]; [discriminate H |].
  cbn [Json.scan_once] in H.
  repeat match type of H with
         | context [if ?b then _ else _] => destruct b eqn:?
         end;
    try discriminate H;
    try (apply match_number_no_dict with (items := items) in H; exact H);
    try (injection H as <- _; discriminate).
  destruct (Json.scanstring [] s0); try discriminate H.
  injection H as <- _. discriminate.
Qed.

(** A payload that decoded to an object was read by a scanner that may
    enter a container. *)
Lemma decoded_dict_limit (h : Host) (raw : bytes) (data : dict) :
  decode_payload h raw = Decoded (PyDict data) -> (0 < recursion_limit h)%nat.
Proof.
  unfold decode_payload, Json.loads. intros H.
  destruct (recursion_limit h) as [|d]; [| lia].
  scan_cases H. injection H as ->.
  match goal with
  | E : _ = Json.Loaded _ |- _ => scan_cases E; injection E as ->
  end.
  match goal with
  | E : Json.scan_once h 0 _ = Json.Scanned _ _ |- _ =>
      apply scan_once_zero_no_dict with (items := data) in E; contradiction
  end.
Qed.

Lemma digits_read_back (s : str) :
  forallb Json.is_digit s = true -> forallb reads_back s = true.
Proof.
  intros H. apply forallb_forall. intros c Hin.
  rewrite forallb_forall in H. specialize (H c Hin).
  unfold Json.is_digit in H. apply andb_true_iff in H as [_ Hhi].
  apply N.leb_le in Hhi. unfold reads_back, Json.is_high_surrogate.
  apply andb_true_iff. split; [| apply N.leb_le; lia].
  apply negb_true_iff, andb_false_iff. left. apply N.leb_gt. lia.
Qed.

Lemma zero_padded_reads_back (w : nat) (n : N) :
  forallb reads_back (zero_padded w n) = true.
Proof.
  apply digits_read_back. unfold zero_padded. cbv zeta.
  rewrite forallb_app, decimal_chars, andb_true_r.
  apply forallb_forall. intros c Hin. apply repeat_spec in Hin. subst. reflexivity.
Qed.

Lemma strftime_reads_back (t : datetime) :
  forallb reads_back (tzname t) = true -> forallb reads_back (strftime t) = true.
Proof.
  intros Hz. unfold strftime.
  rewrite !forallb_app, !zero_padded_reads_back, Hz. reflexivity.
Qed.

(** The reply is JSON that reads back as the response of lines 156-161:
    [json.loads] of the published text is the object with the four keys in
    the order of the literal, "from" the number of the gateway segment,
    "type" the text "sendtext", "payload" the text "Current time: " and the
    time string, "to" the very "from" of the request.  The abbreviation of
    the time zone may hold any character but a high surrogate. *)
Theorem reply_reads_back
  (h : Host) (env : Environ) (m : Message) (p : publication) :
  In p (published (on_message h env m)) ->
  (forall tz, pytz_timezone h (TIMEZONE env) = Some tz ->
              forallb reads_back (tzname (datetime_now h tz)) = true) ->
  exists data gateway_decimal time_str,
    decode_payload h (payload m) = Decoded (PyDict data) /\
    hex_node_id_to_decimal h (gateway_of m) = Some gateway_decimal /\
    current_time_str h env = Some time_str /\
    Json.loads h (pub_payload p)
    = Json.Loaded
        (PyDict [(lit "from", PyInt gateway_decimal);
                 (lit "type", PyStr (lit "sendtext"));
                 (lit "payload", PyStr (lit "Current time: " ++ time_str));
                 (lit "to", dict_get data (lit "from") PyNone)]).
Proof.
  intros Hin Hzone.
  assert (Hpub : published (on_message h env m) <> [])
    by (intros E; rewrite E in Hin; destruct Hin).
  destruct (on_message_published h env m Hpub)
    as (data & text & sender & gd & ts & pj & _ & _ & Hdec & _ & _ & _ & Hsender
        & _ & Hgd & Hts & Hpj & Heq).
  rewrite Heq in Hin. cbn [published] in Hin.
  destruct Hin as [<- | []]. cbn [pub_payload].
  exists data, gd, ts. repeat (split; [assumption |]).
  apply (@loads_dumps h _ pj (dict_get data (lit "from") PyNone) Hpj
           (decoded_dict_limit h _ Hdec)).
  - reflexivity.
  - cbn [payload_]. rewrite forallb_app. apply andb_true_iff. split; [reflexivity |].
    unfold current_time_str in Hts.
    destruct (pytz_timezone h (TIMEZONE env)) as [tz|] eqn:Htz; [| discriminate Hts].
    injection Hts as <-. apply strftime_reads_back, Hzone. reflexivity.
  - exact Hsender.
Qed.

Lemma reply_reads_back_witness :
  exists data gateway_decimal time_str,
    decode_payload sample_host (payload time_request) = Decoded (PyDict data) /\
    hex_node_id_to_decimal sample_host (gateway_of time_request)
    = Some gateway_decimal /\
    current_time_str sample_host default_environ = Some time_str /\
    Json.loads sample_host
      (pub_payload (hd {| pub_topic := []; pub_payload := []; pub_qos := 0 |}
                       (published (on_message sample_host default_environ
                                     time_request))))
    = Json.Loaded
        (PyDict [(lit "from", PyInt gateway_decimal);
                 (lit "type", PyStr (lit "sendtext"));
                 (lit "payload", PyStr (lit "Current time: " ++ time_str));
                 (lit "to", dict_get data (lit "from") PyNone)]).
Proof.
  apply (@reply_reads_back sample_host default_environ time_request).
  - vm_compute. left. reflexivity.
  - intros tz _. reflexivity.
Defined.
